(** * OMAP4+ CPU idle routines (arch/arm/mach-omap2/cpuidle_omap4plus.c)

    A shallow embedding of the three cpuidle entry callbacks
    ([omap_enter_idle_simple], [omap_enter_idle_coupled],
    [omap_enter_idle_smp]) and of [omap4_idle_init], together with the
    properties of the coupled-idle coordination protocol.

    The callbacks talk to the rest of the kernel through calls whose
    bodies live elsewhere (power domains, clock domains, notifier chains,
    the coupled barrier).  Every such call is recorded as an [event] in a
    chronological [trace]; values that a call hands back (the power state
    a domain reports, the peer's completion flag, a status code) are
    supplied by an environment record and are copied into the event. *)

From stdpp Require Import base numbers list gmap strings.

Local Open Scope Z_scope.

(** ** Data model *)

(** Functional power states.  The enumeration is declared in
    powerdomain.h; the driver names these four values. *)
Inductive pwrdm_func_state : Type :=
| PWRDM_FUNC_PWRST_OFF
| PWRDM_FUNC_PWRST_OSWR
| PWRDM_FUNC_PWRST_CSWR
| PWRDM_FUNC_PWRST_ON.

#[global] Instance pwrdm_func_state_eq_dec : EqDecision pwrdm_func_state.
Proof. solve_decision. Defined.

(** [struct idle_statedata]; [mpu_state_vote] is a u32. *)
Record idle_statedata : Type := mk_statedata {
  cpu_pwrst : pwrdm_func_state;
  mpu_pwrst : pwrdm_func_state;
  mpu_state_vote : Z
}.

Definition omap4_idle_data : list idle_statedata :=
  [ mk_statedata PWRDM_FUNC_PWRST_ON PWRDM_FUNC_PWRST_ON 0;
    mk_statedata PWRDM_FUNC_PWRST_OFF PWRDM_FUNC_PWRST_CSWR 0;
    mk_statedata PWRDM_FUNC_PWRST_OFF PWRDM_FUNC_PWRST_OSWR 0 ].

(** The power and clock domain handles held in the file's globals. *)
Inductive powerdomain : Type :=
| mpu_pd
| cpu_pd (cpu : nat).

Inductive clockdomain : Type :=
| cpu_clkdm (cpu : nat).

Inductive clock_evt : Type :=
| CLOCK_EVT_NOTIFY_BROADCAST_ON
| CLOCK_EVT_NOTIFY_BROADCAST_ENTER
| CLOCK_EVT_NOTIFY_BROADCAST_EXIT.

(** One constructor per call (or per access to the shared variables) that
    the callbacks make. *)
Inductive event : Type :=
| Ev_omap_do_wfi
| Ev_clockevents_notify (reason : clock_evt) (cpu_id : nat)
| Ev_pwrdm_read_fpwrst (pd : powerdomain) (seen : pwrdm_func_state)
| Ev_cpu_relax
| Ev_read_cpu_done (cpu : nat) (seen : bool)
| Ev_cpu_pm_enter
| Ev_cpu_pm_exit
| Ev_cpu_cluster_pm_enter
| Ev_cpu_cluster_pm_exit
| Ev_pwrdm_set_fpwrst (pd : powerdomain) (target : pwrdm_func_state)
| Ev_WARN_ON
| Ev_pwrdm_set_next_fpwrst (pd : powerdomain) (target : pwrdm_func_state)
| Ev_omap4_mpuss_enter_lowpower (cpu : nat) (target : pwrdm_func_state)
| Ev_omap4_enter_lowpower (cpu : nat) (target : pwrdm_func_state)
| Ev_write_cpu_done (cpu : nat) (b : bool)
| Ev_clkdm_wakeup (cd : clockdomain)
| Ev_clkdm_allow_idle (cd : clockdomain)
| Ev_parallel_barrier (cpu : nat)
| Ev_raw_spin_lock
| Ev_raw_spin_unlock
| Ev_write_vote (index : Z) (v : Z).

#[global] Instance powerdomain_eq_dec : EqDecision powerdomain.
Proof. solve_decision. Defined.
#[global] Instance clockdomain_eq_dec : EqDecision clockdomain.
Proof. solve_decision. Defined.
#[global] Instance clock_evt_eq_dec : EqDecision clock_evt.
Proof. solve_decision. Defined.
#[global] Instance event_eq_dec : EqDecision event.
Proof. solve_decision. Defined.

(** The file-scope variables the callbacks read and write, and the trace
    of what has been done so far. *)
Record machine : Type := mk_machine {
  cpu_done : list bool;                (* static bool cpu_done[NR_CPUS] *)
  state_ptr : list idle_statedata;     (* the table state_ptr points into *)
  trace : list event
}.

(** What is outside the calling CPU's control during one call. *)
Record environment : Type := mk_environment {
  dev_cpu : nat;                             (* dev->cpu *)
  processor_id : nat;                        (* smp_processor_id() *)
  cpu_online_mask : gset nat;
  cpu1_fpwrst : nat -> pwrdm_func_state;     (* k-th pwrdm_read_fpwrst(cpu_pd[1]) *)
  cpu1_done : nat -> bool;                   (* cpu_done[1] at the k-th inspection *)
  set_fpwrst_status : Z                      (* what pwrdm_set_fpwrst returns *)
}.

Definition num_online_cpus (mask : gset nat) : Z :=
  Z.of_nat (size mask).

Definition cpumask_test_cpu (cpu : nat) (mask : gset nat) : bool :=
  bool_decide (cpu ∈ mask).

(** ** A small monad for the callbacks

    [Spinning] is a busy-wait loop that has not left within the fuel
    given; [Undefined] is an access outside the state table. *)
Inductive outcome (A : Type) : Type :=
| Returned (a : A) (m : machine)
| Spinning (m : machine)
| Undefined.
Arguments Returned {A} a m.
Arguments Spinning {A} m.
Arguments Undefined {A}.

Definition sim (A : Type) : Type := machine -> outcome A.

#[global] Instance sim_ret : MRet sim := fun A a m => Returned a m.
#[global] Instance sim_bind : MBind sim := fun A B f c m =>
  match c m with
  | Returned a m' => f a m'
  | Spinning m' => Spinning m'
  | Undefined => Undefined
  end.

Definition emit (e : event) : sim unit := fun m =>
  Returned tt (mk_machine (cpu_done m) (state_ptr m) (trace m ++ [e])).

Definition when (b : bool) (c : sim unit) : sim unit :=
  if b then c else mret tt.

(** [cx = state_ptr + index], dereferenced.  An index outside the table
    gives no state: in C, forming that pointer or reading through it is
    undefined, and the callbacks that form it end in [Undefined]. *)
Definition state_at (tbl : list idle_statedata) (index : Z) : option idle_statedata :=
  if decide (0 ≤ index) then tbl !! Z.to_nat index else None.

Definition load_cx (index : Z) : sim idle_statedata := fun m =>
  match state_at (state_ptr m) index with
  | Some cx => Returned cx m
  | None => Undefined
  end.

(** [cpu_done[cpu] = b] *)
Definition write_cpu_done (cpu : nat) (b : bool) : sim unit := fun m =>
  Returned tt (mk_machine (<[cpu := b]> (cpu_done m)) (state_ptr m)
                          (trace m ++ [Ev_write_cpu_done cpu b])).

(** The leader reading the follower's flag: the cell holds whatever the
    follower last stored there. *)
Definition read_peer_done (env : environment) (k : nat) : sim bool := fun m =>
  let b := cpu1_done env k in
  Returned b (mk_machine (<[1%nat := b]> (cpu_done m)) (state_ptr m)
                         (trace m ++ [Ev_read_cpu_done 1 b])).

(** ** omap_enter_idle_simple *)
Definition omap_enter_idle_simple (index : Z) : sim Z :=
  emit Ev_omap_do_wfi ;; mret index.

(** ** omap_enter_idle_coupled *)

(** [dev->cpu == 0 && cpumask_test_cpu(1, cpu_online_mask)] *)
Definition is_leader (env : environment) : bool :=
  bool_decide (dev_cpu env = 0%nat) && cpumask_test_cpu 1 (cpu_online_mask env).

(** The wait loop of lines 109-122; the result [true] is [goto fail].
    [k] counts the iterations already made. *)
Fixpoint wait_cpu1_off (env : environment) (fuel k : nat) : sim bool :=
  match fuel with
  | O => fun m => Spinning m
  | S fuel' =>
      let seen := cpu1_fpwrst env k in
      emit (Ev_pwrdm_read_fpwrst (cpu_pd 1) seen) ;;
      if decide (seen = PWRDM_FUNC_PWRST_OFF) then mret false
      else
        emit Ev_cpu_relax ;;
        d ← read_peer_done env k;
        if d : bool then mret true else wait_cpu1_off env fuel' (S k)
  end.

(** Lines 125-169: everything between the wait loop and the [fail] label. *)
Definition coupled_sequence (env : environment) (cx : idle_statedata) : sim unit :=
  let cpu_id := processor_id env in
  emit (Ev_clockevents_notify CLOCK_EVT_NOTIFY_BROADCAST_ENTER cpu_id) ;;
  emit Ev_cpu_pm_enter ;;
  when (bool_decide (dev_cpu env = 0%nat))
    (emit (Ev_pwrdm_set_fpwrst mpu_pd (mpu_pwrst cx)) ;;
     when (bool_decide (set_fpwrst_status env ≠ 0)) (emit Ev_WARN_ON) ;;
     when (bool_decide (mpu_pwrst cx = PWRDM_FUNC_PWRST_OSWR))
       (emit Ev_cpu_cluster_pm_enter)) ;;
  emit (Ev_omap4_mpuss_enter_lowpower (dev_cpu env) (cpu_pwrst cx)) ;;
  write_cpu_done (dev_cpu env) true ;;
  when (is_leader env)
    (emit (Ev_pwrdm_set_next_fpwrst mpu_pd PWRDM_FUNC_PWRST_ON) ;;
     emit (Ev_clkdm_wakeup (cpu_clkdm 1)) ;;
     emit (Ev_pwrdm_set_next_fpwrst (cpu_pd 1) PWRDM_FUNC_PWRST_ON) ;;
     emit (Ev_clkdm_allow_idle (cpu_clkdm 1))) ;;
  emit Ev_cpu_pm_exit ;;
  when (bool_decide (mpu_pwrst cx = PWRDM_FUNC_PWRST_OSWR))
    (emit Ev_cpu_cluster_pm_exit) ;;
  emit (Ev_clockevents_notify CLOCK_EVT_NOTIFY_BROADCAST_EXIT cpu_id).

(** Lines 171-175, the [fail] label. *)
Definition coupled_fail_label (env : environment) (index : Z) : sim Z :=
  emit (Ev_parallel_barrier (dev_cpu env)) ;;
  write_cpu_done (dev_cpu env) false ;;
  mret index.

(** The whole callback.  [fuel] bounds the turns of the wait loop; the
    online mask is read at line 108 and again at line 148 and is taken
    not to change in between (CPU 0 is inside the idle path). *)
Definition omap_enter_idle_coupled (env : environment) (fuel : nat) (index : Z) : sim Z :=
  cx ← load_cx index;
  failed ← (if is_leader env then wait_cpu1_off env fuel 0 else mret false);
  (if failed : bool then mret tt else coupled_sequence env cx) ;;
  coupled_fail_label env index.

(** ** Observations on traces *)

(** The targets the shared MPU domain was commanded to, in order, by
    either of the two setters. *)
Definition mpu_target_of (e : event) : option pwrdm_func_state :=
  match e with
  | Ev_pwrdm_set_fpwrst mpu_pd t => Some t
  | Ev_pwrdm_set_next_fpwrst mpu_pd t => Some t
  | _ => None
  end.

Definition mpu_commands (tr : list event) : list pwrdm_func_state :=
  omap mpu_target_of tr.

(** A command that asks the MPU domain for anything below fully-on. *)
Definition lowers_mpu (e : event) : bool :=
  match mpu_target_of e with
  | Some t => bool_decide (t ≠ PWRDM_FUNC_PWRST_ON)
  | None => false
  end.

(** The power states domain [pd] reported, in order. *)
Definition report_of (pd : powerdomain) (e : event) : option pwrdm_func_state :=
  match e with
  | Ev_pwrdm_read_fpwrst pd' s => if decide (pd' = pd) then Some s else None
  | _ => None
  end.

Definition last_reported (pd : powerdomain) (tr : list event) : option pwrdm_func_state :=
  last (omap (report_of pd) tr).

(** What one turn of the wait loop may leave in the trace while the loop
    goes on. *)
Definition polling (e : event) : Prop :=
  match e with
  | Ev_pwrdm_read_fpwrst (cpu_pd 1) s => s ≠ PWRDM_FUNC_PWRST_OFF
  | Ev_cpu_relax => True
  | Ev_read_cpu_done 1 _ => True
  | _ => False
  end.

(** The events of lines 125-169 for a given CPU and state. *)
Definition coupled_sequence_events (env : environment) (cx : idle_statedata) : list event :=
  [Ev_clockevents_notify CLOCK_EVT_NOTIFY_BROADCAST_ENTER (processor_id env);
   Ev_cpu_pm_enter]
  ++ (if bool_decide (dev_cpu env = 0%nat) then
        [Ev_pwrdm_set_fpwrst mpu_pd (mpu_pwrst cx)]
        ++ (if bool_decide (set_fpwrst_status env ≠ 0) then [Ev_WARN_ON] else [])
        ++ (if bool_decide (mpu_pwrst cx = PWRDM_FUNC_PWRST_OSWR)
            then [Ev_cpu_cluster_pm_enter] else [])
      else [])
  ++ [Ev_omap4_mpuss_enter_lowpower (dev_cpu env) (cpu_pwrst cx);
      Ev_write_cpu_done (dev_cpu env) true]
  ++ (if is_leader env then
        [Ev_pwrdm_set_next_fpwrst mpu_pd PWRDM_FUNC_PWRST_ON;
         Ev_clkdm_wakeup (cpu_clkdm 1);
         Ev_pwrdm_set_next_fpwrst (cpu_pd 1) PWRDM_FUNC_PWRST_ON;
         Ev_clkdm_allow_idle (cpu_clkdm 1)]
      else [])
  ++ [Ev_cpu_pm_exit]
  ++ (if bool_decide (mpu_pwrst cx = PWRDM_FUNC_PWRST_OSWR)
      then [Ev_cpu_cluster_pm_exit] else [])
  ++ [Ev_clockevents_notify CLOCK_EVT_NOTIFY_BROADCAST_EXIT (processor_id env)].

Definition fail_label_events (env : environment) : list event :=
  [Ev_parallel_barrier (dev_cpu env); Ev_write_cpu_done (dev_cpu env) false].

(** The wait loop is left at its [n]-th test (counting from [k]): until
    then the follower reports something other than off and its flag is
    down, and at that test it reports off or its flag is up. *)
Definition leaves_wait (env : environment) (k n : nat) : Prop :=
  (∀ j, (k ≤ j < k + n)%nat →
        cpu1_fpwrst env j ≠ PWRDM_FUNC_PWRST_OFF ∧ cpu1_done env j = false)
  ∧ (cpu1_fpwrst env (k + n) = PWRDM_FUNC_PWRST_OFF ∨ cpu1_done env (k + n) = true).


(** The three ways through the callback, as the events they leave. *)
Inductive coupled_path (env : environment) (cx : idle_statedata) : list event → Prop :=
| path_unwaited :
    is_leader env = false →
    coupled_path env cx (coupled_sequence_events env cx ++ fail_label_events env)
| path_full polls :
    is_leader env = true → Forall polling polls →
    coupled_path env cx
      (polls ++ [Ev_pwrdm_read_fpwrst (cpu_pd 1) PWRDM_FUNC_PWRST_OFF]
             ++ coupled_sequence_events env cx ++ fail_label_events env)
| path_abort polls :
    is_leader env = true → Forall polling polls →
    coupled_path env cx (polls ++ [Ev_read_cpu_done 1 true] ++ fail_label_events env).

(** ** omap_enter_idle_smp *)

(** Arithmetic on the u32 vote counter. *)
Definition u32 (z : Z) : Z := z mod 2 ^ 32.

(** [cx->mpu_state_vote = v], through the pointer [state_ptr + index]. *)
Definition store_vote (index : Z) (v : Z) : sim unit := fun m =>
  match state_at (state_ptr m) index with
  | Some cx =>
      Returned tt
        (mk_machine (cpu_done m)
           (<[Z.to_nat index := mk_statedata (cpu_pwrst cx) (mpu_pwrst cx) v]> (state_ptr m))
           (trace m ++ [Ev_write_vote index v]))
  | None => Undefined
  end.

(** Lines 186-195: the broadcast notification, the first critical section
    under [mpu_lock], and the call that puts the CPU to sleep.  [cx] is a
    pointer, so each use of a field reads the table again.  The source
    passes [cx->cpu_state] to [omap4_enter_lowpower]; the structure calls
    the per-CPU target [cpu_pwrst]. *)
Definition smp_vote_enter (env : environment) (index : Z) : sim unit :=
  emit (Ev_clockevents_notify CLOCK_EVT_NOTIFY_BROADCAST_ENTER (processor_id env)) ;;
  emit Ev_raw_spin_lock ;;
  cx ← load_cx index;
  store_vote index (u32 (mpu_state_vote cx + 1)) ;;
  cx ← load_cx index;
  when (bool_decide (mpu_state_vote cx = num_online_cpus (cpu_online_mask env)))
    (emit (Ev_pwrdm_set_next_fpwrst mpu_pd (mpu_pwrst cx))) ;;
  emit Ev_raw_spin_unlock ;;
  emit (Ev_omap4_enter_lowpower (dev_cpu env) (cpu_pwrst cx)).

(** Lines 197-204: the second critical section and the closing
    notification. *)
Definition smp_vote_exit (env : environment) (index : Z) : sim unit :=
  emit Ev_raw_spin_lock ;;
  cx ← load_cx index;
  when (bool_decide (mpu_state_vote cx = num_online_cpus (cpu_online_mask env)))
    (emit (Ev_pwrdm_set_next_fpwrst mpu_pd PWRDM_FUNC_PWRST_ON)) ;;
  cx ← load_cx index;
  store_vote index (u32 (mpu_state_vote cx - 1)) ;;
  emit Ev_raw_spin_unlock ;;
  emit (Ev_clockevents_notify CLOCK_EVT_NOTIFY_BROADCAST_EXIT (processor_id env)).

Definition omap_enter_idle_smp (env : environment) (index : Z) : sim Z :=
  smp_vote_enter env index ;;
  smp_vote_exit env index ;;
  mret index.

(** *** Several CPUs in [omap_enter_idle_smp] at once

    [mpu_lock] makes each critical section atomic, and a CPU sleeps
    between its two sections, so a run of the system is an interleaving
    of the halves [smp_vote_enter] and [smp_vote_exit] of the CPUs'
    calls.  [inside] holds, for each CPU that is between its two halves,
    the [index] of its call.  The events a half leaves outside the lock
    (the broadcast notification, the low-power entry) are recorded with
    the half they belong to: across CPUs only the order of the counter
    stores and of the MPU commands is meaningful in the trace of a run. *)
Record smp_system : Type := mk_smp_system {
  sys_machine : machine;
  inside : gmap nat Z
}.

Inductive action : Type :=
| Enter (cpu : nat) (index : Z)
| Exit (cpu : nat).

(** The environment of online CPU [cpu]; the fields only the coupled
    callback reads do not matter here. *)
Definition cpu_env (mask : gset nat) (cpu : nat) : environment :=
  mk_environment cpu cpu mask (λ _, PWRDM_FUNC_PWRST_ON) (λ _, false) 0.

(** One half of one CPU's call.  [None]: the step cannot happen (the CPU
    is not online, it is already inside its call, it is not inside, or the
    index lies outside the table). *)
Definition smp_step (mask : gset nat) (s : smp_system) (a : action) : option smp_system :=
  match a with
  | Enter cpu index =>
      if decide (cpu ∈ mask) then
        match inside s !! cpu with
        | Some _ => None
        | None =>
            match smp_vote_enter (cpu_env mask cpu) index (sys_machine s) with
            | Returned _ m' => Some (mk_smp_system m' (<[cpu := index]> (inside s)))
            | _ => None
            end
        end
      else None
  | Exit cpu =>
      match inside s !! cpu with
      | Some index =>
          match smp_vote_exit (cpu_env mask cpu) index (sys_machine s) with
          | Returned _ m' => Some (mk_smp_system m' (delete cpu (inside s)))
          | _ => None
          end
      | None => None
      end
  end.

Fixpoint smp_run (mask : gset nat) (s : smp_system) (sched : list action) : option smp_system :=
  match sched with
  | [] => Some s
  | a :: sched' =>
      match smp_step mask s a with
      | Some s' => smp_run mask s' sched'
      | None => None
      end
  end.

(** The system before any CPU has voted: every counter of the table is
    zero, as the static initialisers leave it. *)
Definition smp_boot (tbl : list idle_statedata) : smp_system :=
  mk_smp_system (mk_machine [] tbl []) ∅.

Definition votes_clear (tbl : list idle_statedata) : Prop :=
  Forall (λ cx, mpu_state_vote cx = 0) tbl.

(** The vote counter of the state at [index]. *)
Definition vote_at (s : smp_system) (index : Z) : option Z :=
  mpu_state_vote <$> state_at (state_ptr (sys_machine s)) index.

(** The MPU commands of a trace come in pairs: a command to a state's
    target, then the command back to fully-on.  The flag says whether the
    last pair is still open. *)
Inductive paired : list pwrdm_func_state → bool → Prop :=
| paired_none : paired [] false
| paired_lowered cmds target : paired cmds false → paired (cmds ++ [target]) true
| paired_restored cmds : paired cmds true → paired (cmds ++ [PWRDM_FUNC_PWRST_ON]) false.

(** ** Driver tables and omap4_idle_init *)

Inductive idle_callback : Type :=
| enter_simple
| enter_coupled
| enter_smp.

Record cpuidle_state : Type := mk_cpuidle_state {
  exit_latency : Z;
  target_residency : Z;
  flag_time_valid : bool;              (* CPUIDLE_FLAG_TIME_VALID *)
  flag_coupled : bool;                 (* CPUIDLE_FLAG_COUPLED *)
  enter : idle_callback;
  name : string;
  desc : string
}.

Record cpuidle_driver : Type := mk_cpuidle_driver {
  drv_name : string;
  en_core_tk_irqen : bool;
  states : list cpuidle_state;
  state_count : nat;
  safe_state_index : nat
}.

(** What the initialisers of [omap5_idle_data] are written with. *)
Inductive pwrdm_power_state : Type :=
| PWRDM_POWER_OFF
| PWRDM_POWER_RET
| PWRDM_POWER_ON.

Record omap5_statedata : Type := mk_omap5_statedata {
  cpu_state : pwrdm_power_state;
  mpu_state : pwrdm_power_state;
  mpu_logic_state : pwrdm_power_state
}.

Definition omap5_idle_data : list omap5_statedata :=
  [ mk_omap5_statedata PWRDM_POWER_ON PWRDM_POWER_ON PWRDM_POWER_RET;
    mk_omap5_statedata PWRDM_POWER_RET PWRDM_POWER_RET PWRDM_POWER_RET;
    mk_omap5_statedata PWRDM_POWER_OFF PWRDM_POWER_RET PWRDM_POWER_OFF ].

Definition omap4_idle_driver : cpuidle_driver :=
  mk_cpuidle_driver "omap4_idle" false
    [ mk_cpuidle_state (2 + 2) 5 true false enter_simple "C1" "CPUx ON, MPUSS ON";
      mk_cpuidle_state (328 + 440) 960 true true enter_coupled "C2" "CPUx OFF, MPUSS CSWR";
      mk_cpuidle_state (460 + 518) 1100 true true enter_coupled "C3" "CPUx OFF, MPUSS OSWR" ]
    (length omap4_idle_data) 0.

Definition omap5_idle_driver : cpuidle_driver :=
  mk_cpuidle_driver "omap5_idle" true
    [ mk_cpuidle_state (2 + 2) 5 true false enter_simple "C1" "MPUSS ON";
      mk_cpuidle_state (16 + 16) 40 true false enter_smp "C2" "MPUSS CSWR";
      mk_cpuidle_state (460 + 518) 1100 true true enter_coupled "C3" "MPUSS OSWR" ]
    (length omap5_idle_data) 0.

(** The framework calling a state's [enter] hook. *)
Definition invoke (cb : idle_callback) (env : environment) (fuel : nat) (index : Z) : sim Z :=
  match cb with
  | enter_simple => omap_enter_idle_simple index
  | enter_coupled => omap_enter_idle_coupled env fuel index
  | enter_smp => omap_enter_idle_smp env index
  end.

(** errno-base.h, outside this source tree, gives ENODEV the value 19. *)
Definition ENODEV : Z := 19.

(** The platform as [omap4_idle_init] finds it: what the lookups return
    (a handle, or nothing for NULL), which SoC this is, and the status
    the cpuidle framework answers a registration with. *)
Record platform : Type := mk_platform {
  pwrdm_lookup : string → option nat;
  clkdm_lookup : string → option nat;
  cpu_is_omap44xx : bool;
  soc_is_omap54xx : bool;
  online_cpus : gset nat;
  cpuidle_register : cpuidle_driver → Z;
  cpuidle_register_driver : cpuidle_driver → Z
}.

Inductive idle_table : Type :=
| omap4_table
| omap5_table.

(** The file-scope handles and the table pointer. *)
Record globals : Type := mk_globals {
  g_mpu_pd : option nat;
  g_cpu_pd : list (option nat);
  g_cpu_clkdm : list (option nat);
  g_state_ptr : option idle_table
}.

Inductive init_event : Type :=
| Iv_pwrdm_lookup (name : string)
| Iv_clkdm_lookup (name : string)
| Iv_setup_broadcast_timer (cpu : nat)       (* omap_setup_broadcast_timer on [cpu] *)
| Iv_cpuidle_register (drv : cpuidle_driver)
| Iv_cpuidle_register_driver (drv : cpuidle_driver).

Definition is_registration (e : init_event) : bool :=
  match e with
  | Iv_cpuidle_register _ | Iv_cpuidle_register_driver _ => true
  | _ => false
  end.

Definition is_null (p : option nat) : bool :=
  match p with Some _ => false | None => true end.

(** [on_each_cpu(omap_setup_broadcast_timer, NULL, 1)] *)
Definition on_each_cpu_setup_broadcast_timer (p : platform) : list init_event :=
  Iv_setup_broadcast_timer <$> elements (online_cpus p).

Definition omap4_idle_init (p : platform) (g : globals) : Z * globals * list init_event :=
  let mpu := pwrdm_lookup p "mpu_pwrdm" in
  let cpu0 := pwrdm_lookup p "cpu0_pwrdm" in
  let cpu1 := pwrdm_lookup p "cpu1_pwrdm" in
  let g1 := mk_globals mpu (<[1%nat := cpu1]> (<[0%nat := cpu0]> (g_cpu_pd g)))
                       (g_cpu_clkdm g) (g_state_ptr g) in
  let t1 := [Iv_pwrdm_lookup "mpu_pwrdm"; Iv_pwrdm_lookup "cpu0_pwrdm";
             Iv_pwrdm_lookup "cpu1_pwrdm"] in
  if is_null mpu || is_null cpu0 || is_null cpu1 then (- ENODEV, g1, t1)
  else
    let clk0 := clkdm_lookup p "mpu0_clkdm" in
    let clk1 := clkdm_lookup p "mpu1_clkdm" in
    let g2 := mk_globals (g_mpu_pd g1) (g_cpu_pd g1)
                         (<[1%nat := clk1]> (<[0%nat := clk0]> (g_cpu_clkdm g1)))
                         (g_state_ptr g1) in
    let t2 := t1 ++ [Iv_clkdm_lookup "mpu0_clkdm"; Iv_clkdm_lookup "mpu1_clkdm"] in
    if is_null clk0 || is_null clk1 then (- ENODEV, g2, t2)
    else
      let t3 := t2 ++ on_each_cpu_setup_broadcast_timer p in
      if cpu_is_omap44xx p then
        (cpuidle_register p omap4_idle_driver,
         mk_globals (g_mpu_pd g2) (g_cpu_pd g2) (g_cpu_clkdm g2) (Some omap4_table),
         t3 ++ [Iv_cpuidle_register omap4_idle_driver])
      else if soc_is_omap54xx p then
        (cpuidle_register_driver p omap5_idle_driver,
         mk_globals (g_mpu_pd g2) (g_cpu_pd g2) (g_cpu_clkdm g2) (Some omap5_table),
         t3 ++ [Iv_cpuidle_register_driver omap5_idle_driver])
      else (- ENODEV, g2, t3).


(** ** Further observations *)

(** The machine a call has reached, whether it returned or is still in
    its wait loop. *)
Definition final {A : Type} (o : outcome A) : option machine :=
  match o with
  | Returned _ m => Some m
  | Spinning m => Some m
  | Undefined => None
  end.

(** The target the MPU domain stands commanded to after a trace, when it
    stood at [before] at the start. *)
Definition mpu_standing (before : pwrdm_func_state) (tr : list event) : pwrdm_func_state :=
  default before (last (mpu_commands tr)).

(** [want] occurs in [tr], in this order (other events may lie between). *)
Fixpoint in_order (want tr : list event) : bool :=
  match want, tr with
  | [], _ => true
  | _ :: _, [] => false
  | w :: want', e :: tr' =>
      if decide (w = e) then in_order want' tr' else in_order want tr'
  end.

(** The leader's sequence in the order the specification lists it:
    broadcast source, cluster-level suspend chain, shared domain to its
    target, the low-power instruction; then shared domain to fully-on,
    the follower's clock domain, the follower's domain to fully-on,
    cluster-level resume chain, clock events back. *)
Definition leader_order_as_specified (env : environment) (cx : idle_statedata) : list event :=
  [Ev_clockevents_notify CLOCK_EVT_NOTIFY_BROADCAST_ENTER (processor_id env);
   Ev_cpu_cluster_pm_enter;
   Ev_pwrdm_set_fpwrst mpu_pd (mpu_pwrst cx);
   Ev_omap4_mpuss_enter_lowpower (dev_cpu env) (cpu_pwrst cx);
   Ev_pwrdm_set_next_fpwrst mpu_pd PWRDM_FUNC_PWRST_ON;
   Ev_clkdm_wakeup (cpu_clkdm 1);
   Ev_pwrdm_set_next_fpwrst (cpu_pd 1) PWRDM_FUNC_PWRST_ON;
   Ev_cpu_cluster_pm_exit;
   Ev_clockevents_notify CLOCK_EVT_NOTIFY_BROADCAST_EXIT (processor_id env)].

(** The leader's sequence as the callback runs it, once the follower has
    reported off. *)
Definition leader_sequence (env : environment) (cx : idle_statedata) : list event :=
  [Ev_clockevents_notify CLOCK_EVT_NOTIFY_BROADCAST_ENTER (processor_id env);
   Ev_cpu_pm_enter;
   Ev_pwrdm_set_fpwrst mpu_pd (mpu_pwrst cx)]
  ++ (if bool_decide (set_fpwrst_status env ≠ 0) then [Ev_WARN_ON] else [])
  ++ (if bool_decide (mpu_pwrst cx = PWRDM_FUNC_PWRST_OSWR)
      then [Ev_cpu_cluster_pm_enter] else [])
  ++ [Ev_omap4_mpuss_enter_lowpower 0 (cpu_pwrst cx);
      Ev_write_cpu_done 0 true;
      Ev_pwrdm_set_next_fpwrst mpu_pd PWRDM_FUNC_PWRST_ON;
      Ev_clkdm_wakeup (cpu_clkdm 1);
      Ev_pwrdm_set_next_fpwrst (cpu_pd 1) PWRDM_FUNC_PWRST_ON;
      Ev_clkdm_allow_idle (cpu_clkdm 1);
      Ev_cpu_pm_exit]
  ++ (if bool_decide (mpu_pwrst cx = PWRDM_FUNC_PWRST_OSWR)
      then [Ev_cpu_cluster_pm_exit] else [])
  ++ [Ev_clockevents_notify CLOCK_EVT_NOTIFY_BROADCAST_EXIT (processor_id env)].

(** Concrete settings used to exercise the callbacks: two online CPUs, a
    machine on the OMAP4 table, a leader whose follower reports on twice
    and then off, a leader whose follower raises its flag at once, and
    the follower itself. *)
Definition both_online : gset nat := {[0%nat; 1%nat]}.

Definition omap4_machine : machine := mk_machine [false; false] omap4_idle_data [].

Definition leader_follower_sleeps : environment :=
  mk_environment 0 0 both_online
    (λ k, if decide (k < 2)%nat then PWRDM_FUNC_PWRST_ON else PWRDM_FUNC_PWRST_OFF)
    (λ _, false) 0.

Definition leader_follower_done : environment :=
  mk_environment 0 0 both_online (λ _, PWRDM_FUNC_PWRST_ON) (λ _, true) 0.

Definition follower_env : environment :=
  mk_environment 1 1 both_online (λ _, PWRDM_FUNC_PWRST_ON) (λ _, false) 0.

(** Neither a barrier call nor the clearing of a completion flag. *)
Definition before_barrier (e : event) : Prop :=
  match e with
  | Ev_parallel_barrier _ => False
  | Ev_write_cpu_done _ false => False
  | _ => True
  end.

(** ** Observations on the symmetric variant *)

(** The CPUs inside a call for the state at table position [p]. *)
Definition voters (ins : gmap nat Z) (p : nat) : nat :=
  size (filter (λ kv : nat * Z, Z.to_nat kv.2 = p) ins).

(** The events of the two halves, for the state [cx] found at [index]
    when the half starts. *)
Definition smp_enter_events (env : environment) (index : Z) (cx : idle_statedata) : list event :=
  [Ev_clockevents_notify CLOCK_EVT_NOTIFY_BROADCAST_ENTER (processor_id env);
   Ev_raw_spin_lock;
   Ev_write_vote index (u32 (mpu_state_vote cx + 1))]
  ++ (if bool_decide (u32 (mpu_state_vote cx + 1) = num_online_cpus (cpu_online_mask env))
      then [Ev_pwrdm_set_next_fpwrst mpu_pd (mpu_pwrst cx)] else [])
  ++ [Ev_raw_spin_unlock;
      Ev_omap4_enter_lowpower (dev_cpu env) (cpu_pwrst cx)].

Definition smp_exit_events (env : environment) (index : Z) (cx : idle_statedata) : list event :=
  [Ev_raw_spin_lock]
  ++ (if bool_decide (mpu_state_vote cx = num_online_cpus (cpu_online_mask env))
      then [Ev_pwrdm_set_next_fpwrst mpu_pd PWRDM_FUNC_PWRST_ON] else [])
  ++ [Ev_write_vote index (u32 (mpu_state_vote cx - 1));
      Ev_raw_spin_unlock;
      Ev_clockevents_notify CLOCK_EVT_NOTIFY_BROADCAST_EXIT (processor_id env)].

Definition with_vote (cx : idle_statedata) (v : Z) : idle_statedata :=
  mk_statedata (cpu_pwrst cx) (mpu_pwrst cx) v.

(** What holds of the system after any run from boot: the table keeps its
    shape and its targets, each counter is the number of CPUs inside a
    call for its state, only online CPUs are inside, with indices inside
    the table, and the MPU commands are paired, the last pair being open
    exactly while some counter equals the number of online CPUs. *)
Record smp_invariant (mask : gset nat) (tbl : list idle_statedata) (s : smp_system) : Prop :=
  mk_smp_invariant {
  inv_table : ∀ p cx0, tbl !! p = Some cx0 →
    state_ptr (sys_machine s) !! p = Some (with_vote cx0 (Z.of_nat (voters (inside s) p)));
  inv_length : length (state_ptr (sys_machine s)) = length tbl;
  inv_online : dom (inside s) ⊆ mask;
  inv_index : ∀ c i, inside s !! c = Some i → 0 ≤ i ∧ (Z.to_nat i < length tbl)%nat;
  inv_paired : ∃ b, paired (mpu_commands (trace (sys_machine s))) b ∧
    (b = true ↔ ∃ p, (p < length tbl)%nat ∧ voters (inside s) p = size mask)
}.

(** Two CPUs entering for the same state concurrently: both first halves
    come before either second half. *)
Definition two_cpu_concurrent_entries (index : Z) : list (list action) :=
  [ [Enter 0 index; Enter 1 index; Exit 0; Exit 1];
    [Enter 0 index; Enter 1 index; Exit 1; Exit 0];
    [Enter 1 index; Enter 0 index; Exit 0; Exit 1];
    [Enter 1 index; Enter 0 index; Exit 1; Exit 0] ].

(** A machine in which the counter of C2 already equals the number of
    online CPUs (two). *)
Definition machine_at_quorum : machine :=
  mk_machine [false; false]
    [ mk_statedata PWRDM_FUNC_PWRST_ON PWRDM_FUNC_PWRST_ON 0;
      mk_statedata PWRDM_FUNC_PWRST_OFF PWRDM_FUNC_PWRST_CSWR 2;
      mk_statedata PWRDM_FUNC_PWRST_OFF PWRDM_FUNC_PWRST_OSWR 0 ] [].

(** The names looked up during initialisation, in order. *)
Definition lookup_name (e : init_event) : option string :=
  match e with
  | Iv_pwrdm_lookup n => Some n
  | Iv_clkdm_lookup n => Some n
  | _ => None
  end.

Definition lookups (tr : list init_event) : list string := omap lookup_name tr.

(** One of the five lookups comes back empty. *)
Definition lookup_fails (p : platform) : Prop :=
  pwrdm_lookup p "mpu_pwrdm" = None ∨ pwrdm_lookup p "cpu0_pwrdm" = None ∨
  pwrdm_lookup p "cpu1_pwrdm" = None ∨ clkdm_lookup p "mpu0_clkdm" = None ∨
  clkdm_lookup p "mpu1_clkdm" = None.

(** A platform on which every lookup succeeds but which is neither SoC,
    and one on which the MPU power domain is missing. *)
Definition unknown_soc : platform :=
  mk_platform (λ _, Some 1%nat) (λ _, Some 2%nat) false false both_online (λ _, 0) (λ _, 0).

Definition no_mpu_pwrdm : platform :=
  mk_platform (λ n, if decide (n = "mpu_pwrdm") then None else Some 1%nat)
              (λ _, Some 2%nat) true false both_online (λ _, 0) (λ _, 0).

Definition no_globals : globals := mk_globals None [None; None] [None; None] None.

(** The notifications a call sends around its sleep, in order. *)
Inductive notification : Type :=
| Broadcast_enter
| Pm_enter
| Cluster_pm_enter
| Cluster_pm_exit
| Pm_exit
| Broadcast_exit.

Definition notification_of (e : event) : option notification :=
  match e with
  | Ev_clockevents_notify CLOCK_EVT_NOTIFY_BROADCAST_ENTER _ => Some Broadcast_enter
  | Ev_clockevents_notify CLOCK_EVT_NOTIFY_BROADCAST_EXIT _ => Some Broadcast_exit
  | Ev_cpu_pm_enter => Some Pm_enter
  | Ev_cpu_pm_exit => Some Pm_exit
  | Ev_cpu_cluster_pm_enter => Some Cluster_pm_enter
  | Ev_cpu_cluster_pm_exit => Some Cluster_pm_exit
  | _ => None
  end.

Definition notifications (tr : list event) : list notification :=
  omap notification_of tr.

(** CPU 0 on its own, CPU 1 offline. *)
Definition cpu0_alone : environment :=
  mk_environment 0 0 {[0%nat]} (λ _, PWRDM_FUNC_PWRST_ON) (λ _, false) 0.

(** ** The turns of the wait loop *)

(** One turn of the wait loop that goes on: the follower's state is read
    and is not off, the CPU relaxes, the follower's flag is read and is
    down. *)
Definition wait_round (env : environment) (j : nat) : list event :=
  [Ev_pwrdm_read_fpwrst (cpu_pd 1) (cpu1_fpwrst env j); Ev_cpu_relax;
   Ev_read_cpu_done 1 false].

(** The turns [k], [k+1], ..., [k+n-1]. *)
Definition wait_rounds (env : environment) (k n : nat) : list event :=
  flat_map (wait_round env) (seq k n).

(** How the wait loop ends at test [j]: on an off report, or on the
    follower's flag. *)
Definition wait_exit (env : environment) (j : nat) : list event :=
  if decide (cpu1_fpwrst env j = PWRDM_FUNC_PWRST_OFF)
  then [Ev_pwrdm_read_fpwrst (cpu_pd 1) PWRDM_FUNC_PWRST_OFF]
  else [Ev_pwrdm_read_fpwrst (cpu_pd 1) (cpu1_fpwrst env j); Ev_cpu_relax;
        Ev_read_cpu_done 1 true].

(** A leader whose follower stays on and never raises its flag. *)
Definition leader_never_released : environment :=
  mk_environment 0 0 both_online (λ _, PWRDM_FUNC_PWRST_ON) (λ _, false) 0.

(** The calls that program a power domain or a clock domain. *)
Definition touches_domains (e : event) : bool :=
  match e with
  | Ev_pwrdm_set_fpwrst _ _ | Ev_pwrdm_set_next_fpwrst _ _
  | Ev_clkdm_wakeup _ | Ev_clkdm_allow_idle _ => true
  | _ => false
  end.

(** ** The lock of the symmetric variant *)

(** Reading the events of one CPU, [held] telling whether this CPU holds
    [mpu_lock] at the start: the CPU takes the lock only when it does not
    hold it and releases it only when it does, it touches the counter and
    the MPU domain only while it holds it, it notifies the broadcast
    source and goes to sleep only while it does not, and it does not hold
    it at the end. *)
Fixpoint lock_discipline (held : bool) (tr : list event) : bool :=
  match tr with
  | [] => negb held
  | e :: tr' =>
      match e with
      | Ev_raw_spin_lock => negb held && lock_discipline true tr'
      | Ev_raw_spin_unlock => held && lock_discipline false tr'
      | Ev_write_vote _ _ => held && lock_discipline held tr'
      | Ev_pwrdm_set_next_fpwrst _ _ => held && lock_discipline held tr'
      | Ev_omap4_enter_lowpower _ _ => negb held && lock_discipline held tr'
      | Ev_clockevents_notify _ _ => negb held && lock_discipline held tr'
      | _ => lock_discipline held tr'
      end
  end.

(** One online CPU. *)
Definition cpu0_only : gset nat := {[0%nat]}.

(** ** Observations on initialisation *)

(** The CPUs on which [omap_setup_broadcast_timer] ran, in order. *)
Definition timer_setup_of (e : init_event) : option nat :=
  match e with
  | Iv_setup_broadcast_timer cpu => Some cpu
  | _ => None
  end.

Definition timer_setups (tr : list init_event) : list nat := omap timer_setup_of tr.

(** The registrations made, in order. *)
Definition registrations (tr : list init_event) : list init_event :=
  base.filter (λ e, is_registration e = true) tr.

(** The five lookups of [omap4_idle_init], in the order of the source. *)
Definition power_domain_lookups : list init_event :=
  [Iv_pwrdm_lookup "mpu_pwrdm"; Iv_pwrdm_lookup "cpu0_pwrdm"; Iv_pwrdm_lookup "cpu1_pwrdm"].

Definition clock_domain_lookups : list init_event :=
  [Iv_clkdm_lookup "mpu0_clkdm"; Iv_clkdm_lookup "mpu1_clkdm"].

(** Both SoC predicates true (OMAP4 is tested first), the framework
    refusing the registration with -16; and a platform without the second
    clock domain. *)
Definition omap4_busy : platform :=
  mk_platform (λ _, Some 1%nat) (λ _, Some 2%nat) true true both_online (λ _, -16) (λ _, 0).

Definition no_mpu1_clkdm : platform :=
  mk_platform (λ _, Some 1%nat)
              (λ n, if decide (n = "mpu1_clkdm") then None else Some 2%nat)
              true false both_online (λ _, 0) (λ _, 0).

(** * The OMAP5 HDMI IP library (drivers/video/omap2/dss/ti_hdmi_5xxx_ip.c)

    The EDID read path and the bit-polling helper.  The register macros
    [REG_FLD_MOD] and [REG_GET] and the delays are defined outside the
    file; each use is recorded as an event, and what [REG_GET] hands back
    comes from the environment, one value per read. *)

(** The registers the modelled functions name. *)
Inductive hdmi_reg : Type :=
| HDMI_CORE_I2CM_SLAVE
| HDMI_CORE_I2CM_ADDRESS
| HDMI_CORE_I2CM_DATAI
| HDMI_CORE_I2CM_OPERATION
| HDMI_CORE_I2CM_INT
| HDMI_CORE_I2CM_CTLINT
| HDMI_CORE_I2CM_DIV
| HDMI_CORE_I2CM_SEGADDR
| HDMI_CORE_I2CM_SEGPTR
| HDMI_CORE_I2CM_SS_SCL_HCNT_1_ADDR
| HDMI_CORE_I2CM_SS_SCL_HCNT_0_ADDR
| HDMI_CORE_I2CM_SS_SCL_LCNT_1_ADDR
| HDMI_CORE_I2CM_SS_SCL_LCNT_0_ADDR
| HDMI_CORE_I2CM_FS_SCL_HCNT_1_ADDR
| HDMI_CORE_I2CM_FS_SCL_HCNT_0_ADDR
| HDMI_CORE_I2CM_FS_SCL_LCNT_1_ADDR
| HDMI_CORE_I2CM_FS_SCL_LCNT_0_ADDR.

#[global] Instance hdmi_reg_eq_dec : EqDecision hdmi_reg.
Proof. solve_decision. Defined.

Inductive hdmi_event : Type :=
| Hv_REG_FLD_MOD (reg : hdmi_reg) (val : Z) (start fin : Z)
| Hv_REG_GET (reg : hdmi_reg) (start fin : Z) (seen : Z)
| Hv_mdelay (ms : Z)
| Hv_udelay (us : Z)
| Hv_DSSDBG_pedid (addr : Z) (val : Z).

(** The caller's buffer ([u8 *edid]), the number of [REG_GET]s made so
    far, and the trace. *)
Record hdmi_machine : Type := mk_hdmi_machine {
  edid_buf : list Z;
  reg_reads : nat;
  hdmi_trace : list hdmi_event
}.

(** [None] is an access outside the buffer. *)
Definition hsim (A : Type) : Type := hdmi_machine → option (A * hdmi_machine).

#[global] Instance hsim_ret : MRet hsim := λ A a m, Some (a, m).
#[global] Instance hsim_bind : MBind hsim := λ A B f c m,
  match c m with
  | Some (a, m') => f a m'
  | None => None
  end.

Definition hdmi_emit (e : hdmi_event) : hsim unit := λ m,
  Some (tt, mk_hdmi_machine (edid_buf m) (reg_reads m) (hdmi_trace m ++ [e])).

(** [REG_GET(core_sys_base, reg, start, fin)]: the environment [regs]
    gives the value of the k-th read. *)
Definition REG_GET (regs : nat → Z) (reg : hdmi_reg) (start fin : Z) : hsim Z := λ m,
  let seen := regs (reg_reads m) in
  Some (seen, mk_hdmi_machine (edid_buf m) (S (reg_reads m))
                 (hdmi_trace m ++ [Hv_REG_GET reg start fin seen])).

Definition REG_FLD_MOD (reg : hdmi_reg) (val start fin : Z) : hsim unit :=
  hdmi_emit (Hv_REG_FLD_MOD reg val start fin).

(** Conversion to [u8]. *)
Definition u8 (z : Z) : Z := z mod 256.

(** [pedid[i] = v] and [pedid[i]] for a buffer position [i]. *)
Definition store_byte (i : nat) (v : Z) : hsim unit := λ m,
  if decide (i < length (edid_buf m))%nat
  then Some (tt, mk_hdmi_machine (<[i := v]> (edid_buf m)) (reg_reads m) (hdmi_trace m))
  else None.

Definition load_byte (i : nat) : hsim Z := λ m,
  match edid_buf m !! i with
  | Some v => Some (v, m)
  | None => None
  end.

(** errno-base.h, outside this source tree, gives EINVAL the value 22. *)
Definition EINVAL : Z := 22.

(** Lines 68-82.  [ext / 2] and [ext % 2] are C's truncating division. *)
Definition hdmi_core_ddc_req_addr (addr ext : Z) : hsim unit :=
  let seg_ptr := u8 (Z.quot ext 2) in
  let edidaddr := u8 (Z.rem ext 2 * 128 + addr) in
  REG_FLD_MOD HDMI_CORE_I2CM_ADDRESS edidaddr 7 0 ;;
  REG_FLD_MOD HDMI_CORE_I2CM_SEGPTR seg_ptr 7 0 ;;
  if decide (seg_ptr ≠ 0)
  then REG_FLD_MOD HDMI_CORE_I2CM_OPERATION 1 1 1
  else REG_FLD_MOD HDMI_CORE_I2CM_OPERATION 1 0 0.

(** Lines 84-118. *)
Definition hdmi_core_ddc_init : hsim unit :=
  REG_FLD_MOD HDMI_CORE_I2CM_CTLINT 0 2 2 ;;
  REG_FLD_MOD HDMI_CORE_I2CM_CTLINT 0 6 6 ;;
  REG_FLD_MOD HDMI_CORE_I2CM_INT 0 2 2 ;;
  REG_FLD_MOD HDMI_CORE_I2CM_DIV 5 3 0 ;;
  REG_FLD_MOD HDMI_CORE_I2CM_SS_SCL_HCNT_1_ADDR 0 7 0 ;;
  REG_FLD_MOD HDMI_CORE_I2CM_SS_SCL_HCNT_0_ADDR 121 7 0 ;;
  REG_FLD_MOD HDMI_CORE_I2CM_SS_SCL_LCNT_1_ADDR 0 7 0 ;;
  REG_FLD_MOD HDMI_CORE_I2CM_SS_SCL_LCNT_0_ADDR 145 7 0 ;;
  REG_FLD_MOD HDMI_CORE_I2CM_FS_SCL_HCNT_1_ADDR 0 7 0 ;;
  REG_FLD_MOD HDMI_CORE_I2CM_FS_SCL_HCNT_0_ADDR 15 7 0 ;;
  REG_FLD_MOD HDMI_CORE_I2CM_FS_SCL_LCNT_1_ADDR 0 7 0 ;;
  REG_FLD_MOD HDMI_CORE_I2CM_FS_SCL_LCNT_0_ADDR 33 7 0 ;;
  REG_FLD_MOD HDMI_CORE_I2CM_SLAVE 80 6 0 ;;
  REG_FLD_MOD HDMI_CORE_I2CM_SEGADDR 48 6 0.

(** The loop of lines 136-151, [pedid] being [edid + off].  [cur_addr]
    is a u8 and [checksum] a char (unsigned on ARM); [checksum] is
    computed and never used.  The loop makes at most 128 turns, which is
    the fuel [hdmi_core_ddc_edid] gives it. *)
Fixpoint ddc_edid_loop (regs : nat → Z) (off : nat) (ext : Z) (fuel : nat)
    (cur_addr checksum : Z) : hsim Z :=
  if decide (cur_addr < 128) then
    match fuel with
    | O => λ _, None
    | S fuel' =>
        hdmi_emit (Hv_mdelay 1) ;;
        seen ← REG_GET regs HDMI_CORE_I2CM_DATAI 7 0;
        store_byte (off + Z.to_nat cur_addr) (u8 seen) ;;
        stored ← load_byte (off + Z.to_nat cur_addr);
        hdmi_emit (Hv_DSSDBG_pedid cur_addr stored) ;;
        hdmi_core_ddc_req_addr (u8 (cur_addr + 1)) ext ;;
        ddc_edid_loop regs off ext fuel' (u8 (cur_addr + 1)) (u8 (checksum + stored))
    end
  else mret checksum.

(** Lines 120-155. *)
Definition hdmi_core_ddc_edid (regs : nat → Z) (off : nat) (ext : Z) : hsim Z :=
  hdmi_core_ddc_req_addr 0 ext ;;
  REG_FLD_MOD HDMI_CORE_I2CM_CTLINT 1 2 2 ;;
  REG_FLD_MOD HDMI_CORE_I2CM_CTLINT 1 6 6 ;;
  REG_FLD_MOD HDMI_CORE_I2CM_INT 1 2 2 ;;
  ddc_edid_loop regs off ext 128 0 0 ;;
  mret 0.

(** Lines 157-181.  [edid[0x7e]] is read only when [len >= 128 * 2]. *)
Definition ti_hdmi_5xxx_read_edid (regs : nat → Z) (len : Z) : hsim Z :=
  if decide (len < 128) then mret (- EINVAL)
  else
    hdmi_core_ddc_init ;;
    r ← hdmi_core_ddc_edid regs 0 0;
    if decide (r ≠ 0) then mret r
    else
      more ← (if decide (128 * 2 ≤ len)
              then (extensions ← load_byte 126; mret (bool_decide (0 < extensions)))
              else mret false);
      if more : bool then
        r ← hdmi_core_ddc_edid regs 128 1;
        if decide (r ≠ 0) then mret r else mret (128 + 128)
      else mret 128.

(** [(int) val] for a u32, and [!val]. *)
Definition int_of_u32 (z : Z) : Z := if decide (z < 2 ^ 31) then z else z - 2 ^ 32.

Definition logical_not (z : Z) : Z := if decide (z = 0) then 1 else 0.

(** Lines 55-66.  [t] counts the failed reads; the loop gives up once
    more than 10001 reads have failed, so it makes at most 10002 turns. *)
Fixpoint wait_for_bit_loop (regs : nat → Z) (reg : hdmi_reg) (b2 b1 val : Z)
    (fuel : nat) (t : Z) : hsim Z :=
  match fuel with
  | O => λ _, None
  | S fuel' =>
      seen ← REG_GET regs reg b2 b1;
      if decide (val ≠ seen) then
        hdmi_emit (Hv_udelay 1) ;;
        if decide (10000 < t) then mret (logical_not val)
        else wait_for_bit_loop regs reg b2 b1 val fuel' (t + 1)
      else mret (int_of_u32 val)
  end.

Definition hdmi_wait_for_bit_change (regs : nat → Z) (reg : hdmi_reg) (b2 b1 val : Z) : hsim Z :=
  wait_for_bit_loop regs reg b2 b1 val (Z.to_nat 10002) 0.

(** ** Observations on HDMI traces *)

(** The values programmed into the I2C master's address register. *)
Definition address_request_of (e : hdmi_event) : option Z :=
  match e with
  | Hv_REG_FLD_MOD HDMI_CORE_I2CM_ADDRESS v _ _ => Some v
  | _ => None
  end.

Definition address_requests (tr : list hdmi_event) : list Z := omap address_request_of tr.

(** The values programmed into the segment pointer register. *)
Definition segment_request_of (e : hdmi_event) : option Z :=
  match e with
  | Hv_REG_FLD_MOD HDMI_CORE_I2CM_SEGPTR v _ _ => Some v
  | _ => None
  end.

Definition segment_requests (tr : list hdmi_event) : list Z := omap segment_request_of tr.

(** A 300-byte buffer of zeroes before any register access, and register
    contents for which every byte read is 1. *)
Definition blank_edid : hdmi_machine := mk_hdmi_machine (replicate 300 0) 0 [].
Definition regs_all_one : nat → Z := λ _, 1.

(** The events of one address request. *)
Definition req_addr_events (addr ext : Z) : list hdmi_event :=
  [Hv_REG_FLD_MOD HDMI_CORE_I2CM_ADDRESS (u8 (Z.rem ext 2 * 128 + addr)) 7 0;
   Hv_REG_FLD_MOD HDMI_CORE_I2CM_SEGPTR (u8 (Z.quot ext 2)) 7 0;
   if decide (u8 (Z.quot ext 2) ≠ 0)
   then Hv_REG_FLD_MOD HDMI_CORE_I2CM_OPERATION 1 1 1
   else Hv_REG_FLD_MOD HDMI_CORE_I2CM_OPERATION 1 0 0].

(** One turn of the read loop leaves these events. *)
Definition edid_turn_events (regs : nat → Z) (ext : Z) (reads : nat) (cur_addr : Z)
  : list hdmi_event :=
  [Hv_mdelay 1;
   Hv_REG_GET HDMI_CORE_I2CM_DATAI 7 0 (regs reads);
   Hv_DSSDBG_pedid cur_addr (u8 (regs reads))]
  ++ req_addr_events (u8 (cur_addr + 1)) ext.

(** The events of [hdmi_core_ddc_init]. *)
Definition ddc_init_events : list hdmi_event :=
  [Hv_REG_FLD_MOD HDMI_CORE_I2CM_CTLINT 0 2 2;
   Hv_REG_FLD_MOD HDMI_CORE_I2CM_CTLINT 0 6 6;
   Hv_REG_FLD_MOD HDMI_CORE_I2CM_INT 0 2 2;
   Hv_REG_FLD_MOD HDMI_CORE_I2CM_DIV 5 3 0;
   Hv_REG_FLD_MOD HDMI_CORE_I2CM_SS_SCL_HCNT_1_ADDR 0 7 0;
   Hv_REG_FLD_MOD HDMI_CORE_I2CM_SS_SCL_HCNT_0_ADDR 121 7 0;
   Hv_REG_FLD_MOD HDMI_CORE_I2CM_SS_SCL_LCNT_1_ADDR 0 7 0;
   Hv_REG_FLD_MOD HDMI_CORE_I2CM_SS_SCL_LCNT_0_ADDR 145 7 0;
   Hv_REG_FLD_MOD HDMI_CORE_I2CM_FS_SCL_HCNT_1_ADDR 0 7 0;
   Hv_REG_FLD_MOD HDMI_CORE_I2CM_FS_SCL_HCNT_0_ADDR 15 7 0;
   Hv_REG_FLD_MOD HDMI_CORE_I2CM_FS_SCL_LCNT_1_ADDR 0 7 0;
   Hv_REG_FLD_MOD HDMI_CORE_I2CM_FS_SCL_LCNT_0_ADDR 33 7 0;
   Hv_REG_FLD_MOD HDMI_CORE_I2CM_SLAVE 80 6 0;
   Hv_REG_FLD_MOD HDMI_CORE_I2CM_SEGADDR 48 6 0].

(** Whether [ti_hdmi_5xxx_read_edid] goes on to the second block: the
    buffer has room for it and byte 0x7e of the first block, the
    extension count, is not zero. *)
Definition reads_second_block (regs : nat → Z) (reads : nat) (len : Z) : bool :=
  bool_decide (128 * 2 ≤ len ∧ 0 < u8 (regs (reads + 126)%nat)).

Definition blocks_length (more : bool) : nat := if more then 256%nat else 128%nat.

(** One failed poll of [hdmi_wait_for_bit_change]: the [k]-th read of
    the register, which does not show [val], and the delay after it. *)
Definition poll_round (regs : nat → Z) (reg : hdmi_reg) (b2 b1 : Z) (k : nat)
  : list hdmi_event :=
  [Hv_REG_GET reg b2 b1 (regs k); Hv_udelay 1].

(** The failed polls at reads [k], ..., [k+n-1]. *)
Definition poll_rounds (regs : nat → Z) (reg : hdmi_reg) (b2 b1 : Z) (k n : nat)
  : list hdmi_event :=
  flat_map (poll_round regs reg b2 b1) (seq k n).

(** The most polls the helper makes. *)
Definition max_polls : nat := Z.to_nat 10002.

(** * Properties *)

(** ** The coupled callback, path by path *)

Ltac sim_unfold :=
  unfold when, write_cpu_done, read_peer_done, load_cx, emit in *;
  unfold mbind, sim_bind, mret, sim_ret in *.

Ltac trace_norm := cbn [trace cpu_done state_ptr]; rewrite <- ?app_assoc; cbn [app].

Lemma coupled_sequence_run env cx m :
  coupled_sequence env cx m =
  Returned tt (mk_machine (<[dev_cpu env := true]> (cpu_done m)) (state_ptr m)
                          (trace m ++ coupled_sequence_events env cx)).
Proof.
  unfold coupled_sequence, coupled_sequence_events. sim_unfold.
  destruct (bool_decide (dev_cpu env = 0%nat)),
           (bool_decide (set_fpwrst_status env ≠ 0)),
           (bool_decide (mpu_pwrst cx = PWRDM_FUNC_PWRST_OSWR)),
           (is_leader env); trace_norm; reflexivity.
Qed.

Lemma coupled_fail_label_run env index m :
  coupled_fail_label env index m =
  Returned index (mk_machine (<[dev_cpu env := false]> (cpu_done m)) (state_ptr m)
                             (trace m ++ fail_label_events env)).
Proof. unfold coupled_fail_label, fail_label_events. sim_unfold. trace_norm. reflexivity. Qed.

(** What the wait loop can do, whatever the follower does. *)
Lemma wait_cpu1_off_cases env fuel : ∀ k m,
  match wait_cpu1_off env fuel k m with
  | Returned failed m' =>
      state_ptr m' = state_ptr m ∧ length (cpu_done m') = length (cpu_done m) ∧
      ∃ polls, Forall polling polls ∧
        trace m' = trace m ++ polls ++
          [if failed then Ev_read_cpu_done 1 true
           else Ev_pwrdm_read_fpwrst (cpu_pd 1) PWRDM_FUNC_PWRST_OFF]
  | Spinning m' => ∃ polls, Forall polling polls ∧ trace m' = trace m ++ polls
  | Undefined => False
  end.
Proof.
  induction fuel as [|fuel IH]; intros k m; simpl.
  - exists []. split; [constructor | by rewrite app_nil_r].
  - sim_unfold. destruct (decide (cpu1_fpwrst env k = PWRDM_FUNC_PWRST_OFF)) as [Hoff|Hon].
    + repeat split; try done. exists []. split; [constructor|]. simpl. by rewrite Hoff.
    + destruct (cpu1_done env k) eqn:Hd.
      * simpl. split; [done|]. split; [by rewrite length_insert|].
        exists [Ev_pwrdm_read_fpwrst (cpu_pd 1) (cpu1_fpwrst env k); Ev_cpu_relax].
        split; [repeat constructor; done|]. by trace_norm.
      * match goal with |- context [wait_cpu1_off env fuel (S k) ?m1] =>
          specialize (IH (S k) m1); destruct (wait_cpu1_off env fuel (S k) m1) as [b m'| m' |]
        end; simpl in IH; try done.
        -- destruct IH as (Hs & Hl & polls & Hp & Ht). split; [done|].
           split; [by rewrite Hl, length_insert|].
           exists ([Ev_pwrdm_read_fpwrst (cpu_pd 1) (cpu1_fpwrst env k); Ev_cpu_relax;
                    Ev_read_cpu_done 1 false] ++ polls).
           split; [repeat constructor; done|]. rewrite Ht. by trace_norm.
        -- destruct IH as (polls & Hp & Ht).
           exists ([Ev_pwrdm_read_fpwrst (cpu_pd 1) (cpu1_fpwrst env k); Ev_cpu_relax;
                    Ev_read_cpu_done 1 false] ++ polls).
           split; [repeat constructor; done|]. rewrite Ht. by trace_norm.
Qed.

(** With the follower behaving as [leaves_wait] says, the loop is left
    after [n] further turns, and it is left for the [fail] label exactly
    when the follower was not off at that test. *)
Lemma wait_cpu1_off_leaves env n : ∀ k fuel m,
  leaves_wait env k n → (n < fuel)%nat →
  ∃ m', wait_cpu1_off env fuel k m =
        Returned (bool_decide (cpu1_fpwrst env (k + n) ≠ PWRDM_FUNC_PWRST_OFF)) m'.
Proof.
  induction n as [|n IH]; intros k fuel m [Hbefore Hat] Hfuel;
    (destruct fuel as [|fuel]; [lia|]); simpl; sim_unfold.
  - rewrite Nat.add_0_r in Hat |- *.
    destruct (decide (cpu1_fpwrst env k = PWRDM_FUNC_PWRST_OFF)) as [Hoff|Hon].
    + rewrite bool_decide_eq_false_2 by (intros ?; done). eauto.
    + rewrite bool_decide_eq_true_2 by done.
      destruct Hat as [?|Hd]; [done|]. rewrite Hd. eauto.
  - destruct (Hbefore k ltac:(lia)) as [Hon Hd].
    destruct (decide (cpu1_fpwrst env k = PWRDM_FUNC_PWRST_OFF)); [done|].
    rewrite Hd. replace (k + S n)%nat with (S k + n)%nat by lia.
    apply IH; [|lia]. split.
    + intros j Hj. apply Hbefore. lia.
    + by replace (S k + n)%nat with (k + S n)%nat by lia.
Qed.

(** The callback unfolded once: the wait loop (leader only), then either
    the whole sequence or nothing, then the [fail] label. *)
Lemma coupled_unfold env fuel index m cx :
  state_at (state_ptr m) index = Some cx →
  omap_enter_idle_coupled env fuel index m =
  match (if is_leader env then wait_cpu1_off env fuel 0 m else Returned false m) with
  | Returned failed m1 =>
      Returned index
        (mk_machine
           (<[dev_cpu env := false]>
              (if failed then cpu_done m1 else <[dev_cpu env := true]> (cpu_done m1)))
           (state_ptr m1)
           (trace m1 ++ (if failed then [] else coupled_sequence_events env cx)
                     ++ fail_label_events env))
  | Spinning m1 => Spinning m1
  | Undefined => Undefined
  end.
Proof.
  intros Hcx. unfold omap_enter_idle_coupled.
  unfold mbind at 1, sim_bind at 1. unfold load_cx at 1. rewrite Hcx.
  unfold mbind at 1, sim_bind at 1.
  assert (Hw : (if is_leader env then wait_cpu1_off env fuel 0 else mret false) m =
               (if is_leader env then wait_cpu1_off env fuel 0 m else Returned false m))
    by (destruct (is_leader env); reflexivity).
  rewrite Hw. clear Hw.
  destruct (if is_leader env then wait_cpu1_off env fuel 0 m else Returned false m)
    as [failed m1|m1|]; try reflexivity.
  unfold mbind, sim_bind. destruct failed.
  - unfold mret, sim_ret. rewrite coupled_fail_label_run. by trace_norm.
  - rewrite coupled_sequence_run, coupled_fail_label_run. by trace_norm.
Qed.


(** Every call ends in one of: a return of [index] along one of the three
    paths, or a leader still in its wait loop. *)
Lemma coupled_cases env fuel index m cx :
  state_at (state_ptr m) index = Some cx →
  match omap_enter_idle_coupled env fuel index m with
  | Returned r m' =>
      r = index ∧ state_ptr m' = state_ptr m ∧
      length (cpu_done m') = length (cpu_done m) ∧
      (∃ flags, cpu_done m' = <[dev_cpu env := false]> flags) ∧
      ∃ evs, trace m' = trace m ++ evs ∧ coupled_path env cx evs
  | Spinning m' =>
      is_leader env = true ∧ ∃ polls, Forall polling polls ∧ trace m' = trace m ++ polls
  | Undefined => False
  end.
Proof.
  intros Hcx. rewrite (coupled_unfold _ _ _ _ _ Hcx).
  destruct (is_leader env) eqn:Hl.
  - pose proof (wait_cpu1_off_cases env fuel 0 m) as Hw.
    destruct (wait_cpu1_off env fuel 0 m) as [failed m1|m1|]; [|done|done].
    destruct Hw as (Hs & Hlen & polls & Hp & Ht). cbn [trace cpu_done state_ptr].
    split; [done|]. split; [done|]. split.
    { destruct failed; by rewrite ?length_insert. }
    split; [eauto|]. rewrite Ht. destruct failed.
    + exists (polls ++ [Ev_read_cpu_done 1 true] ++ fail_label_events env).
      split; [by rewrite <- !app_assoc | by constructor].
    + eexists. split; [by rewrite <- !app_assoc | by constructor].
  - cbn [trace cpu_done state_ptr]. split; [done|]. split; [done|].
    split; [by rewrite !length_insert|]. split; [eauto|].
    eexists. split; [done | by constructor].
Qed.

(** A leader whose follower lets it out of the loop at test [n], and any
    CPU that does not wait, returns; the leader takes the abort path
    exactly when the follower was not off at test [n]. *)
Lemma coupled_returns env fuel index m cx n :
  state_at (state_ptr m) index = Some cx →
  (is_leader env = true → leaves_wait env 0 n ∧ (n < fuel)%nat) →
  ∃ m' evs, omap_enter_idle_coupled env fuel index m = Returned index m' ∧
    trace m' = trace m ++ evs ∧ coupled_path env cx evs ∧
    (is_leader env = true →
       ∃ polls, Forall polling polls ∧
         evs = polls ++ (if bool_decide (cpu1_fpwrst env n ≠ PWRDM_FUNC_PWRST_OFF)
                         then [Ev_read_cpu_done 1 true]
                         else [Ev_pwrdm_read_fpwrst (cpu_pd 1) PWRDM_FUNC_PWRST_OFF]
                                ++ coupled_sequence_events env cx)
                     ++ fail_label_events env).
Proof.
  intros Hcx Hlead. rewrite (coupled_unfold _ _ _ _ _ Hcx).
  destruct (is_leader env) eqn:Hl.
  - destruct (Hlead eq_refl) as [Hleave Hfuel].
    destruct (wait_cpu1_off_leaves env n 0 fuel m Hleave Hfuel) as [m1 Hrun].
    pose proof (wait_cpu1_off_cases env fuel 0 m) as Hw. rewrite Hrun in Hw |- *.
    destruct Hw as (_ & _ & polls & Hp & Ht). change (0 + n)%nat with n in *.
    destruct (bool_decide (cpu1_fpwrst env n ≠ PWRDM_FUNC_PWRST_OFF));
      eexists _, _; (split; [reflexivity|]); cbn [trace]; rewrite Ht;
      (split; [by rewrite <- !app_assoc|]); (split; [by constructor|]);
      intros _; exists polls; by rewrite <- ?app_assoc.
  - eexists _, _. split; [reflexivity|]. split; [done|]. split; [by constructor|]. done.
Qed.

Lemma coupled_undefined env fuel index m :
  state_at (state_ptr m) index = None →
  omap_enter_idle_coupled env fuel index m = Undefined.
Proof.
  intros Hcx. unfold omap_enter_idle_coupled.
  unfold mbind at 1, sim_bind at 1. unfold load_cx at 1. by rewrite Hcx.
Qed.

(** ** Lists of events *)

(** An event singled out by [P] that is not in the first part of a trace
    is in the second. *)
Lemma split_past {A} (P : A → Prop) (l1 : list A) : ∀ l2 pre e post,
  Forall (λ x, ¬ P x) l1 → P e → l1 ++ l2 = pre ++ e :: post →
  ∃ pre', pre = l1 ++ pre' ∧ l2 = pre' ++ e :: post.
Proof.
  induction l1 as [|x l1 IH]; intros l2 pre e post Hl1 He Heq.
  - exists pre. by simpl in *.
  - inversion Hl1 as [|? ? Hx Hl1']; subst. destruct pre as [|y pre]; simpl in Heq.
    + injection Heq as -> _. done.
    + injection Heq as -> Heq. destruct (IH _ _ _ _ Hl1' He Heq) as (pre' & -> & ->).
      by exists pre'.
Qed.

Lemma polling_no_command e : polling e → mpu_target_of e = None.
Proof. by destruct e as [| | [|] | | | | | | | | | | | | | | | | | |]. Qed.

Lemma polling_not_lowering e : polling e → ¬ (lowers_mpu e = true).
Proof. intros He. unfold lowers_mpu. by rewrite (polling_no_command e He). Qed.

Lemma polls_no_commands polls : Forall polling polls → mpu_commands polls = [].
Proof.
  induction 1 as [|e polls He _ IH]; [done|].
  unfold mpu_commands in *. simpl. by rewrite (polling_no_command e He).
Qed.

Lemma mpu_commands_app tr1 tr2 :
  mpu_commands (tr1 ++ tr2) = mpu_commands tr1 ++ mpu_commands tr2.
Proof. apply omap_app. Qed.

Lemma sequence_reports_nothing env cx pd :
  omap (report_of pd) (coupled_sequence_events env cx ++ fail_label_events env) = [].
Proof.
  unfold coupled_sequence_events, fail_label_events.
  by destruct (bool_decide (dev_cpu env = 0%nat)),
              (bool_decide (set_fpwrst_status env ≠ 0)),
              (bool_decide (mpu_pwrst cx = PWRDM_FUNC_PWRST_OSWR)),
              (is_leader env).
Qed.

Lemma is_leader_cpu0 env : is_leader env = true → dev_cpu env = 0%nat.
Proof.
  unfold is_leader. intros [H _]%andb_prop. by apply bool_decide_eq_true in H.
Qed.

Lemma leader_sequence_events env cx :
  is_leader env = true → coupled_sequence_events env cx = leader_sequence env cx.
Proof.
  intros Hl. unfold coupled_sequence_events, leader_sequence.
  rewrite Hl, (is_leader_cpu0 env Hl). rewrite bool_decide_eq_true_2 by done.
  by rewrite <- !app_assoc.
Qed.

(** ** The leader and the shared domain *)

(** C2.  In every execution of [omap_enter_idle_coupled] by the leader
    (CPU 0 with CPU 1 online), finished or still waiting: whenever the
    shared MPU domain is commanded to a target below fully-on, the latest
    power state the follower's domain reported before that command is
    "off".  The abort path issues no such command at all. *)
Theorem coupled_leader_lowers_mpu_only_after_off env fuel index m m' pre e post :
  is_leader env = true →
  final (omap_enter_idle_coupled env fuel index m) = Some m' →
  trace m' = trace m ++ pre ++ e :: post →
  lowers_mpu e = true →
  last_reported (cpu_pd 1) pre = Some PWRDM_FUNC_PWRST_OFF.
Proof.
  intros Hl Hfin Htr He.
  destruct (state_at (state_ptr m) index) as [cx|] eqn:Hcx;
    [|by rewrite coupled_undefined in Hfin].
  pose proof (coupled_cases env fuel index m cx Hcx) as Hc.
  assert (Hclean : ∀ polls, Forall polling polls →
            Forall (λ x, ¬ lowers_mpu x = true) polls).
  { intros polls Hp. eapply Forall_impl; [exact Hp|]. apply polling_not_lowering. }
  destruct (omap_enter_idle_coupled env fuel index m) as [r m1|m1|]; simpl in Hfin;
    [| |done]; injection Hfin as ->.
  - destruct Hc as (_ & _ & _ & _ & evs & Hevs & Hpath).
    rewrite Hevs in Htr. apply app_inv_head in Htr. revert Htr.
    destruct Hpath as [Hn | polls _ Hp | polls _ Hp]; intros Heq; [congruence| |].
    + rewrite app_assoc in Heq.
      assert (Hhead : Forall (λ x, ¬ lowers_mpu x = true)
                (polls ++ [Ev_pwrdm_read_fpwrst (cpu_pd 1) PWRDM_FUNC_PWRST_OFF])).
      { apply Forall_app; split; [by apply Hclean | by repeat constructor]. }
      destruct (split_past (λ x, lowers_mpu x = true) _ _ _ _ _ Hhead He Heq)
        as (pre' & -> & Hseq).
      unfold last_reported. rewrite !omap_app.
      pose proof (sequence_reports_nothing env cx (cpu_pd 1)) as Hnone.
      rewrite Hseq, omap_app in Hnone. apply app_eq_nil in Hnone as [-> _].
      rewrite app_nil_r. simpl. by rewrite last_snoc.
    + exfalso.
      assert (Hall : Forall (λ x, ¬ lowers_mpu x = true)
                       (polls ++ [Ev_read_cpu_done 1 true] ++ fail_label_events env)).
      { apply Forall_app; split; [by apply Hclean | by repeat constructor]. }
      rewrite Heq in Hall. apply Forall_app in Hall as [_ Hall].
      by inversion Hall.
  - destruct Hc as (_ & polls & Hp & Hevs). exfalso.
    rewrite Hevs in Htr. apply app_inv_head in Htr.
    pose proof (Hclean polls Hp) as Hall. rewrite Htr in Hall.
    apply Forall_app in Hall as [_ Hall]. by inversion Hall.
Qed.

Lemma coupled_leader_lowers_mpu_only_after_off_witness :
  last_reported (cpu_pd 1)
    [Ev_pwrdm_read_fpwrst (cpu_pd 1) PWRDM_FUNC_PWRST_ON; Ev_cpu_relax;
     Ev_read_cpu_done 1 false;
     Ev_pwrdm_read_fpwrst (cpu_pd 1) PWRDM_FUNC_PWRST_ON; Ev_cpu_relax;
     Ev_read_cpu_done 1 false;
     Ev_pwrdm_read_fpwrst (cpu_pd 1) PWRDM_FUNC_PWRST_OFF;
     Ev_clockevents_notify CLOCK_EVT_NOTIFY_BROADCAST_ENTER 0; Ev_cpu_pm_enter]
  = Some PWRDM_FUNC_PWRST_OFF.
Proof.
  eapply (coupled_leader_lowers_mpu_only_after_off leader_follower_sleeps 10 2
            omap4_machine _ _ (Ev_pwrdm_set_fpwrst mpu_pd PWRDM_FUNC_PWRST_OSWR)).
  - vm_compute. reflexivity.
  - vm_compute. reflexivity.
  - vm_compute. reflexivity.
  - vm_compute. reflexivity.
Defined.

(** ** The abort path *)

(** The first inspection at which a flag is found up. *)
Lemma first_up (f : nat → bool) n :
  f n = true → ∃ n', (n' ≤ n)%nat ∧ f n' = true ∧ ∀ j, (j < n')%nat → f j = false.
Proof.
  assert (Haux : ∀ k, (∀ j, (j < k)%nat → f j = false) ∨
                      ∃ n', (n' < k)%nat ∧ f n' = true ∧ ∀ j, (j < n')%nat → f j = false).
  { induction k as [|k [Hnone|(n' & Hlt & Hup & Hlow)]].
    - left. intros j Hj. lia.
    - destruct (f k) eqn:Hk.
      + right. exists k. split; [lia|]. done.
      + left. intros j Hj. destruct (decide (j = k)) as [->|]; [done|]. apply Hnone. lia.
    - right. exists n'. split; [lia|]. done. }
  intros Hn. destruct (Haux n) as [Hnone|(n' & Hlt & Hup & Hlow)].
  - exists n. split; [lia|]. done.
  - exists n'. split; [lia|]. done.
Qed.

(** C3.  When the follower's domain has not reported "off" up to the
    leader's [n]-th test and the leader finds the follower's completion
    flag up at that test, the leader's call returns within [n+1] turns of
    the wait loop: after the polling events it reads the flag as set,
    goes straight to the barrier and clears its own flag, and it issues
    no command to the shared MPU domain. *)
Theorem coupled_leader_aborts_on_follower_flag env fuel index m cx n :
  state_at (state_ptr m) index = Some cx →
  is_leader env = true →
  (∀ j, (j ≤ n)%nat → cpu1_fpwrst env j ≠ PWRDM_FUNC_PWRST_OFF) →
  cpu1_done env n = true →
  (n < fuel)%nat →
  ∃ m' polls,
    omap_enter_idle_coupled env fuel index m = Returned index m' ∧
    Forall polling polls ∧
    trace m' = trace m ++ polls ++
      [Ev_read_cpu_done 1 true; Ev_parallel_barrier (dev_cpu env);
       Ev_write_cpu_done (dev_cpu env) false] ∧
    mpu_commands (polls ++
      [Ev_read_cpu_done 1 true; Ev_parallel_barrier (dev_cpu env);
       Ev_write_cpu_done (dev_cpu env) false]) = [].
Proof.
  intros Hcx Hl Hon Hflag Hfuel.
  destruct (first_up (cpu1_done env) n Hflag) as (n' & Hle & Hup & Hlow).
  assert (Hleave : leaves_wait env 0 n').
  { split; [|by right]. intros j Hj. split; [apply Hon | apply Hlow]; lia. }
  destruct (coupled_returns env fuel index m cx n' Hcx) as (m' & evs & Hrun & Htr & _ & Hshape).
  { intros _. split; [done | lia]. }
  destruct (Hshape Hl) as (polls & Hp & ->).
  rewrite bool_decide_eq_true_2 in Htr by (apply Hon; lia).
  exists m', polls. split; [done|]. split; [done|]. split; [done|].
  rewrite mpu_commands_app, (polls_no_commands polls Hp). done.
Qed.

Lemma coupled_leader_aborts_on_follower_flag_witness :
  ∃ m' polls,
    omap_enter_idle_coupled leader_follower_done 1 1 omap4_machine = Returned 1 m' ∧
    Forall polling polls ∧
    trace m' = trace omap4_machine ++ polls ++
      [Ev_read_cpu_done 1 true; Ev_parallel_barrier 0; Ev_write_cpu_done 0 false] ∧
    mpu_commands (polls ++
      [Ev_read_cpu_done 1 true; Ev_parallel_barrier 0; Ev_write_cpu_done 0 false]) = [].
Proof.
  apply (coupled_leader_aborts_on_follower_flag leader_follower_done 1 1 omap4_machine
           (mk_statedata PWRDM_FUNC_PWRST_OFF PWRDM_FUNC_PWRST_CSWR 0) 0).
  - reflexivity.
  - vm_compute. reflexivity.
  - intros j _. simpl. discriminate.
  - reflexivity.
  - lia.
Defined.

(** ** The barrier *)

Lemma sequence_before_barrier env cx :
  Forall before_barrier (coupled_sequence_events env cx).
Proof.
  unfold coupled_sequence_events.
  destruct (bool_decide (dev_cpu env = 0%nat)),
           (bool_decide (set_fpwrst_status env ≠ 0)),
           (bool_decide (mpu_pwrst cx = PWRDM_FUNC_PWRST_OSWR)),
           (is_leader env); by repeat constructor.
Qed.

Lemma polls_before_barrier polls : Forall polling polls → Forall before_barrier polls.
Proof.
  intros Hp. eapply Forall_impl; [exact Hp|].
  by intros [| | [|] | | | | | | | | | | | | | | | | | |].
Qed.

Lemma coupled_path_barrier env cx evs :
  coupled_path env cx evs →
  ∃ pre, evs = pre ++ fail_label_events env ∧ Forall before_barrier pre.
Proof.
  destruct 1 as [Hn | polls Hl Hp | polls Hl Hp].
  - eexists. split; [done|]. apply sequence_before_barrier.
  - exists (polls ++ [Ev_pwrdm_read_fpwrst (cpu_pd 1) PWRDM_FUNC_PWRST_OFF]
                  ++ coupled_sequence_events env cx).
    split; [by rewrite <- !app_assoc|].
    apply Forall_app; split; [by apply polls_before_barrier|].
    apply Forall_cons; split; [done | apply sequence_before_barrier].
  - exists (polls ++ [Ev_read_cpu_done 1 true]).
    split; [by rewrite <- !app_assoc|].
    apply Forall_app; split; [by apply polls_before_barrier | by repeat constructor].
Qed.

(** C4.  A call of [omap_enter_idle_coupled] that gets out of the wait
    loop (a leader whose follower reports off or raises its flag at some
    test [n]; any other CPU does not wait) returns, and on either path
    its events end with exactly one barrier call followed by the clearing
    of the CPU's completion flag: nothing before the barrier call is a
    barrier call or a clearing of a flag. *)
Theorem coupled_reaches_barrier_once env fuel index m cx n :
  state_at (state_ptr m) index = Some cx →
  (is_leader env = true → leaves_wait env 0 n ∧ (n < fuel)%nat) →
  ∃ m' pre,
    omap_enter_idle_coupled env fuel index m = Returned index m' ∧
    trace m' = trace m ++ pre ++
      [Ev_parallel_barrier (dev_cpu env); Ev_write_cpu_done (dev_cpu env) false] ∧
    Forall before_barrier pre.
Proof.
  intros Hcx Hleave.
  destruct (coupled_returns env fuel index m cx n Hcx Hleave)
    as (m' & evs & Hrun & Htr & Hpath & _).
  destruct (coupled_path_barrier env cx evs Hpath) as (pre & -> & Hpre).
  by exists m', pre.
Qed.

Lemma coupled_reaches_barrier_once_witness :
  ∃ m' pre,
    omap_enter_idle_coupled leader_follower_sleeps 3 2 omap4_machine = Returned 2 m' ∧
    trace m' = trace omap4_machine ++ pre ++
      [Ev_parallel_barrier 0; Ev_write_cpu_done 0 false] ∧
    Forall before_barrier pre.
Proof.
  apply (coupled_reaches_barrier_once leader_follower_sleeps 3 2 omap4_machine
           (mk_statedata PWRDM_FUNC_PWRST_OFF PWRDM_FUNC_PWRST_OSWR 0) 2).
  - reflexivity.
  - intros _. split; [|lia]. split.
    + intros j Hj. assert (j = 0 ∨ j = 1)%nat as [-> | ->] by lia; by split.
    + by left.
Defined.

(** ** The leader's sequence *)

(** C6, as stated, fails.  On the OMAP4 table, with the follower off at
    the leader's third test: at C3 (MPU target OSWR) the shared domain is
    commanded before the cluster-level suspend chain runs, and at C2 (MPU
    target CSWR) no cluster-level chain runs at all, so in neither case do
    the events occur in the order specified. *)
Lemma coupled_leader_order_not_as_specified :
  (∃ m', omap_enter_idle_coupled leader_follower_sleeps 3 2 omap4_machine = Returned 2 m' ∧
         in_order (leader_order_as_specified leader_follower_sleeps
                     (mk_statedata PWRDM_FUNC_PWRST_OFF PWRDM_FUNC_PWRST_OSWR 0))
                  (trace m') = false ∧
         in_order [Ev_pwrdm_set_fpwrst mpu_pd PWRDM_FUNC_PWRST_OSWR; Ev_cpu_cluster_pm_enter]
                  (trace m') = true) ∧
  (∃ m', omap_enter_idle_coupled leader_follower_sleeps 3 1 omap4_machine = Returned 1 m' ∧
         in_order (leader_order_as_specified leader_follower_sleeps
                     (mk_statedata PWRDM_FUNC_PWRST_OFF PWRDM_FUNC_PWRST_CSWR 0))
                  (trace m') = false ∧
         count_occ event_eq_dec (trace m') Ev_cpu_cluster_pm_enter = 0%nat ∧
         count_occ event_eq_dec (trace m') Ev_cpu_cluster_pm_exit = 0%nat).
Proof.
  split; eexists; (split; [vm_compute; reflexivity|]); cbn [trace];
    repeat split; vm_compute; reflexivity.
Qed.

(** C6, amended.  Once the follower has reported off (at the leader's
    [n]-th test), the leader performs, right after that report and in
    this order: the broadcast-enter notification, the per-CPU suspend
    chain [cpu_pm_enter], the command of the shared domain to the state's
    target (with a warning if that fails), the cluster-level suspend chain
    only when the target is OSWR, its own low-power entry, the setting of
    its completion flag; then the command of the shared domain back to
    fully-on, the wake-up of the follower's clock domain, the command of
    the follower's domain to fully-on, the release of the follower's clock
    domain, the per-CPU resume chain [cpu_pm_exit], the cluster-level
    resume chain only when the target is OSWR, and the broadcast-exit
    notification; and then the barrier. *)
Theorem coupled_leader_sequence env fuel index m cx n :
  state_at (state_ptr m) index = Some cx →
  is_leader env = true →
  leaves_wait env 0 n →
  cpu1_fpwrst env n = PWRDM_FUNC_PWRST_OFF →
  (n < fuel)%nat →
  ∃ m' polls,
    omap_enter_idle_coupled env fuel index m = Returned index m' ∧
    Forall polling polls ∧
    trace m' = trace m ++ polls
      ++ [Ev_pwrdm_read_fpwrst (cpu_pd 1) PWRDM_FUNC_PWRST_OFF]
      ++ leader_sequence env cx ++ fail_label_events env.
Proof.
  intros Hcx Hl Hleave Hoff Hfuel.
  destruct (coupled_returns env fuel index m cx n Hcx) as (m' & evs & Hrun & Htr & _ & Hshape).
  { by intros _. }
  destruct (Hshape Hl) as (polls & Hp & ->).
  rewrite bool_decide_eq_false_2 in Htr by (intros Hne; by apply Hne).
  exists m', polls. split; [done|]. split; [done|].
  rewrite Htr, (leader_sequence_events env cx Hl). by rewrite <- !app_assoc.
Qed.

Lemma coupled_leader_sequence_witness :
  ∃ m' polls,
    omap_enter_idle_coupled leader_follower_sleeps 3 2 omap4_machine = Returned 2 m' ∧
    Forall polling polls ∧
    trace m' = trace omap4_machine ++ polls
      ++ [Ev_pwrdm_read_fpwrst (cpu_pd 1) PWRDM_FUNC_PWRST_OFF]
      ++ leader_sequence leader_follower_sleeps
           (mk_statedata PWRDM_FUNC_PWRST_OFF PWRDM_FUNC_PWRST_OSWR 0)
      ++ fail_label_events leader_follower_sleeps.
Proof.
  apply (coupled_leader_sequence leader_follower_sleeps 3 2 omap4_machine
           (mk_statedata PWRDM_FUNC_PWRST_OFF PWRDM_FUNC_PWRST_OSWR 0) 2).
  - reflexivity.
  - vm_compute. reflexivity.
  - split.
    + intros j Hj. assert (j = 0 ∨ j = 1)%nat as [-> | ->] by lia; by split.
    + by left.
  - reflexivity.
  - lia.
Defined.

(** ** Notifications *)

Lemma polls_no_notifications polls : Forall polling polls → notifications polls = [].
Proof.
  induction 1 as [|e polls He _ IH]; [done|].
  by destruct e as [| | [|] | | | | | | | | | | | | | | | | | |].
Qed.

(** What is sent on each path: nothing on the abort path; on the full
    path the broadcast and per-CPU pairs, nested, with the cluster-level
    enter call on CPU 0 only and the cluster-level exit call on every
    CPU, both only for an OSWR target. *)
Lemma coupled_notifications env cx evs :
  coupled_path env cx evs →
  notifications evs = [] ∨
  notifications evs =
    [Broadcast_enter; Pm_enter]
    ++ (if bool_decide (dev_cpu env = 0%nat) && bool_decide (mpu_pwrst cx = PWRDM_FUNC_PWRST_OSWR)
        then [Cluster_pm_enter] else [])
    ++ [Pm_exit]
    ++ (if bool_decide (mpu_pwrst cx = PWRDM_FUNC_PWRST_OSWR) then [Cluster_pm_exit] else [])
    ++ [Broadcast_exit].
Proof.
  assert (Hseq : notifications (coupled_sequence_events env cx ++ fail_label_events env) =
    [Broadcast_enter; Pm_enter]
    ++ (if bool_decide (dev_cpu env = 0%nat) && bool_decide (mpu_pwrst cx = PWRDM_FUNC_PWRST_OSWR)
        then [Cluster_pm_enter] else [])
    ++ [Pm_exit]
    ++ (if bool_decide (mpu_pwrst cx = PWRDM_FUNC_PWRST_OSWR) then [Cluster_pm_exit] else [])
    ++ [Broadcast_exit]).
  { unfold coupled_sequence_events, fail_label_events.
    by destruct (bool_decide (dev_cpu env = 0%nat)),
                (bool_decide (set_fpwrst_status env ≠ 0)),
                (bool_decide (mpu_pwrst cx = PWRDM_FUNC_PWRST_OSWR)),
                (is_leader env). }
  destruct 1 as [Hn | polls Hl Hp | polls Hl Hp].
  - by right.
  - right. unfold notifications in *. rewrite !omap_app.
    fold (notifications polls). rewrite (polls_no_notifications polls Hp).
    rewrite <- omap_app. exact Hseq.
  - left. unfold notifications in *. rewrite !omap_app.
    fold (notifications polls). by rewrite (polls_no_notifications polls Hp).
Qed.

(** C10, at the input where the callback departs from it.  CPU 1 entering
    C3 of the OMAP4 table (MPU target OSWR) takes the full path and
    returns with its flag down; the broadcast and per-CPU notifications
    are paired, but [cpu_cluster_pm_exit] runs once although
    [cpu_cluster_pm_enter] never ran: the enter call is guarded by
    [dev->cpu == 0] and the exit call is not. *)
Theorem coupled_cluster_exit_unpaired_on_cpu1 :
  ∃ m', omap_enter_idle_coupled follower_env 0 2 omap4_machine = Returned 2 m' ∧
    trace m' =
      [Ev_clockevents_notify CLOCK_EVT_NOTIFY_BROADCAST_ENTER 1;
       Ev_cpu_pm_enter;
       Ev_omap4_mpuss_enter_lowpower 1 PWRDM_FUNC_PWRST_OFF;
       Ev_write_cpu_done 1 true;
       Ev_cpu_pm_exit;
       Ev_cpu_cluster_pm_exit;
       Ev_clockevents_notify CLOCK_EVT_NOTIFY_BROADCAST_EXIT 1;
       Ev_parallel_barrier 1;
       Ev_write_cpu_done 1 false] ∧
    count_occ event_eq_dec (trace m') Ev_cpu_cluster_pm_exit = 1%nat ∧
    count_occ event_eq_dec (trace m') Ev_cpu_cluster_pm_enter = 0%nat ∧
    cpu_done m' !! 1%nat = Some false.
Proof.
  eexists. split; [vm_compute; reflexivity|]. cbn [trace cpu_done].
  repeat split; vm_compute; reflexivity.
Qed.

(** ** The symmetric variant: the two halves *)

Lemma state_at_Some tbl index cx :
  state_at tbl index = Some cx ↔ 0 ≤ index ∧ tbl !! Z.to_nat index = Some cx.
Proof.
  unfold state_at. destruct (decide (0 ≤ index)) as [Hi|Hi].
  - split; [by intros ? | by intros [_ ?]].
  - split; [done | by intros [? _]].
Qed.

Lemma state_at_insert tbl index cx x :
  state_at tbl index = Some cx → state_at (<[Z.to_nat index := x]> tbl) index = Some x.
Proof.
  rewrite !state_at_Some. intros [Hi Hcx]. split; [done|].
  apply list_lookup_insert_eq. by eapply lookup_lt_Some.
Qed.

Lemma smp_vote_enter_run env index m cx :
  state_at (state_ptr m) index = Some cx →
  smp_vote_enter env index m =
  Returned tt
    (mk_machine (cpu_done m)
       (<[Z.to_nat index := with_vote cx (u32 (mpu_state_vote cx + 1))]> (state_ptr m))
       (trace m ++ smp_enter_events env index cx)).
Proof.
  intros Hcx. unfold smp_vote_enter, smp_enter_events, store_vote, with_vote. sim_unfold.
  cbn [state_ptr trace cpu_done]. rewrite Hcx. cbn [state_ptr trace cpu_done].
  rewrite Hcx. cbn [state_ptr trace cpu_done].
  rewrite (state_at_insert _ _ _ _ Hcx). cbn [mpu_state_vote mpu_pwrst cpu_pwrst].
  destruct (bool_decide (u32 (mpu_state_vote cx + 1) = num_online_cpus (cpu_online_mask env)));
    trace_norm; reflexivity.
Qed.

Lemma smp_vote_exit_run env index m cx :
  state_at (state_ptr m) index = Some cx →
  smp_vote_exit env index m =
  Returned tt
    (mk_machine (cpu_done m)
       (<[Z.to_nat index := with_vote cx (u32 (mpu_state_vote cx - 1))]> (state_ptr m))
       (trace m ++ smp_exit_events env index cx)).
Proof.
  intros Hcx. unfold smp_vote_exit, smp_exit_events, store_vote, with_vote. sim_unfold.
  cbn [state_ptr trace cpu_done]. rewrite Hcx.
  destruct (bool_decide (mpu_state_vote cx = num_online_cpus (cpu_online_mask env)));
    cbn [state_ptr trace cpu_done]; rewrite Hcx; cbn [state_ptr trace cpu_done];
    rewrite Hcx; trace_norm; reflexivity.
Qed.

Lemma smp_undefined_enter env index m :
  state_at (state_ptr m) index = None → smp_vote_enter env index m = Undefined.
Proof.
  intros Hcx. unfold smp_vote_enter. sim_unfold. cbn [state_ptr]. by rewrite Hcx.
Qed.

Lemma smp_undefined_exit env index m :
  state_at (state_ptr m) index = None → smp_vote_exit env index m = Undefined.
Proof.
  intros Hcx. unfold smp_vote_exit. sim_unfold. cbn [state_ptr]. by rewrite Hcx.
Qed.

(** The whole callback on one CPU: both halves, then [return index]. *)
Lemma omap_enter_idle_smp_run env index m cx :
  state_at (state_ptr m) index = Some cx →
  ∃ m', omap_enter_idle_smp env index m = Returned index m' ∧
    trace m' = trace m ++ smp_enter_events env index cx
      ++ smp_exit_events env index (with_vote cx (u32 (mpu_state_vote cx + 1))).
Proof.
  intros Hcx. unfold omap_enter_idle_smp.
  unfold mbind at 1, sim_bind at 1. rewrite (smp_vote_enter_run _ _ _ _ Hcx).
  unfold mbind at 1, sim_bind at 1.
  rewrite (smp_vote_exit_run env index _ (with_vote cx (u32 (mpu_state_vote cx + 1))))
    by (cbn [state_ptr]; exact (state_at_insert _ _ _ _ Hcx)).
  unfold mret, sim_ret. eexists. split; [reflexivity|]. cbn [trace].
  by rewrite <- app_assoc.
Qed.

(** ** Counting the CPUs inside *)

Lemma voters_insert_same (ins : gmap nat Z) c i :
  ins !! c = None → voters (<[c := i]> ins) (Z.to_nat i) = S (voters ins (Z.to_nat i)).
Proof.
  intros Hc. unfold voters. rewrite map_filter_insert_True by done.
  apply map_size_insert_None. apply map_lookup_filter_None. by left.
Qed.

Lemma voters_insert_other (ins : gmap nat Z) c i p :
  ins !! c = None → Z.to_nat i ≠ p → voters (<[c := i]> ins) p = voters ins p.
Proof.
  intros Hc Hp. unfold voters. rewrite map_filter_insert_not'; [done|done|].
  intros y Hy. congruence.
Qed.

Lemma voters_delete_same (ins : gmap nat Z) c i :
  ins !! c = Some i →
  voters ins (Z.to_nat i) = S (voters (delete c ins) (Z.to_nat i)).
Proof.
  intros Hc. unfold voters. rewrite map_filter_delete.
  rewrite <- (insert_delete_id (filter _ ins) c i) at 1
    by (by apply map_lookup_filter_Some).
  apply map_size_insert_None, lookup_delete_eq.
Qed.

Lemma voters_delete_other (ins : gmap nat Z) c i p :
  ins !! c = Some i → Z.to_nat i ≠ p → voters (delete c ins) p = voters ins p.
Proof.
  intros Hc Hp. unfold voters. apply f_equal, map_filter_delete_not.
  intros y Hy. simpl. congruence.
Qed.

Lemma voters_le (ins : gmap nat Z) p : (voters ins p ≤ size ins)%nat.
Proof. apply map_subseteq_size, map_filter_subseteq. Qed.

Lemma inside_le (mask : gset nat) (ins : gmap nat Z) :
  dom ins ⊆ mask → (size ins ≤ size mask)%nat.
Proof. intros Hd. rewrite <- (size_dom (D := gset nat)). by apply subseteq_size. Qed.

Lemma inside_lt (mask : gset nat) (ins : gmap nat Z) c :
  dom ins ⊆ mask → c ∈ mask → ins !! c = None → (size ins < size mask)%nat.
Proof.
  intros Hd Hc Hn. rewrite <- (size_dom (D := gset nat)). apply subset_size.
  split; [done|]. intros Hsub. apply Hsub in Hc. apply elem_of_dom in Hc as [? ?]. congruence.
Qed.

(** When as many CPUs are inside for one state as are online, every CPU
    inside is inside for that state. *)
Lemma voters_full (mask : gset nat) (ins : gmap nat Z) p c i :
  dom ins ⊆ mask → voters ins p = size mask → ins !! c = Some i → Z.to_nat i = p.
Proof.
  intros Hd Hfull Hc. unfold voters in Hfull.
  set (f := filter (λ kv : nat * Z, Z.to_nat kv.2 = p) ins) in *.
  assert (Hsub : dom f ⊆ mask).
  { etrans; [|exact Hd]. apply subseteq_dom, map_filter_subseteq. }
  assert (Heq : dom f = mask).
  { apply set_subseteq_size_eq; [done|]. rewrite size_dom. lia. }
  assert (Hin : c ∈ dom f).
  { rewrite Heq. apply Hd. apply elem_of_dom. eauto. }
  apply elem_of_dom in Hin as [x Hx]. apply map_lookup_filter_Some in Hx as [Hx HP].
  simpl in HP. congruence.
Qed.

Lemma mpu_commands_enter env index cx :
  mpu_commands (smp_enter_events env index cx) =
  if bool_decide (u32 (mpu_state_vote cx + 1) = num_online_cpus (cpu_online_mask env))
  then [mpu_pwrst cx] else [].
Proof. unfold smp_enter_events. by case_bool_decide. Qed.

Lemma mpu_commands_exit env index cx :
  mpu_commands (smp_exit_events env index cx) =
  if bool_decide (mpu_state_vote cx = num_online_cpus (cpu_online_mask env))
  then [PWRDM_FUNC_PWRST_ON] else [].
Proof. unfold smp_exit_events. by case_bool_decide. Qed.

(** ** The symmetric variant: runs of the system *)

Section smp_runs.
Variable mask : gset nat.
Variable tbl : list idle_statedata.
Hypothesis votes_start_clear : votes_clear tbl.
Hypothesis some_cpu_online : (0 < size mask)%nat.
Hypothesis online_fits_u32 : num_online_cpus mask < 2 ^ 32.

Local Abbreviation N := (num_online_cpus mask).

Lemma smp_boot_invariant : smp_invariant mask tbl (smp_boot tbl).
Proof.
  split; simpl.
  - intros p cx0 Hp. rewrite Hp. f_equal.
    unfold voters. rewrite map_filter_empty, map_size_empty.
    pose proof (Forall_lookup_1 _ _ _ _ votes_start_clear Hp) as Hz. simpl in Hz.
    destruct cx0 as [a b v]. simpl in *. by subst v.
  - done.
  - set_solver.
  - intros c i Hc. by rewrite lookup_empty in Hc.
  - exists false. split; [constructor|]. split; [done|].
    intros (p & _ & Hfull). unfold voters in Hfull.
    rewrite map_filter_empty, map_size_empty in Hfull. lia.
Qed.

(** A CPU that is online and outside may enter for any state of the
    table; the counter goes up by one without wrapping. *)
Lemma smp_step_enter s c i cx0 :
  smp_invariant mask tbl s →
  c ∈ mask → inside s !! c = None → state_at tbl i = Some cx0 →
  let v := Z.of_nat (voters (inside s) (Z.to_nat i)) in
  ∃ s', smp_step mask s (Enter c i) = Some s' ∧
    inside s' = <[c := i]> (inside s) ∧
    trace (sys_machine s') =
      trace (sys_machine s) ++ smp_enter_events (cpu_env mask c) i (with_vote cx0 v) ∧
    vote_at s i = Some v ∧ vote_at s' i = Some (v + 1) ∧
    u32 (v + 1) = v + 1 ∧ v + 1 ≤ N ∧
    smp_invariant mask tbl s'.
Proof.
  intros [Htab Hlen Hon Hidx (b & Hpair & Hb)] Hc Hout Hcx0 v.
  apply state_at_Some in Hcx0 as [Hi Hp].
  set (p := Z.to_nat i) in *. set (ins := inside s) in *.
  assert (Hcx : state_at (state_ptr (sys_machine s)) i = Some (with_vote cx0 v)).
  { apply state_at_Some. split; [done|]. by apply Htab. }
  pose proof (inside_lt mask ins c Hon Hc Hout) as Hroom.
  pose proof (voters_le ins p) as Hle.
  assert (Hv : v + 1 ≤ N) by (unfold num_online_cpus; subst v; fold p; lia).
  assert (Hwrap : u32 (v + 1) = v + 1).
  { unfold u32. apply Z.mod_small. subst v. lia. }
  assert (Hnone : ∀ q, voters ins q ≠ size mask).
  { intros q. pose proof (voters_le ins q). lia. }
  assert (Hbf : b = false).
  { destruct b; [|done]. destruct (proj1 Hb eq_refl) as (q & _ & Hq). by apply Hnone in Hq. }
  subst b.
  unfold smp_step. rewrite decide_True by done. fold ins. rewrite Hout.
  rewrite (smp_vote_enter_run _ _ _ _ Hcx). eexists. split; [reflexivity|].
  cbn [inside sys_machine trace state_ptr]. split; [done|]. split; [done|].
  split; [unfold vote_at; by rewrite Hcx|].
  unfold with_vote. cbn [cpu_pwrst mpu_pwrst mpu_state_vote]. rewrite Hwrap.
  split.
  { unfold vote_at. cbn [sys_machine state_ptr].
    by erewrite state_at_insert by exact Hcx. }
  split; [done|]. split; [done|].
  split; cbn [inside sys_machine trace state_ptr].
  - intros q cxq Hq. destruct (decide (q = p)) as [->|Hne].
    + rewrite list_lookup_insert_eq by (rewrite Hlen; by eapply lookup_lt_Some).
      unfold p. rewrite voters_insert_same by done. fold p.
      rewrite Hp in Hq. injection Hq as <-. unfold with_vote. f_equal. f_equal.
      subst v. lia.
    + rewrite list_lookup_insert_ne by done.
      rewrite voters_insert_other by done. by apply Htab.
  - by rewrite length_insert.
  - rewrite dom_insert_L. apply union_subseteq. split; [by apply singleton_subseteq_l | done].
  - intros c' i' Hc'. apply lookup_insert_Some in Hc' as [[<- <-]|[_ Hc']].
    + split; [done|]. by eapply lookup_lt_Some.
    + by apply Hidx in Hc'.
  - rewrite mpu_commands_app, mpu_commands_enter.
    cbn [mpu_state_vote mpu_pwrst cpu_online_mask cpu_env]. rewrite Hwrap.
    case_bool_decide as Hfull.
    + exists true. split; [by constructor|]. split; [|done]. intros _.
      exists p. split; [by eapply lookup_lt_Some|].
      unfold p. rewrite voters_insert_same by done. fold p.
      unfold num_online_cpus in Hfull. subst v. lia.
    + exists false. rewrite app_nil_r. split; [done|]. split; [done|].
      intros (q & _ & Hq). destruct (decide (q = p)) as [->|Hne].
      * unfold p in Hq. rewrite voters_insert_same in Hq by done. fold p in Hq.
        unfold num_online_cpus in Hfull. subst v. lia.
      * rewrite voters_insert_other in Hq by done. by apply Hnone in Hq.
Qed.

(** A CPU that is inside may leave; the counter was at least one and
    goes down by one without wrapping. *)
Lemma smp_step_exit s c i :
  smp_invariant mask tbl s →
  inside s !! c = Some i →
  let v := Z.of_nat (voters (inside s) (Z.to_nat i)) in
  ∃ cx0 s', state_at tbl i = Some cx0 ∧
    smp_step mask s (Exit c) = Some s' ∧
    inside s' = delete c (inside s) ∧
    trace (sys_machine s') =
      trace (sys_machine s) ++ smp_exit_events (cpu_env mask c) i (with_vote cx0 v) ∧
    vote_at s i = Some v ∧ vote_at s' i = Some (v - 1) ∧
    u32 (v - 1) = v - 1 ∧ 1 ≤ v ≤ N ∧
    smp_invariant mask tbl s'.
Proof.
  intros [Htab Hlen Hon Hidx (b & Hpair & Hb)] Hin v.
  destruct (Hidx c i Hin) as [Hi Hlt].
  set (p := Z.to_nat i) in *. set (ins := inside s) in *.
  destruct (lookup_lt_is_Some_2 tbl p Hlt) as [cx0 Hp].
  assert (Hcx : state_at (state_ptr (sys_machine s)) i = Some (with_vote cx0 v)).
  { apply state_at_Some. split; [done|]. by apply Htab. }
  pose proof (voters_delete_same ins c i Hin) as Hsucc. fold p in Hsucc.
  pose proof (voters_le ins p) as Hle.
  pose proof (inside_le mask ins Hon) as Hcap.
  assert (Hv : 1 ≤ v ≤ N) by (unfold num_online_cpus; subst v; lia).
  assert (Hwrap : u32 (v - 1) = v - 1).
  { unfold u32. apply Z.mod_small. lia. }
  assert (Hsize : size (delete c ins) = pred (size ins)).
  { apply map_size_delete_Some. eauto. }
  assert (Hnone : ∀ q, voters (delete c ins) q ≠ size mask).
  { intros q. pose proof (voters_le (delete c ins) q). lia. }
  exists cx0. unfold smp_step. fold ins. rewrite Hin.
  rewrite (smp_vote_exit_run _ _ _ _ Hcx). eexists.
  split; [by apply state_at_Some|]. split; [reflexivity|].
  cbn [inside sys_machine trace state_ptr]. split; [done|]. split; [done|].
  split; [unfold vote_at; by rewrite Hcx|].
  unfold with_vote. cbn [cpu_pwrst mpu_pwrst mpu_state_vote]. rewrite Hwrap.
  split.
  { unfold vote_at. cbn [sys_machine state_ptr].
    by erewrite state_at_insert by exact Hcx. }
  split; [done|]. split; [done|].
  split; cbn [inside sys_machine trace state_ptr].
  - intros q cxq Hq. destruct (decide (q = p)) as [->|Hne].
    + rewrite list_lookup_insert_eq by (by rewrite Hlen).
      rewrite Hp in Hq. injection Hq as <-. unfold with_vote. f_equal. f_equal.
      subst v. lia.
    + rewrite list_lookup_insert_ne by done.
      rewrite (voters_delete_other ins c i q) by done. by apply Htab.
  - by rewrite length_insert.
  - rewrite dom_delete_L. by apply subseteq_difference_l.
  - intros c' i' Hc'. apply lookup_delete_Some in Hc' as [_ Hc']. by apply Hidx in Hc'.
  - rewrite mpu_commands_app, mpu_commands_exit.
    cbn [mpu_state_vote mpu_pwrst cpu_online_mask cpu_env with_vote].
    exists false. case_bool_decide as Hfull.
    + assert (b = true) as ->.
      { apply Hb. exists p. split; [done|]. unfold num_online_cpus in Hfull. subst v. lia. }
      split; [by constructor|]. split; [done|].
      intros (q & _ & Hq). by apply Hnone in Hq.
    + assert (b = false) as ->.
      { destruct b; [|done]. destruct (proj1 Hb eq_refl) as (q & _ & Hq).
        pose proof (voters_full mask ins q c i Hon Hq Hin) as Heq. fold p in Heq. subst q.
        unfold num_online_cpus in Hfull. subst v. lia. }
      rewrite app_nil_r. split; [done|]. split; [done|].
      intros (q & _ & Hq). by apply Hnone in Hq.
Qed.

(** The steps that can happen are the two above. *)
Lemma smp_step_inv s a s' :
  smp_step mask s a = Some s' →
  (∃ c i, a = Enter c i ∧ c ∈ mask ∧ inside s !! c = None ∧
          is_Some (state_at (state_ptr (sys_machine s)) i)) ∨
  (∃ c i, a = Exit c ∧ inside s !! c = Some i).
Proof.
  destruct a as [c i|c]; simpl.
  - case_decide as Hc; [|done]. destruct (inside s !! c) eqn:Hout; [done|].
    intros Hstep. left. exists c, i. repeat split; try done.
    destruct (state_at (state_ptr (sys_machine s)) i) eqn:Hcx; [eauto|].
    by rewrite smp_undefined_enter in Hstep.
  - destruct (inside s !! c) as [i|] eqn:Hin; [|done]. intros _. right. eauto.
Qed.

Lemma smp_step_invariant s a s' :
  smp_invariant mask tbl s → smp_step mask s a = Some s' → smp_invariant mask tbl s'.
Proof.
  intros Hinv Hstep.
  destruct (smp_step_inv s a s' Hstep) as [(c & i & -> & Hc & Hout & [cx Hcx])|(c & i & -> & Hin)].
  - assert (∃ cx0, state_at tbl i = Some cx0) as [cx0 Hcx0].
    { apply state_at_Some in Hcx as [Hi Hcx]. apply lookup_lt_Some in Hcx.
      rewrite (inv_length _ _ _ Hinv) in Hcx.
      destruct (lookup_lt_is_Some_2 tbl _ Hcx) as [cx0 Hcx0].
      exists cx0. by apply state_at_Some. }
    destruct (smp_step_enter s c i cx0 Hinv Hc Hout Hcx0) as (s1 & Hs1 & _ & _ & _ & _ & _ & _ & Hinv').
    congruence.
  - destruct (smp_step_exit s c i Hinv Hin) as (cx0 & s1 & _ & Hs1 & _ & _ & _ & _ & _ & _ & Hinv').
    congruence.
Qed.

Lemma smp_run_invariant sched : ∀ s s',
  smp_invariant mask tbl s → smp_run mask s sched = Some s' → smp_invariant mask tbl s'.
Proof.
  induction sched as [|a sched IH]; intros s s' Hinv Hrun; simpl in Hrun.
  - by injection Hrun as <-.
  - destruct (smp_step mask s a) as [s1|] eqn:Hstep; [|done].
    eapply IH; [|exact Hrun]. by eapply smp_step_invariant.
Qed.

Lemma smp_reachable_invariant sched s :
  smp_run mask (smp_boot tbl) sched = Some s → smp_invariant mask tbl s.
Proof. apply smp_run_invariant, smp_boot_invariant. Qed.

End smp_runs.

(** ** The quorum *)

Lemma vote_at_voters mask tbl s i v :
  smp_invariant mask tbl s → vote_at s i = Some v →
  0 ≤ i ∧ (Z.to_nat i < length tbl)%nat ∧ v = Z.of_nat (voters (inside s) (Z.to_nat i)).
Proof.
  intros Hinv Hv. unfold vote_at in Hv.
  destruct (state_at (state_ptr (sys_machine s)) i) as [cx|] eqn:Hcx; [|done].
  injection Hv as <-. apply state_at_Some in Hcx as [Hi Hcx]. split; [done|].
  pose proof (lookup_lt_Some _ _ _ Hcx) as Hlt. rewrite (inv_length _ _ _ Hinv) in Hlt.
  split; [done|]. destruct (lookup_lt_is_Some_2 tbl _ Hlt) as [cx0 Hcx0].
  rewrite (inv_table _ _ _ Hinv _ _ Hcx0) in Hcx. by injection Hcx as <-.
Qed.

Lemma voters_vote_at mask tbl s p :
  smp_invariant mask tbl s → (p < length tbl)%nat →
  vote_at s (Z.of_nat p) = Some (Z.of_nat (voters (inside s) p)).
Proof.
  intros Hinv Hlt. destruct (lookup_lt_is_Some_2 tbl _ Hlt) as [cx0 Hcx0].
  assert (Hcx : state_at (state_ptr (sys_machine s)) (Z.of_nat p) =
                Some (with_vote cx0 (Z.of_nat (voters (inside s) p)))).
  { apply state_at_Some. split; [lia|]. rewrite Nat2Z.id. by apply (inv_table _ _ _ Hinv). }
  unfold vote_at. by rewrite Hcx.
Qed.

(** C1.  From boot, with N ≥ 1 online CPUs, after any interleaving of the
    CPUs' calls of [omap_enter_idle_smp]: a CPU's first half (vote_enter)
    takes the state's counter from [v] to [v+1] and commands the MPU
    domain to the state's target exactly when [v+1 = N], and to nothing
    otherwise; a CPU's second half (vote_exit) takes the counter from [v]
    to [v-1] and commands the domain to fully-on, once, exactly when
    [v = N]; over the whole run the commands come in pairs (target, then
    fully-on), the last pair being open exactly while some counter
    equals N.  And when two CPUs enter C2 (MPU target CSWR, retention)
    concurrently, in each of the four interleavings the commands are one
    to CSWR followed by one to fully-on. *)
Theorem smp_quorum_commands :
  (∀ (mask : gset nat) (tbl : list idle_statedata) sched s a s',
     votes_clear tbl → (0 < size mask)%nat → num_online_cpus mask < 2 ^ 32 →
     smp_run mask (smp_boot tbl) sched = Some s →
     smp_step mask s a = Some s' →
     (∃ index cx v evs,
        state_at tbl index = Some cx ∧ vote_at s index = Some v ∧
        trace (sys_machine s') = trace (sys_machine s) ++ evs ∧
        match a with
        | Enter _ i =>
            i = index ∧ vote_at s' index = Some (v + 1) ∧ v + 1 ≤ num_online_cpus mask ∧
            mpu_commands evs =
              if decide (v + 1 = num_online_cpus mask) then [mpu_pwrst cx] else []
        | Exit c =>
            inside s !! c = Some index ∧ vote_at s' index = Some (v - 1) ∧
            1 ≤ v ≤ num_online_cpus mask ∧
            mpu_commands evs =
              if decide (v = num_online_cpus mask) then [PWRDM_FUNC_PWRST_ON] else []
        end) ∧
     ∃ b, paired (mpu_commands (trace (sys_machine s'))) b ∧
          (b = true ↔ ∃ i, vote_at s' i = Some (num_online_cpus mask))) ∧
  Forall (λ sched, ∃ s, smp_run both_online (smp_boot omap4_idle_data) sched = Some s ∧
                        mpu_commands (trace (sys_machine s)) =
                          [PWRDM_FUNC_PWRST_CSWR; PWRDM_FUNC_PWRST_ON])
         (two_cpu_concurrent_entries 1).
Proof.
  split.
  - intros mask tbl sched s a s' Hclear Hpos Hfit Hrun Hstep.
    pose proof (smp_reachable_invariant mask tbl Hclear Hpos Hfit sched s Hrun) as Hinv.
    pose proof (smp_step_invariant mask tbl Hpos Hfit s a s' Hinv Hstep) as Hinv'.
    split.
    + destruct (smp_step_inv mask s a s' Hstep)
        as [(c & i & -> & Hc & Hout & [cx Hcx])|(c & i & -> & Hin)].
      * assert (∃ cx0, state_at tbl i = Some cx0) as [cx0 Hcx0].
        { apply state_at_Some in Hcx as [Hi Hcx]. apply lookup_lt_Some in Hcx.
          rewrite (inv_length _ _ _ Hinv) in Hcx.
          destruct (lookup_lt_is_Some_2 tbl _ Hcx) as [cx0 Hcx0].
          exists cx0. by apply state_at_Some. }
        destruct (smp_step_enter mask tbl Hpos Hfit s c i cx0 Hinv Hc Hout Hcx0)
          as (s1 & Hs1 & _ & Htr & Hv & Hv' & Hwrap & Hle & _).
        assert (s1 = s') as -> by congruence.
        eexists i, cx0, _, _. split; [done|]. split; [exact Hv|]. split; [exact Htr|].
        split; [done|]. split; [exact Hv'|]. split; [done|].
        rewrite mpu_commands_enter. cbn [with_vote mpu_state_vote mpu_pwrst cpu_env cpu_online_mask].
        rewrite Hwrap. by repeat (case_bool_decide || case_decide).
      * destruct (smp_step_exit mask tbl Hpos Hfit s c i Hinv Hin)
          as (cx0 & s1 & Hcx0 & Hs1 & _ & Htr & Hv & Hv' & Hwrap & Hle & _).
        assert (s1 = s') as -> by congruence.
        eexists i, cx0, _, _. split; [done|]. split; [exact Hv|]. split; [exact Htr|].
        split; [done|]. split; [exact Hv'|]. split; [done|].
        rewrite mpu_commands_exit. cbn [with_vote mpu_state_vote mpu_pwrst cpu_env cpu_online_mask].
        by repeat (case_bool_decide || case_decide).
    + destruct (inv_paired _ _ _ Hinv') as (b & Hpair & Hb). exists b. split; [done|].
      rewrite Hb. split.
      * intros (p & Hlt & Hfull). exists (Z.of_nat p).
        rewrite (voters_vote_at mask tbl s' p Hinv' Hlt). unfold num_online_cpus. by rewrite Hfull.
      * intros (i & Hv). destruct (vote_at_voters mask tbl s' i _ Hinv' Hv) as (Hi & Hlt & Heq).
        exists (Z.to_nat i). split; [done|]. unfold num_online_cpus in Heq. lia.
  - unfold two_cpu_concurrent_entries.
    repeat (apply Forall_cons; split; [eexists; split; vm_compute; reflexivity|]).
    constructor.
Qed.

Lemma smp_quorum_commands_witness :
  ∃ s s',
    smp_run both_online (smp_boot omap4_idle_data) [Enter 0 1] = Some s ∧
    smp_step both_online s (Enter 1 1) = Some s' ∧
    (∃ index cx v evs,
       state_at omap4_idle_data index = Some cx ∧ vote_at s index = Some v ∧
       trace (sys_machine s') = trace (sys_machine s) ++ evs ∧
       1 = index ∧ vote_at s' index = Some (v + 1) ∧
       v + 1 ≤ num_online_cpus both_online ∧
       mpu_commands evs =
         if decide (v + 1 = num_online_cpus both_online) then [mpu_pwrst cx] else []) ∧
    ∃ b, paired (mpu_commands (trace (sys_machine s'))) b ∧
         (b = true ↔ ∃ i, vote_at s' i = Some (num_online_cpus both_online)).
Proof.
  eexists _, _. split; [vm_compute; reflexivity|]. split; [vm_compute; reflexivity|].
  apply (proj1 smp_quorum_commands both_online omap4_idle_data [Enter 0 1] _ (Enter 1 1)).
  - repeat constructor.
  - vm_compute. lia.
  - vm_compute. reflexivity.
  - vm_compute. reflexivity.
  - vm_compute. reflexivity.
Defined.

(** ** The range of the counter *)

(** C8, as stated, fails in its last part.  With two CPUs online and the
    counter of C2 already at two, a further call of [omap_enter_idle_smp]
    stores three in the counter, commands nothing, warns of nothing and
    returns the index as usual: no assertion guards the counter. *)
Lemma smp_counter_overflow_not_asserted :
  ∃ m', omap_enter_idle_smp (cpu_env both_online 0) 1 machine_at_quorum = Returned 1 m' ∧
    trace m' =
      [Ev_clockevents_notify CLOCK_EVT_NOTIFY_BROADCAST_ENTER 0;
       Ev_raw_spin_lock; Ev_write_vote 1 3; Ev_raw_spin_unlock;
       Ev_omap4_enter_lowpower 0 PWRDM_FUNC_PWRST_OFF;
       Ev_raw_spin_lock; Ev_write_vote 1 2; Ev_raw_spin_unlock;
       Ev_clockevents_notify CLOCK_EVT_NOTIFY_BROADCAST_EXIT 0] ∧
    num_online_cpus both_online < 3 ∧
    count_occ event_eq_dec (trace m') Ev_WARN_ON = 0%nat.
Proof.
  eexists. split; [vm_compute; reflexivity|]. cbn [trace].
  repeat split; vm_compute; reflexivity.
Qed.

(** C8, amended.  From boot, with N ≥ 1 online CPUs each inside at most
    one call at a time, after any interleaving of the CPUs' calls every
    counter of the table lies in [0, N].  (The callback itself checks
    nothing about the counter.) *)
Theorem smp_counter_within_online (mask : gset nat) (tbl : list idle_statedata) sched s i v :
  votes_clear tbl → (0 < size mask)%nat → num_online_cpus mask < 2 ^ 32 →
  smp_run mask (smp_boot tbl) sched = Some s →
  vote_at s i = Some v →
  0 ≤ v ≤ num_online_cpus mask.
Proof.
  intros Hclear Hpos Hfit Hrun Hv.
  pose proof (smp_reachable_invariant mask tbl Hclear Hpos Hfit sched s Hrun) as Hinv.
  destruct (vote_at_voters mask tbl s i v Hinv Hv) as (_ & _ & ->).
  pose proof (voters_le (inside s) (Z.to_nat i)).
  pose proof (inside_le mask (inside s) (inv_online _ _ _ Hinv)).
  unfold num_online_cpus. lia.
Qed.

Lemma smp_counter_within_online_witness :
  ∃ s, smp_run both_online (smp_boot omap4_idle_data) [Enter 0 1; Enter 1 1; Exit 0] = Some s ∧
       vote_at s 1 = Some 1 ∧ 0 ≤ 1 ≤ num_online_cpus both_online.
Proof.
  eexists. split; [vm_compute; reflexivity|]. split; [vm_compute; reflexivity|].
  eapply (smp_counter_within_online both_online omap4_idle_data
            [Enter 0 1; Enter 1 1; Exit 0] _ 1 1).
  - repeat constructor.
  - vm_compute. lia.
  - vm_compute. reflexivity.
  - vm_compute. reflexivity.
  - vm_compute. reflexivity.
Defined.

(** ** Restoring the shared domain *)

(** C5, at the input where the callback departs from it.  CPU 0 entering
    C2 of the OMAP4 table (MPU target CSWR) with CPU 1 offline does not
    wait, commands the MPU domain to CSWR (line 134, under
    [dev->cpu == 0] alone) and returns without ever commanding it back to
    fully-on: the restore of line 150 sits inside the block that wakes
    CPU 1 and is skipped with it, so the domain stands commanded to CSWR
    when the call returns.  The same call with CPU 1 online, once the
    follower has reported off, does issue the restore. *)
Theorem coupled_cpu0_alone_mpu_not_restored :
  (∃ m', omap_enter_idle_coupled cpu0_alone 0 1 omap4_machine = Returned 1 m' ∧
     trace m' =
       [Ev_clockevents_notify CLOCK_EVT_NOTIFY_BROADCAST_ENTER 0;
        Ev_cpu_pm_enter;
        Ev_pwrdm_set_fpwrst mpu_pd PWRDM_FUNC_PWRST_CSWR;
        Ev_omap4_mpuss_enter_lowpower 0 PWRDM_FUNC_PWRST_OFF;
        Ev_write_cpu_done 0 true;
        Ev_cpu_pm_exit;
        Ev_clockevents_notify CLOCK_EVT_NOTIFY_BROADCAST_EXIT 0;
        Ev_parallel_barrier 0;
        Ev_write_cpu_done 0 false] ∧
     mpu_commands (trace m') = [PWRDM_FUNC_PWRST_CSWR] ∧
     mpu_standing PWRDM_FUNC_PWRST_ON (trace m') = PWRDM_FUNC_PWRST_CSWR ∧
     count_occ event_eq_dec (trace m')
       (Ev_pwrdm_set_next_fpwrst mpu_pd PWRDM_FUNC_PWRST_ON) = 0%nat) ∧
  (∃ m', omap_enter_idle_coupled leader_follower_sleeps 3 1 omap4_machine = Returned 1 m' ∧
     mpu_commands (trace m') = [PWRDM_FUNC_PWRST_CSWR; PWRDM_FUNC_PWRST_ON] ∧
     mpu_standing PWRDM_FUNC_PWRST_ON (trace m') = PWRDM_FUNC_PWRST_ON).
Proof.
  split.
  - eexists. split; [vm_compute; reflexivity|]. cbn [trace].
    repeat split; vm_compute; reflexivity.
  - eexists. split; [vm_compute; reflexivity|]. cbn [trace].
    repeat split; vm_compute; reflexivity.
Qed.

(** ** What the callbacks return *)

Lemma omap_enter_idle_smp_undefined env index m :
  state_at (state_ptr m) index = None → omap_enter_idle_smp env index m = Undefined.
Proof.
  intros Hcx. unfold omap_enter_idle_smp. unfold mbind at 1, sim_bind at 1.
  by rewrite smp_undefined_enter.
Qed.

(** C7.  Each of the three entry callbacks, invoked with an index that
    names a state of the table behind [state_ptr] (any index at all for
    [omap_enter_idle_simple]), returns; for the coupled callback on a
    waiting leader this needs the follower to report off or raise its
    flag at some test [n].  And whatever the index, the environment and
    the path taken, abort path included, a callback that returns returns
    the index it was invoked with: no other value reaches the framework. *)
Theorem callbacks_return_index :
  (∀ cb env fuel index m cx n,
     (cb ≠ enter_simple → state_at (state_ptr m) index = Some cx) →
     (cb = enter_coupled → is_leader env = true → leaves_wait env 0 n ∧ (n < fuel)%nat) →
     ∃ m', invoke cb env fuel index m = Returned index m') ∧
  (∀ cb env fuel index m r m',
     invoke cb env fuel index m = Returned r m' → r = index).
Proof.
  split.
  - intros cb env fuel index m cx n Hcx Hleave. destruct cb; simpl.
    + eexists. reflexivity.
    + destruct (coupled_returns env fuel index m cx n (Hcx ltac:(done)) (Hleave eq_refl))
        as (m' & _ & Hrun & _). eauto.
    + destruct (omap_enter_idle_smp_run env index m cx (Hcx ltac:(done))) as (m' & Hrun & _).
      eauto.
  - intros cb env fuel index m r m' Hrun. destruct cb; simpl in Hrun.
    + by injection Hrun as <- _.
    + destruct (state_at (state_ptr m) index) as [cx|] eqn:Hcx;
        [|by rewrite coupled_undefined in Hrun].
      pose proof (coupled_cases env fuel index m cx Hcx) as Hc. rewrite Hrun in Hc.
      by destruct Hc as [-> _].
    + destruct (state_at (state_ptr m) index) as [cx|] eqn:Hcx;
        [|by rewrite omap_enter_idle_smp_undefined in Hrun].
      destruct (omap_enter_idle_smp_run env index m cx Hcx) as (m1 & Hrun1 & _).
      congruence.
Qed.

Lemma callbacks_return_index_witness :
  (∃ m', invoke enter_coupled leader_follower_done 1 2 omap4_machine = Returned 2 m') ∧
  (∃ m', invoke enter_smp (cpu_env both_online 1) 0 1 omap4_machine = Returned 1 m') ∧
  (∃ m', invoke enter_simple follower_env 0 (-7) omap4_machine = Returned (-7) m').
Proof.
  split; [|split].
  - apply (proj1 callbacks_return_index enter_coupled leader_follower_done 1%nat 2
             omap4_machine (mk_statedata PWRDM_FUNC_PWRST_OFF PWRDM_FUNC_PWRST_OSWR 0) 0%nat).
    + intros _. reflexivity.
    + intros _ _. split; [|lia]. split; [intros j Hj; lia | by right].
  - apply (proj1 callbacks_return_index enter_smp (cpu_env both_online 1) 0%nat 1
             omap4_machine (mk_statedata PWRDM_FUNC_PWRST_OFF PWRDM_FUNC_PWRST_CSWR 0) 0%nat).
    + intros _. reflexivity.
    + intros Heq. discriminate Heq.
  - apply (proj1 callbacks_return_index enter_simple follower_env 0%nat (-7)
             omap4_machine (mk_statedata PWRDM_FUNC_PWRST_OFF PWRDM_FUNC_PWRST_CSWR 0) 0%nat).
    + intros Hne. by destruct Hne.
    + intros Heq. discriminate Heq.
Defined.

(** ** Initialisation *)

Lemma setup_timer_lookups cpus : lookups (Iv_setup_broadcast_timer <$> cpus) = [].
Proof. by induction cpus. Qed.

Lemma setup_timer_no_registration cpus :
  Forall (λ e, is_registration e = false) (Iv_setup_broadcast_timer <$> cpus).
Proof. induction cpus; by constructor. Qed.

Lemma lookup_names_distinct :
  NoDup ["mpu_pwrdm"; "cpu0_pwrdm"; "cpu1_pwrdm"; "mpu0_clkdm"; "mpu1_clkdm"].
Proof. apply (bool_decide_unpack _). vm_compute. exact I. Qed.

(** C9.  When one of the five power-domain and clock-domain lookups
    fails, or the SoC is neither an OMAP44xx nor an OMAP54xx,
    [omap4_idle_init] returns -ENODEV, which is negative; no cpuidle
    driver has been registered, no name has been looked up twice, and
    [state_ptr] is left as it was. *)
Theorem init_failure_registers_nothing p g :
  lookup_fails p ∨ (cpu_is_omap44xx p = false ∧ soc_is_omap54xx p = false) →
  ∃ g' tr,
    omap4_idle_init p g = (- ENODEV, g', tr) ∧ - ENODEV < 0 ∧
    Forall (λ e, is_registration e = false) tr ∧
    NoDup (lookups tr) ∧
    g_state_ptr g' = g_state_ptr g.
Proof.
  intros Hbad. unfold omap4_idle_init.
  pose proof lookup_names_distinct as Hnames.
  assert (Hthree : NoDup ["mpu_pwrdm"; "cpu0_pwrdm"; "cpu1_pwrdm"]).
  { apply (NoDup_app ["mpu_pwrdm"; "cpu0_pwrdm"; "cpu1_pwrdm"] ["mpu0_clkdm"; "mpu1_clkdm"])
      in Hnames. tauto. }
  destruct (is_null (pwrdm_lookup p "mpu_pwrdm") || is_null (pwrdm_lookup p "cpu0_pwrdm")
            || is_null (pwrdm_lookup p "cpu1_pwrdm")) eqn:Hpd.
  { eexists _, _. split; [reflexivity|]. split; [done|].
    split; [by repeat constructor|]. split; done. }
  destruct (is_null (clkdm_lookup p "mpu0_clkdm") || is_null (clkdm_lookup p "mpu1_clkdm"))
    eqn:Hcd.
  { eexists _, _. split; [reflexivity|]. split; [done|].
    split; [by repeat constructor|]. split; done. }
  assert (Hsoc : cpu_is_omap44xx p = false ∧ soc_is_omap54xx p = false).
  { destruct Hbad as [Hfail|Hsoc]; [|done]. exfalso. unfold lookup_fails in Hfail.
    apply orb_false_elim in Hpd as [Hpd Hp3]. apply orb_false_elim in Hpd as [Hp1 Hp2].
    apply orb_false_elim in Hcd as [Hc1 Hc2].
    destruct Hfail as [H|[H|[H|[H|H]]]]; rewrite H in *; done. }
  destruct Hsoc as [-> ->]. eexists _, _. split; [reflexivity|]. split; [done|].
  split; [|split; [|done]].
  - apply Forall_app. split; [by repeat constructor | apply setup_timer_no_registration].
  - unfold lookups, on_each_cpu_setup_broadcast_timer. rewrite omap_app.
    fold (lookups (Iv_setup_broadcast_timer <$> elements (online_cpus p))).
    rewrite setup_timer_lookups, app_nil_r. exact Hnames.
Qed.

Lemma init_failure_registers_nothing_witness :
  ∃ g' tr,
    omap4_idle_init unknown_soc no_globals = (- ENODEV, g', tr) ∧ - ENODEV < 0 ∧
    Forall (λ e, is_registration e = false) tr ∧
    NoDup (lookups tr) ∧
    g_state_ptr g' = g_state_ptr no_globals.
Proof.
  apply (init_failure_registers_nothing unknown_soc no_globals).
  right. split; reflexivity.
Defined.

(** * Further properties *)

(** ** The coupled callback on each kind of CPU *)

(** The wait loop, turn by turn, when the follower lets the leader out at
    test [k+n]. *)
Lemma wait_cpu1_off_exact env n : ∀ k fuel m,
  leaves_wait env k n → (n < fuel)%nat →
  ∃ flags,
    length flags = length (cpu_done m) ∧
    (∀ c, c ≠ 1%nat → flags !! c = cpu_done m !! c) ∧
    wait_cpu1_off env fuel k m =
    Returned (bool_decide (cpu1_fpwrst env (k + n) ≠ PWRDM_FUNC_PWRST_OFF))
      (mk_machine flags (state_ptr m)
         (trace m ++ wait_rounds env k n ++ wait_exit env (k + n))).
Proof.
  induction n as [|n IH]; intros k fuel m [Hbefore Hat] Hfuel;
    (destruct fuel as [|fuel]; [lia|]); simpl; sim_unfold; unfold wait_exit.
  - rewrite Nat.add_0_r in *. unfold wait_rounds. simpl.
    destruct (decide (cpu1_fpwrst env k = PWRDM_FUNC_PWRST_OFF)) as [Hoff|Hon].
    + rewrite bool_decide_eq_false_2 by (intros ?; done). rewrite Hoff.
      exists (cpu_done m). by destruct m.
    + rewrite bool_decide_eq_true_2 by done.
      destruct Hat as [?|Hd]; [done|]. rewrite Hd.
      exists (<[1%nat := true]> (cpu_done m)). split; [by rewrite length_insert|].
      split; [intros c Hc; by rewrite list_lookup_insert_ne|].
      cbn [trace cpu_done state_ptr]. by rewrite <- !app_assoc.
  - destruct (Hbefore k ltac:(lia)) as [Hon Hd].
    destruct (decide (cpu1_fpwrst env k = PWRDM_FUNC_PWRST_OFF)); [done|].
    rewrite Hd. replace (k + S n)%nat with (S k + n)%nat by lia.
    match goal with |- context [wait_cpu1_off env fuel (S k) ?m1] =>
      destruct (IH (S k) fuel m1) as (flags & Hlen & Hother & Hrun)
    end.
    { split; [intros j Hj; apply Hbefore; lia|].
      by replace (S k + n)%nat with (k + S n)%nat by lia. }
    { lia. }
    exists flags. cbn [cpu_done] in Hlen, Hother. rewrite length_insert in Hlen.
    split; [done|]. split.
    { intros c Hc. rewrite (Hother c Hc). by rewrite list_lookup_insert_ne. }
    rewrite Hrun. cbn [trace cpu_done state_ptr]. unfold wait_rounds. simpl.
    unfold wait_exit. by rewrite <- !app_assoc.
Qed.

(** The wait loop while the follower neither reports off nor raises its
    flag: it is still going after any number of turns. *)
Lemma wait_cpu1_off_spins env fuel : ∀ k m,
  (∀ j, (k ≤ j)%nat → cpu1_fpwrst env j ≠ PWRDM_FUNC_PWRST_OFF ∧ cpu1_done env j = false) →
  ∃ flags,
    wait_cpu1_off env fuel k m =
    Spinning (mk_machine flags (state_ptr m) (trace m ++ wait_rounds env k fuel)).
Proof.
  induction fuel as [|fuel IH]; intros k m Hstay; simpl.
  - exists (cpu_done m). unfold wait_rounds. simpl. rewrite app_nil_r. by destruct m.
  - sim_unfold. destruct (Hstay k ltac:(lia)) as [Hon Hd].
    destruct (decide (cpu1_fpwrst env k = PWRDM_FUNC_PWRST_OFF)); [done|]. rewrite Hd.
    match goal with |- context [wait_cpu1_off env fuel (S k) ?m1] =>
      destruct (IH (S k) m1) as (flags & Hrun)
    end.
    { intros j Hj. apply Hstay. lia. }
    exists flags. rewrite Hrun. cbn [trace cpu_done state_ptr]. unfold wait_rounds. simpl.
    by rewrite <- !app_assoc.
Qed.

Lemma not_cpu0_not_leader env : dev_cpu env ≠ 0%nat → is_leader env = false.
Proof. intros Hc. unfold is_leader. by rewrite bool_decide_eq_false_2. Qed.

Lemma cpu1_offline_not_leader env : 1%nat ∉ cpu_online_mask env → is_leader env = false.
Proof.
  intros Hoff. unfold is_leader, cpumask_test_cpu.
  rewrite (bool_decide_eq_false_2 _ Hoff). apply andb_false_r.
Qed.

(** X1.  On any CPU other than CPU 0 the coupled callback does not wait
    and does not depend on what the other CPU does: for every index
    inside the table it returns the index at once, its events are the
    broadcast and per-CPU notifications around its own low-power entry
    (with the cluster-level exit call for an OSWR target), the barrier
    and its own flag going up and down; it programs no power or clock
    domain, and it leaves the table and the other CPUs' flags alone. *)
Theorem coupled_on_other_cpu env fuel index m cx :
  state_at (state_ptr m) index = Some cx →
  dev_cpu env ≠ 0%nat →
  ∃ evs,
    omap_enter_idle_coupled env fuel index m =
      Returned index
        (mk_machine (<[dev_cpu env := false]> (cpu_done m)) (state_ptr m) (trace m ++ evs)) ∧
    evs =
      [Ev_clockevents_notify CLOCK_EVT_NOTIFY_BROADCAST_ENTER (processor_id env);
       Ev_cpu_pm_enter;
       Ev_omap4_mpuss_enter_lowpower (dev_cpu env) (cpu_pwrst cx);
       Ev_write_cpu_done (dev_cpu env) true;
       Ev_cpu_pm_exit]
      ++ (if bool_decide (mpu_pwrst cx = PWRDM_FUNC_PWRST_OSWR)
          then [Ev_cpu_cluster_pm_exit] else [])
      ++ [Ev_clockevents_notify CLOCK_EVT_NOTIFY_BROADCAST_EXIT (processor_id env);
          Ev_parallel_barrier (dev_cpu env);
          Ev_write_cpu_done (dev_cpu env) false] ∧
    Forall (λ e, touches_domains e = false) evs.
Proof.
  intros Hcx Hc. rewrite (coupled_unfold _ _ _ _ _ Hcx).
  rewrite (not_cpu0_not_leader env Hc). rewrite list_insert_insert_eq.
  unfold coupled_sequence_events, fail_label_events.
  rewrite (not_cpu0_not_leader env Hc), (bool_decide_eq_false_2 _ Hc).
  eexists. split; [reflexivity|].
  destruct (bool_decide (mpu_pwrst cx = PWRDM_FUNC_PWRST_OSWR));
    (split; [reflexivity | by repeat constructor]).
Qed.

Lemma coupled_on_other_cpu_witness :
  ∃ evs,
    omap_enter_idle_coupled follower_env 0 1 omap4_machine =
      Returned 1
        (mk_machine (<[1%nat := false]> (cpu_done omap4_machine)) (state_ptr omap4_machine)
                    (trace omap4_machine ++ evs)) ∧
    evs =
      [Ev_clockevents_notify CLOCK_EVT_NOTIFY_BROADCAST_ENTER 1;
       Ev_cpu_pm_enter;
       Ev_omap4_mpuss_enter_lowpower 1 PWRDM_FUNC_PWRST_OFF;
       Ev_write_cpu_done 1 true;
       Ev_cpu_pm_exit]
      ++ (if bool_decide (PWRDM_FUNC_PWRST_CSWR = PWRDM_FUNC_PWRST_OSWR)
          then [Ev_cpu_cluster_pm_exit] else [])
      ++ [Ev_clockevents_notify CLOCK_EVT_NOTIFY_BROADCAST_EXIT 1;
          Ev_parallel_barrier 1;
          Ev_write_cpu_done 1 false] ∧
    Forall (λ e, touches_domains e = false) evs.
Proof.
  apply (coupled_on_other_cpu follower_env 0 1 omap4_machine
           (mk_statedata PWRDM_FUNC_PWRST_OFF PWRDM_FUNC_PWRST_CSWR 0)).
  - reflexivity.
  - simpl. lia.
Defined.

(** X2.  CPU 0 with CPU 1 offline does not wait either: for every index
    inside the table it returns at once, having commanded the MPU domain
    to the state's target and run the cluster-level chains for an OSWR
    target, but without the block of lines 148-154: no command takes the
    MPU domain back to fully-on and nothing of CPU 1 is touched, so the
    MPU domain stands commanded to the state's target when the call
    returns. *)
Theorem coupled_on_cpu0_alone env fuel index m cx :
  state_at (state_ptr m) index = Some cx →
  dev_cpu env = 0%nat → 1%nat ∉ cpu_online_mask env →
  ∃ evs,
    omap_enter_idle_coupled env fuel index m =
      Returned index
        (mk_machine (<[0%nat := false]> (cpu_done m)) (state_ptr m) (trace m ++ evs)) ∧
    evs =
      [Ev_clockevents_notify CLOCK_EVT_NOTIFY_BROADCAST_ENTER (processor_id env);
       Ev_cpu_pm_enter;
       Ev_pwrdm_set_fpwrst mpu_pd (mpu_pwrst cx)]
      ++ (if bool_decide (set_fpwrst_status env ≠ 0) then [Ev_WARN_ON] else [])
      ++ (if bool_decide (mpu_pwrst cx = PWRDM_FUNC_PWRST_OSWR)
          then [Ev_cpu_cluster_pm_enter] else [])
      ++ [Ev_omap4_mpuss_enter_lowpower 0 (cpu_pwrst cx);
          Ev_write_cpu_done 0 true;
          Ev_cpu_pm_exit]
      ++ (if bool_decide (mpu_pwrst cx = PWRDM_FUNC_PWRST_OSWR)
          then [Ev_cpu_cluster_pm_exit] else [])
      ++ [Ev_clockevents_notify CLOCK_EVT_NOTIFY_BROADCAST_EXIT (processor_id env);
          Ev_parallel_barrier 0;
          Ev_write_cpu_done 0 false] ∧
    mpu_commands evs = [mpu_pwrst cx] ∧
    mpu_standing PWRDM_FUNC_PWRST_ON evs = mpu_pwrst cx.
Proof.
  intros Hcx Hc Hoff. rewrite (coupled_unfold _ _ _ _ _ Hcx).
  rewrite (cpu1_offline_not_leader env Hoff). rewrite list_insert_insert_eq.
  unfold coupled_sequence_events, fail_label_events.
  rewrite (cpu1_offline_not_leader env Hoff), Hc. rewrite bool_decide_eq_true_2 by done.
  eexists. split; [reflexivity|].
  by destruct (bool_decide (set_fpwrst_status env ≠ 0)),
              (bool_decide (mpu_pwrst cx = PWRDM_FUNC_PWRST_OSWR)).
Qed.

Lemma coupled_on_cpu0_alone_witness :
  ∃ evs,
    omap_enter_idle_coupled cpu0_alone 0 2 omap4_machine =
      Returned 2
        (mk_machine (<[0%nat := false]> (cpu_done omap4_machine)) (state_ptr omap4_machine)
                    (trace omap4_machine ++ evs)) ∧
    evs =
      [Ev_clockevents_notify CLOCK_EVT_NOTIFY_BROADCAST_ENTER 0;
       Ev_cpu_pm_enter;
       Ev_pwrdm_set_fpwrst mpu_pd PWRDM_FUNC_PWRST_OSWR]
      ++ (if bool_decide (set_fpwrst_status cpu0_alone ≠ 0) then [Ev_WARN_ON] else [])
      ++ (if bool_decide (PWRDM_FUNC_PWRST_OSWR = PWRDM_FUNC_PWRST_OSWR)
          then [Ev_cpu_cluster_pm_enter] else [])
      ++ [Ev_omap4_mpuss_enter_lowpower 0 PWRDM_FUNC_PWRST_OFF;
          Ev_write_cpu_done 0 true;
          Ev_cpu_pm_exit]
      ++ (if bool_decide (PWRDM_FUNC_PWRST_OSWR = PWRDM_FUNC_PWRST_OSWR)
          then [Ev_cpu_cluster_pm_exit] else [])
      ++ [Ev_clockevents_notify CLOCK_EVT_NOTIFY_BROADCAST_EXIT 0;
          Ev_parallel_barrier 0;
          Ev_write_cpu_done 0 false] ∧
    mpu_commands evs = [PWRDM_FUNC_PWRST_OSWR] ∧
    mpu_standing PWRDM_FUNC_PWRST_ON evs = PWRDM_FUNC_PWRST_OSWR.
Proof.
  apply (coupled_on_cpu0_alone cpu0_alone 0 2 omap4_machine
           (mk_statedata PWRDM_FUNC_PWRST_OFF PWRDM_FUNC_PWRST_OSWR 0)).
  - reflexivity.
  - reflexivity.
  - intros Hin. apply (bool_decide_pack _) in Hin. vm_compute in Hin. exact Hin.
Defined.

(** X3.  A leader whose follower lets it out of the wait loop at test
    [n] has read the follower's power state exactly [n+1] times: its
    events are [n] full turns (state read, [cpu_relax], flag read as
    down), then either the off report followed by the whole sequence, or
    a last turn that finds the flag up; then the barrier and the clearing
    of its flag.  When the off report and a raised flag coincide at test
    [n], the off report wins: the state is tested first. *)
Theorem coupled_leader_exact_trace env fuel index m cx n :
  state_at (state_ptr m) index = Some cx →
  is_leader env = true →
  leaves_wait env 0 n → (n < fuel)%nat →
  ∃ m',
    omap_enter_idle_coupled env fuel index m = Returned index m' ∧
    trace m' = trace m ++ wait_rounds env 0 n ++ wait_exit env n
      ++ (if decide (cpu1_fpwrst env n = PWRDM_FUNC_PWRST_OFF)
          then leader_sequence env cx else [])
      ++ fail_label_events env ∧
    length (omap (report_of (cpu_pd 1)) (wait_rounds env 0 n ++ wait_exit env n)) = S n.
Proof.
  intros Hcx Hl Hleave Hfuel. rewrite (coupled_unfold _ _ _ _ _ Hcx), Hl.
  destruct (wait_cpu1_off_exact env n 0 fuel m Hleave Hfuel) as (flags & _ & _ & Hrun).
  rewrite Hrun. change (0 + n)%nat with n. eexists. split; [reflexivity|].
  cbn [trace]. split.
  - rewrite (leader_sequence_events env cx Hl).
    destruct (decide (cpu1_fpwrst env n = PWRDM_FUNC_PWRST_OFF)) as [Hoff|Hon].
    + rewrite bool_decide_eq_false_2 by (intros ?; done). by rewrite <- !app_assoc.
    + rewrite bool_decide_eq_true_2 by done. by rewrite <- !app_assoc.
  - rewrite omap_app, length_app.
    assert (Hrounds : ∀ k, length (omap (report_of (cpu_pd 1)) (wait_rounds env k n)) = n).
    { unfold wait_rounds. clear. induction n as [|n IH]; intros k; [done|].
      change (seq k (S n)) with (k :: seq (S k) n).
      change (flat_map (wait_round env) (k :: seq (S k) n))
        with (wait_round env k ++ flat_map (wait_round env) (seq (S k) n)).
      rewrite omap_app, length_app, IH. unfold wait_round. by simpl. }
    rewrite Hrounds. unfold wait_exit.
    destruct (decide (cpu1_fpwrst env n = PWRDM_FUNC_PWRST_OFF)); simpl; lia.
Qed.

Lemma coupled_leader_exact_trace_witness :
  ∃ m',
    omap_enter_idle_coupled leader_follower_sleeps 5 1 omap4_machine = Returned 1 m' ∧
    trace m' = trace omap4_machine ++ wait_rounds leader_follower_sleeps 0 2
      ++ wait_exit leader_follower_sleeps 2
      ++ (if decide (cpu1_fpwrst leader_follower_sleeps 2 = PWRDM_FUNC_PWRST_OFF)
          then leader_sequence leader_follower_sleeps
                 (mk_statedata PWRDM_FUNC_PWRST_OFF PWRDM_FUNC_PWRST_CSWR 0)
          else [])
      ++ fail_label_events leader_follower_sleeps ∧
    length (omap (report_of (cpu_pd 1))
              (wait_rounds leader_follower_sleeps 0 2 ++ wait_exit leader_follower_sleeps 2))
      = 3%nat.
Proof.
  apply (coupled_leader_exact_trace leader_follower_sleeps 5 1 omap4_machine
           (mk_statedata PWRDM_FUNC_PWRST_OFF PWRDM_FUNC_PWRST_CSWR 0) 2).
  - reflexivity.
  - vm_compute. reflexivity.
  - split.
    + intros j Hj. assert (j = 0 ∨ j = 1)%nat as [-> | ->] by lia; by split.
    + by left.
  - lia.
Defined.

(** X4.  A leader whose follower never reports off and never raises its
    flag never leaves the wait loop: after any number of turns the call
    is still waiting, all it has done is poll, and it has reached neither
    the barrier nor any command to a domain. *)
Theorem coupled_leader_spins env fuel index m cx :
  state_at (state_ptr m) index = Some cx →
  is_leader env = true →
  (∀ j, cpu1_fpwrst env j ≠ PWRDM_FUNC_PWRST_OFF ∧ cpu1_done env j = false) →
  ∃ m',
    omap_enter_idle_coupled env fuel index m = Spinning m' ∧
    trace m' = trace m ++ wait_rounds env 0 fuel ∧
    Forall polling (wait_rounds env 0 fuel) ∧
    Forall before_barrier (wait_rounds env 0 fuel) ∧
    Forall (λ e, touches_domains e = false) (wait_rounds env 0 fuel).
Proof.
  intros Hcx Hl Hstay. rewrite (coupled_unfold _ _ _ _ _ Hcx), Hl.
  destruct (wait_cpu1_off_spins env fuel 0 m) as (flags & Hrun).
  { intros j _. apply Hstay. }
  rewrite Hrun. eexists. split; [reflexivity|]. split; [done|].
  assert (Hall : ∀ k, Forall (λ e, polling e ∧ before_barrier e ∧ touches_domains e = false)
                        (wait_rounds env k fuel)).
  { unfold wait_rounds. clear -Hstay. induction fuel as [|fuel IH]; intros k; [constructor|].
    change (seq k (S fuel)) with (k :: seq (S k) fuel).
    change (flat_map (wait_round env) (k :: seq (S k) fuel))
      with (wait_round env k ++ flat_map (wait_round env) (seq (S k) fuel)).
    apply Forall_app. split; [|apply IH].
    destruct (Hstay k) as [Hon _]. unfold wait_round. by repeat constructor. }
  specialize (Hall 0%nat).
  repeat split; (eapply Forall_impl; [exact Hall|]); by intros e (? & ? & ?).
Qed.

Lemma coupled_leader_spins_witness :
  ∃ m',
    omap_enter_idle_coupled leader_never_released 4 2 omap4_machine = Spinning m' ∧
    trace m' = trace omap4_machine ++ wait_rounds leader_never_released 0 4 ∧
    Forall polling (wait_rounds leader_never_released 0 4) ∧
    Forall before_barrier (wait_rounds leader_never_released 0 4) ∧
    Forall (λ e, touches_domains e = false) (wait_rounds leader_never_released 0 4).
Proof.
  apply (coupled_leader_spins leader_never_released 4 2 omap4_machine
           (mk_statedata PWRDM_FUNC_PWRST_OFF PWRDM_FUNC_PWRST_OSWR 0)).
  - reflexivity.
  - vm_compute. reflexivity.
  - intros j. by split.
Defined.

(** ** What the coupled callback leaves behind *)

Lemma wait_cpu1_off_flags env fuel : ∀ k m failed m',
  wait_cpu1_off env fuel k m = Returned failed m' →
  ∀ c, c ≠ 1%nat → cpu_done m' !! c = cpu_done m !! c.
Proof.
  induction fuel as [|fuel IH]; intros k m failed m' Hrun c Hc; simpl in Hrun; [done|].
  sim_unfold. destruct (decide (cpu1_fpwrst env k = PWRDM_FUNC_PWRST_OFF)).
  - by injection Hrun as _ <-.
  - destruct (cpu1_done env k).
    + injection Hrun as _ <-. cbn [cpu_done]. by rewrite list_lookup_insert_ne.
    + rewrite (IH _ _ _ _ Hrun c Hc). cbn [cpu_done]. by rewrite list_lookup_insert_ne.
Qed.

(** X5.  Whatever path it takes, a call of the coupled callback that
    returns leaves the state table (vote counters included) as it found
    it, leaves the flags of all CPUs other than itself and CPU 1 as they
    were, and returns with the calling CPU's own completion flag down. *)
Theorem coupled_leaves_table_and_flags env fuel index m r m' :
  omap_enter_idle_coupled env fuel index m = Returned r m' →
  (dev_cpu env < length (cpu_done m))%nat →
  state_ptr m' = state_ptr m ∧
  length (cpu_done m') = length (cpu_done m) ∧
  cpu_done m' !! dev_cpu env = Some false ∧
  ∀ c, c ≠ dev_cpu env → c ≠ 1%nat → cpu_done m' !! c = cpu_done m !! c.
Proof.
  intros Hrun Hcpu.
  destruct (state_at (state_ptr m) index) as [cx|] eqn:Hcx;
    [|by rewrite coupled_undefined in Hrun].
  rewrite (coupled_unfold _ _ _ _ _ Hcx) in Hrun.
  assert (Hwait : ∃ failed m1,
            (if is_leader env then wait_cpu1_off env fuel 0 m else Returned false m)
            = Returned failed m1).
  { destruct (if is_leader env then wait_cpu1_off env fuel 0 m else Returned false m);
      [eauto|done|done]. }
  destruct Hwait as (failed & m1 & Hwait). rewrite Hwait in Hrun. injection Hrun as _ <-.
  assert (Hm1 : state_ptr m1 = state_ptr m ∧ length (cpu_done m1) = length (cpu_done m) ∧
                ∀ c, c ≠ 1%nat → cpu_done m1 !! c = cpu_done m !! c).
  { destruct (is_leader env).
    - pose proof (wait_cpu1_off_cases env fuel 0 m) as Hc. rewrite Hwait in Hc.
      destruct Hc as (Hs & Hlen & _). split; [done|]. split; [done|].
      by apply (wait_cpu1_off_flags env fuel 0 m failed m1).
    - by injection Hwait as _ <-. }
  destruct Hm1 as (Hs & Hlen & Hother). cbn [state_ptr cpu_done].
  split; [done|]. split; [destruct failed; by rewrite ?length_insert|]. split.
  - apply list_lookup_insert_eq. destruct failed; rewrite ?length_insert; lia.
  - intros c Hc Hc1. rewrite list_lookup_insert_ne by done.
    destruct failed; rewrite ?list_lookup_insert_ne by done; by apply Hother.
Qed.

Lemma coupled_leaves_table_and_flags_witness :
  ∃ m', omap_enter_idle_coupled leader_follower_done 1 2 omap4_machine = Returned 2 m' ∧
    state_ptr m' = state_ptr omap4_machine ∧
    length (cpu_done m') = length (cpu_done omap4_machine) ∧
    cpu_done m' !! dev_cpu leader_follower_done = Some false ∧
    ∀ c, c ≠ dev_cpu leader_follower_done → c ≠ 1%nat →
         cpu_done m' !! c = cpu_done omap4_machine !! c.
Proof.
  eexists. split; [vm_compute; reflexivity|].
  apply (coupled_leaves_table_and_flags leader_follower_done 1 2 omap4_machine 2).
  - vm_compute. reflexivity.
  - simpl. lia.
Defined.

(** X6.  On CPU 0 (leader, or alone) the notifications of a call that
    returns are balanced and nested: none at all on the abort path;
    otherwise broadcast-enter, [cpu_pm_enter], [cpu_pm_exit],
    broadcast-exit, once each in this order, with [cpu_cluster_pm_enter]
    after [cpu_pm_enter] and [cpu_cluster_pm_exit] after [cpu_pm_exit]
    both present when the state's MPU target is OSWR and both absent
    otherwise. *)
Theorem coupled_cpu0_notifications_balanced env fuel index m cx r m' :
  state_at (state_ptr m) index = Some cx →
  dev_cpu env = 0%nat →
  omap_enter_idle_coupled env fuel index m = Returned r m' →
  ∃ evs, trace m' = trace m ++ evs ∧
    (notifications evs = [] ∨
     notifications evs =
       if bool_decide (mpu_pwrst cx = PWRDM_FUNC_PWRST_OSWR)
       then [Broadcast_enter; Pm_enter; Cluster_pm_enter;
             Pm_exit; Cluster_pm_exit; Broadcast_exit]
       else [Broadcast_enter; Pm_enter; Pm_exit; Broadcast_exit]).
Proof.
  intros Hcx Hc Hrun.
  pose proof (coupled_cases env fuel index m cx Hcx) as Hcases. rewrite Hrun in Hcases.
  destruct Hcases as (_ & _ & _ & _ & evs & Htr & Hpath).
  exists evs. split; [done|].
  destruct (coupled_notifications env cx evs Hpath) as [Hnone|Hsome]; [by left|right].
  rewrite Hsome, Hc. rewrite (bool_decide_eq_true_2 (0%nat = 0%nat)) by done.
  by destruct (bool_decide (mpu_pwrst cx = PWRDM_FUNC_PWRST_OSWR)).
Qed.

Lemma coupled_cpu0_notifications_balanced_witness :
  ∃ m', omap_enter_idle_coupled leader_follower_sleeps 3 2 omap4_machine = Returned 2 m' ∧
    ∃ evs, trace m' = trace omap4_machine ++ evs ∧
      (notifications evs = [] ∨
       notifications evs =
         if bool_decide (PWRDM_FUNC_PWRST_OSWR = PWRDM_FUNC_PWRST_OSWR)
         then [Broadcast_enter; Pm_enter; Cluster_pm_enter;
               Pm_exit; Cluster_pm_exit; Broadcast_exit]
         else [Broadcast_enter; Pm_enter; Pm_exit; Broadcast_exit]).
Proof.
  eexists. split; [vm_compute; reflexivity|].
  apply (coupled_cpu0_notifications_balanced leader_follower_sleeps 3 2 omap4_machine
           (mk_statedata PWRDM_FUNC_PWRST_OFF PWRDM_FUNC_PWRST_OSWR 0) 2).
  - reflexivity.
  - reflexivity.
  - vm_compute. reflexivity.
Defined.

(** ** One call of the symmetric callback *)

Lemma u32_up_down v : 0 ≤ v < 2 ^ 32 → u32 (u32 (v + 1) - 1) = v.
Proof.
  intros Hv. unfold u32. rewrite Zminus_mod_idemp_l.
  replace (v + 1 - 1) with v by lia. by apply Z.mod_small.
Qed.

Lemma with_vote_same cx : with_vote cx (mpu_state_vote cx) = cx.
Proof. by destruct cx. Qed.

(** X7.  A call of [omap_enter_idle_smp] that no other CPU interleaves
    with returns its index and leaves the table and the flags exactly as
    it found them, for every u32 value of the counter (the increment and
    the decrement cancel even across the wrap at 2^32); its commands to
    the MPU domain are either none, or the state's target followed by
    fully-on, the latter exactly when the incremented counter equals the
    number of online CPUs. *)
Theorem smp_single_call_restores env index m cx :
  state_at (state_ptr m) index = Some cx →
  0 ≤ mpu_state_vote cx < 2 ^ 32 →
  ∃ evs,
    omap_enter_idle_smp env index m =
      Returned index (mk_machine (cpu_done m) (state_ptr m) (trace m ++ evs)) ∧
    mpu_commands evs =
      if decide (u32 (mpu_state_vote cx + 1) = num_online_cpus (cpu_online_mask env))
      then [mpu_pwrst cx; PWRDM_FUNC_PWRST_ON] else [].
Proof.
  intros Hcx Hv. unfold omap_enter_idle_smp.
  unfold mbind at 1, sim_bind at 1. rewrite (smp_vote_enter_run _ _ _ _ Hcx).
  unfold mbind at 1, sim_bind at 1.
  rewrite (smp_vote_exit_run env index _ (with_vote cx (u32 (mpu_state_vote cx + 1))))
    by (cbn [state_ptr]; exact (state_at_insert _ _ _ _ Hcx)).
  unfold mret, sim_ret. cbn [cpu_done state_ptr trace].
  rewrite list_insert_insert_eq.
  assert (Hback : with_vote (with_vote cx (u32 (mpu_state_vote cx + 1)))
                    (u32 (mpu_state_vote (with_vote cx (u32 (mpu_state_vote cx + 1))) - 1))
                  = cx).
  { unfold with_vote. cbn [cpu_pwrst mpu_pwrst mpu_state_vote].
    rewrite (u32_up_down _ Hv). apply with_vote_same. }
  rewrite Hback.
  apply state_at_Some in Hcx as [_ Hcx]. rewrite (list_insert_id _ _ _ Hcx).
  eexists. split; [by rewrite <- app_assoc|].
  rewrite mpu_commands_app, mpu_commands_enter, mpu_commands_exit.
  cbn [with_vote mpu_state_vote mpu_pwrst].
  by repeat (case_bool_decide || case_decide).
Qed.

Lemma smp_single_call_restores_witness :
  ∃ evs,
    omap_enter_idle_smp (cpu_env cpu0_only 0) 1 omap4_machine =
      Returned 1 (mk_machine (cpu_done omap4_machine) (state_ptr omap4_machine)
                             (trace omap4_machine ++ evs)) ∧
    mpu_commands evs =
      if decide (u32 (0 + 1) = num_online_cpus (cpu_online_mask (cpu_env cpu0_only 0)))
      then [PWRDM_FUNC_PWRST_CSWR; PWRDM_FUNC_PWRST_ON] else [].
Proof.
  apply (smp_single_call_restores (cpu_env cpu0_only 0) 1 omap4_machine
           (mk_statedata PWRDM_FUNC_PWRST_OFF PWRDM_FUNC_PWRST_CSWR 0)).
  - reflexivity.
  - simpl. lia.
Defined.

(** ** More on runs of the symmetric variant *)

(** The two kinds of step, with what each does to the trace and to the
    set of CPUs inside. *)
Lemma smp_step_cases mask tbl s a s' :
  (0 < size mask)%nat → num_online_cpus mask < 2 ^ 32 →
  smp_invariant mask tbl s → smp_step mask s a = Some s' →
  ∃ c i cx0,
    state_at tbl i = Some cx0 ∧
    let v := Z.of_nat (voters (inside s) (Z.to_nat i)) in
    (a = Enter c i ∧ c ∈ mask ∧ inside s !! c = None ∧
     inside s' = <[c := i]> (inside s) ∧ v + 1 ≤ num_online_cpus mask ∧
     trace (sys_machine s') =
       trace (sys_machine s) ++ smp_enter_events (cpu_env mask c) i (with_vote cx0 v))
    ∨
    (a = Exit c ∧ inside s !! c = Some i ∧
     inside s' = delete c (inside s) ∧ 1 ≤ v ≤ num_online_cpus mask ∧
     trace (sys_machine s') =
       trace (sys_machine s) ++ smp_exit_events (cpu_env mask c) i (with_vote cx0 v)).
Proof.
  intros Hpos Hfit Hinv Hstep.
  destruct (smp_step_inv mask s a s' Hstep)
    as [(c & i & -> & Hc & Hout & [cx Hcx])|(c & i & -> & Hin)].
  - assert (∃ cx0, state_at tbl i = Some cx0) as [cx0 Hcx0].
    { apply state_at_Some in Hcx as [Hi Hcx]. apply lookup_lt_Some in Hcx.
      rewrite (inv_length _ _ _ Hinv) in Hcx.
      destruct (lookup_lt_is_Some_2 tbl _ Hcx) as [cx0 Hcx0].
      exists cx0. by apply state_at_Some. }
    destruct (smp_step_enter mask tbl Hpos Hfit s c i cx0 Hinv Hc Hout Hcx0)
      as (s1 & Hs1 & Hins & Htr & _ & _ & _ & Hle & _).
    assert (s1 = s') as -> by congruence.
    exists c, i, cx0. split; [done|]. left. done.
  - destruct (smp_step_exit mask tbl Hpos Hfit s c i Hinv Hin)
      as (cx0 & s1 & Hcx0 & Hs1 & Hins & Htr & _ & _ & _ & Hle & _).
    assert (s1 = s') as -> by congruence.
    exists c, i, cx0. split; [done|]. right. done.
Qed.

(** Induction over the runs from boot. *)
Lemma smp_reachable_ind mask tbl (P : smp_system → Prop) :
  votes_clear tbl → (0 < size mask)%nat → num_online_cpus mask < 2 ^ 32 →
  P (smp_boot tbl) →
  (∀ s a s', smp_invariant mask tbl s → P s → smp_step mask s a = Some s' → P s') →
  ∀ sched s, smp_run mask (smp_boot tbl) sched = Some s → P s.
Proof.
  intros Hclear Hpos Hfit Hboot Hstep sched.
  assert (Hgen : ∀ s0 s, smp_invariant mask tbl s0 → P s0 →
                         smp_run mask s0 sched = Some s → P s).
  { induction sched as [|a sched IH]; intros s0 s Hinv HP Hrun; simpl in Hrun.
    - by injection Hrun as <-.
    - destruct (smp_step mask s0 a) as [s1|] eqn:Hs; [|done].
      apply (IH s1 s); [|by eapply Hstep|done].
      by eapply (smp_step_invariant mask tbl Hpos Hfit). }
  intros s. apply Hgen; [|done]. by apply smp_boot_invariant.
Qed.

(** X8.  After any interleaving from boot, the counter of each state of
    the table equals the number of CPUs that are at that moment between
    the two halves of a call for that state; so once every CPU that
    entered has left, the table is again as it was at boot. *)
Theorem smp_counter_counts_cpus_inside (mask : gset nat) (tbl : list idle_statedata) sched s :
  votes_clear tbl → (0 < size mask)%nat → num_online_cpus mask < 2 ^ 32 →
  smp_run mask (smp_boot tbl) sched = Some s →
  (∀ index cx0, state_at tbl index = Some cx0 →
     vote_at s index = Some (Z.of_nat (voters (inside s) (Z.to_nat index)))) ∧
  (inside s = ∅ → state_ptr (sys_machine s) = tbl).
Proof.
  intros Hclear Hpos Hfit Hrun.
  pose proof (smp_reachable_invariant mask tbl Hclear Hpos Hfit sched s Hrun) as Hinv.
  split.
  - intros index cx0 Hcx0. apply state_at_Some in Hcx0 as [Hi Hcx0].
    unfold vote_at.
    assert (Hcx : state_at (state_ptr (sys_machine s)) index =
                  Some (with_vote cx0 (Z.of_nat (voters (inside s) (Z.to_nat index))))).
    { apply state_at_Some. split; [done|]. by apply (inv_table _ _ _ Hinv). }
    by rewrite Hcx.
  - intros Hempty. apply list_eq. intros p.
    destruct (tbl !! p) as [cx0|] eqn:Hp.
    + rewrite (inv_table _ _ _ Hinv p cx0 Hp), Hempty. unfold voters.
      rewrite map_filter_empty, map_size_empty.
      pose proof (Forall_lookup_1 _ _ _ _ Hclear Hp) as Hz. simpl in Hz.
      destruct cx0 as [a b v]. simpl in *. by subst v.
    + apply lookup_ge_None. rewrite (inv_length _ _ _ Hinv). by apply lookup_ge_None.
Qed.

Lemma smp_counter_counts_cpus_inside_witness :
  ∃ s, smp_run both_online (smp_boot omap4_idle_data)
         [Enter 0 1; Enter 1 2; Exit 0; Exit 1] = Some s ∧
    (∀ index cx0, state_at omap4_idle_data index = Some cx0 →
       vote_at s index = Some (Z.of_nat (voters (inside s) (Z.to_nat index)))) ∧
    (inside s = ∅ → state_ptr (sys_machine s) = omap4_idle_data).
Proof.
  eexists. split; [vm_compute; reflexivity|].
  apply (smp_counter_counts_cpus_inside both_online omap4_idle_data
           [Enter 0 1; Enter 1 2; Exit 0; Exit 1]).
  - repeat constructor.
  - vm_compute. lia.
  - vm_compute. reflexivity.
  - vm_compute. reflexivity.
Defined.

Lemma voters_full_all (mask : gset nat) (ins : gmap nat Z) p :
  dom ins ⊆ mask → voters ins p = size mask →
  ∀ c, c ∈ mask → ∃ i, ins !! c = Some i ∧ Z.to_nat i = p.
Proof.
  intros Hd Hfull c Hc. unfold voters in Hfull.
  set (f := filter (λ kv : nat * Z, Z.to_nat kv.2 = p) ins) in *.
  assert (Hsub : dom f ⊆ mask).
  { etrans; [|exact Hd]. apply subseteq_dom, map_filter_subseteq. }
  assert (Heq : dom f = mask).
  { apply set_subseteq_size_eq; [done|]. rewrite size_dom. lia. }
  rewrite <- Heq in Hc. apply elem_of_dom in Hc as [x Hx].
  apply map_lookup_filter_Some in Hx as [Hx HP]. eauto.
Qed.

Lemma voters_none (ins : gmap nat Z) q :
  (∀ c i, ins !! c = Some i → Z.to_nat i ≠ q) → voters ins q = 0%nat.
Proof.
  intros Hall. unfold voters.
  assert (Hempty : filter (λ kv : nat * Z, Z.to_nat kv.2 = q) ins = ∅).
  { apply map_empty. intros c. apply map_lookup_filter_None.
    destruct (ins !! c) as [i|] eqn:Hc; [right|by left].
    intros x Hx. injection Hx as <-. simpl. by apply (Hall c). }
  rewrite Hempty. apply map_size_empty.
Qed.

(** X9.  After any interleaving from boot, if the counter of a state
    equals the number of online CPUs, then every online CPU is inside a
    call for that very state, the counter of every other state is zero,
    and the MPU domain stands commanded to that state's target: the
    domain is never lowered on behalf of a state that not all online CPUs
    asked for. *)
Theorem smp_quorum_is_unanimous (mask : gset nat) (tbl : list idle_statedata)
    sched s index cx0 :
  votes_clear tbl → (0 < size mask)%nat → num_online_cpus mask < 2 ^ 32 →
  smp_run mask (smp_boot tbl) sched = Some s →
  state_at tbl index = Some cx0 →
  vote_at s index = Some (num_online_cpus mask) →
  (∀ c, c ∈ mask → inside s !! c = Some index) ∧
  (∀ j v, j ≠ index → vote_at s j = Some v → v = 0) ∧
  mpu_standing PWRDM_FUNC_PWRST_ON (trace (sys_machine s)) = mpu_pwrst cx0.
Proof.
  intros Hclear Hpos Hfit Hrun Hcx0 Hvote.
  pose proof (smp_reachable_invariant mask tbl Hclear Hpos Hfit sched s Hrun) as Hinv.
  destruct (vote_at_voters mask tbl s index _ Hinv Hvote) as (Hi & Hlt & Hfull).
  unfold num_online_cpus in Hfull. apply Nat2Z.inj in Hfull. symmetry in Hfull.
  assert (Hall : ∀ c i, inside s !! c = Some i → i = index).
  { intros c i Hc. destruct (inv_index _ _ _ Hinv c i Hc) as [Hi' _].
    pose proof (voters_full mask (inside s) _ c i (inv_online _ _ _ Hinv) Hfull Hc). lia. }
  split; [|split].
  - intros c Hc.
    destruct (voters_full_all mask (inside s) _ (inv_online _ _ _ Hinv) Hfull c Hc)
      as (i & Hin & _).
    by rewrite Hin, (Hall c i Hin).
  - intros j v Hj Hv. destruct (vote_at_voters mask tbl s j v Hinv Hv) as (Hj0 & _ & ->).
    rewrite voters_none; [done|]. intros c i Hc Heq. rewrite (Hall c i Hc) in Heq. lia.
  - apply state_at_Some in Hcx0 as [_ Hcx0]. unfold mpu_standing.
    revert index cx0 Hi Hlt Hfull Hall Hcx0 Hvote.
    apply (smp_reachable_ind mask tbl
             (λ s, ∀ index cx0, 0 ≤ index → (Z.to_nat index < length tbl)%nat →
                voters (inside s) (Z.to_nat index) = size mask →
                (∀ c i, inside s !! c = Some i → i = index) →
                tbl !! Z.to_nat index = Some cx0 →
                vote_at s index = Some (num_online_cpus mask) →
                default PWRDM_FUNC_PWRST_ON (last (mpu_commands (trace (sys_machine s))))
                = mpu_pwrst cx0) Hclear Hpos Hfit) with (sched := sched); [| |done].
    + intros index cx0 _ _ Hfull. unfold voters in Hfull. simpl in Hfull.
      rewrite map_filter_empty, map_size_empty in Hfull. lia.
    + clear s Hrun Hinv. intros s a s' Hinv _ Hstep index cx0 Hi Hlt Hfull Hall Hcx0 _.
      destruct (smp_step_cases mask tbl s a s' Hpos Hfit Hinv Hstep)
        as (c & i & cxi & Hcxi & [(-> & Hc & Hout & Hins & Hle & Htr)
                                  |(-> & Hin & Hins & Hle & Htr)]).
      * assert (i = index) as -> by (apply (Hall c); rewrite Hins; apply lookup_insert_eq).
        apply state_at_Some in Hcxi as [_ Hcxi]. rewrite Hcx0 in Hcxi. injection Hcxi as <-.
        rewrite Hins, voters_insert_same in Hfull by done.
        rewrite Htr, mpu_commands_app, mpu_commands_enter.
        cbn [with_vote mpu_state_vote mpu_pwrst cpu_env cpu_online_mask].
        assert (Hwrap : u32 (Z.of_nat (voters (inside s) (Z.to_nat index)) + 1)
                        = num_online_cpus mask).
        { unfold u32, num_online_cpus in *. rewrite Z.mod_small by lia. lia. }
        rewrite bool_decide_eq_true_2 by done. by rewrite last_snoc.
      * exfalso. pose proof (voters_le (inside s') (Z.to_nat index)) as Hv.
        pose proof (inside_le mask (inside s) (inv_online _ _ _ Hinv)) as Hcap.
        rewrite Hins in Hv. rewrite (map_size_delete_Some c (inside s)) in Hv by eauto.
        rewrite Hins in Hfull.
        assert (0 < size (inside s))%nat; [|lia].
        pose proof (voters_delete_same (inside s) c i Hin).
        pose proof (voters_le (inside s) (Z.to_nat i)). lia.
Qed.

Lemma smp_quorum_is_unanimous_witness :
  ∃ s, smp_run both_online (smp_boot omap4_idle_data) [Enter 1 2; Enter 0 2] = Some s ∧
    (∀ c, c ∈ both_online → inside s !! c = Some 2) ∧
    (∀ j v, j ≠ 2 → vote_at s j = Some v → v = 0) ∧
    mpu_standing PWRDM_FUNC_PWRST_ON (trace (sys_machine s)) = PWRDM_FUNC_PWRST_OSWR.
Proof.
  eexists. split; [vm_compute; reflexivity|].
  apply (smp_quorum_is_unanimous both_online omap4_idle_data [Enter 1 2; Enter 0 2] _ 2
           (mk_statedata PWRDM_FUNC_PWRST_OFF PWRDM_FUNC_PWRST_OSWR 0)).
  - repeat constructor.
  - vm_compute. lia.
  - vm_compute. reflexivity.
  - vm_compute. reflexivity.
  - reflexivity.
  - vm_compute. reflexivity.
Defined.

(** ** The lock *)

Lemma lock_discipline_app tr1 : ∀ held tr2,
  lock_discipline held tr1 = true →
  lock_discipline held (tr1 ++ tr2) = lock_discipline false tr2.
Proof.
  induction tr1 as [|e tr1 IH]; intros held tr2 Hd; simpl in *.
  - by destruct held.
  - destruct e, held; simpl in *; try done; by apply IH.
Qed.

Lemma smp_enter_events_discipline env index cx :
  lock_discipline false (smp_enter_events env index cx) = true.
Proof. unfold smp_enter_events. by case_bool_decide. Qed.

Lemma smp_exit_events_discipline env index cx :
  lock_discipline false (smp_exit_events env index cx) = true.
Proof. unfold smp_exit_events. by case_bool_decide. Qed.

(** X10.  The events of one CPU's call respect [mpu_lock], whatever the
    other CPUs did to the table before the call and between its two
    halves.  Reading the call's own events with the lock not held by this
    CPU at the start: it takes the lock only when it does not hold it and
    releases it only when it does, each of its stores to a vote counter
    and each of its commands to the MPU domain lies between its lock and
    its unlock, its broadcast notifications and its low-power entry lie
    outside (the CPU never goes to sleep holding the lock), and it does
    not hold the lock when it returns. *)
Theorem smp_call_respects_lock env index m1 m2 cx1 cx2 :
  state_at (state_ptr m1) index = Some cx1 →
  state_at (state_ptr m2) index = Some cx2 →
  (∃ m1' m2' evs1 evs2,
     smp_vote_enter env index m1 = Returned tt m1' ∧ trace m1' = trace m1 ++ evs1 ∧
     smp_vote_exit env index m2 = Returned tt m2' ∧ trace m2' = trace m2 ++ evs2 ∧
     last evs1 = Some (Ev_omap4_enter_lowpower (dev_cpu env) (cpu_pwrst cx1)) ∧
     lock_discipline false evs1 = true ∧
     lock_discipline false (evs1 ++ evs2) = true) ∧
  (∃ m' evs,
     omap_enter_idle_smp env index m1 = Returned index m' ∧ trace m' = trace m1 ++ evs ∧
     lock_discipline false evs = true).
Proof.
  intros Hcx1 Hcx2. split.
  - eexists _, _, _, _.
    split; [exact (smp_vote_enter_run env index m1 cx1 Hcx1)|]. split; [reflexivity|].
    split; [exact (smp_vote_exit_run env index m2 cx2 Hcx2)|]. split; [reflexivity|].
    split; [|split].
    + unfold smp_enter_events. by case_bool_decide.
    + apply smp_enter_events_discipline.
    + rewrite (lock_discipline_app _ _ _ (smp_enter_events_discipline env index cx1)).
      apply smp_exit_events_discipline.
  - destruct (omap_enter_idle_smp_run env index m1 cx1 Hcx1) as (m' & Hrun & Htr).
    eexists _, _. split; [exact Hrun|]. split; [exact Htr|].
    rewrite (lock_discipline_app _ _ _ (smp_enter_events_discipline env index cx1)).
    apply smp_exit_events_discipline.
Qed.

Lemma smp_call_respects_lock_witness :
  (∃ m1' m2' evs1 evs2,
     smp_vote_enter (cpu_env both_online 1) 1 omap4_machine = Returned tt m1' ∧
     trace m1' = trace omap4_machine ++ evs1 ∧
     smp_vote_exit (cpu_env both_online 1) 1 machine_at_quorum = Returned tt m2' ∧
     trace m2' = trace machine_at_quorum ++ evs2 ∧
     last evs1 = Some (Ev_omap4_enter_lowpower (dev_cpu (cpu_env both_online 1))
                         (cpu_pwrst (mk_statedata PWRDM_FUNC_PWRST_OFF PWRDM_FUNC_PWRST_CSWR 0))) ∧
     lock_discipline false evs1 = true ∧
     lock_discipline false (evs1 ++ evs2) = true) ∧
  (∃ m' evs,
     omap_enter_idle_smp (cpu_env both_online 1) 1 omap4_machine = Returned 1 m' ∧
     trace m' = trace omap4_machine ++ evs ∧
     lock_discipline false evs = true).
Proof.
  apply (smp_call_respects_lock (cpu_env both_online 1) 1 omap4_machine machine_at_quorum
           (mk_statedata PWRDM_FUNC_PWRST_OFF PWRDM_FUNC_PWRST_CSWR 0)
           (mk_statedata PWRDM_FUNC_PWRST_OFF PWRDM_FUNC_PWRST_CSWR 2)).
  - reflexivity.
  - reflexivity.
Defined.

(** ** Restoring the shared domain with CPU 1 online *)







(** ** More on initialisation *)

Lemma setup_timer_registrations cpus :
  registrations (Iv_setup_broadcast_timer <$> cpus) = [].
Proof.
  unfold registrations. induction cpus as [|c cpus IH]; [done|].
  rewrite fmap_cons, filter_cons_False; done.
Qed.

Lemma setup_timer_setups cpus : timer_setups (Iv_setup_broadcast_timer <$> cpus) = cpus.
Proof. unfold timer_setups. induction cpus as [|c cpus IH]; [done|]. simpl. by f_equal. Qed.

Lemma lookups_all_found p :
  ¬ lookup_fails p →
  is_null (pwrdm_lookup p "mpu_pwrdm") || is_null (pwrdm_lookup p "cpu0_pwrdm")
    || is_null (pwrdm_lookup p "cpu1_pwrdm") = false ∧
  is_null (clkdm_lookup p "mpu0_clkdm") || is_null (clkdm_lookup p "mpu1_clkdm") = false.
Proof.
  unfold lookup_fails. intros Hok.
  destruct (pwrdm_lookup p "mpu_pwrdm"); [|tauto].
  destruct (pwrdm_lookup p "cpu0_pwrdm"); [|tauto].
  destruct (pwrdm_lookup p "cpu1_pwrdm"); [|tauto].
  destruct (clkdm_lookup p "mpu0_clkdm"); [|tauto].
  destruct (clkdm_lookup p "mpu1_clkdm"); [|tauto].
  done.
Qed.

(** X11.  When all five lookups succeed and the SoC is an OMAP44xx or an
    OMAP54xx, [omap4_idle_init] looks the five domains up in source
    order, runs [omap_setup_broadcast_timer] once on each online CPU,
    then makes exactly one registration, as its last act: of
    [omap4_idle_driver] through [cpuidle_register] on OMAP44xx (tested
    first), else of [omap5_idle_driver] through
    [cpuidle_register_driver].  It points [state_ptr] at the matching
    table and returns the framework's status unchanged, whatever it is. *)
Theorem init_success_registers_once p g :
  ¬ lookup_fails p →
  cpu_is_omap44xx p = true ∨ soc_is_omap54xx p = true →
  ∃ status g' tr reg table,
    omap4_idle_init p g = (status, g', tr) ∧
    (if cpu_is_omap44xx p
     then reg = Iv_cpuidle_register omap4_idle_driver ∧
          status = cpuidle_register p omap4_idle_driver ∧ table = omap4_table
     else reg = Iv_cpuidle_register_driver omap5_idle_driver ∧
          status = cpuidle_register_driver p omap5_idle_driver ∧ table = omap5_table) ∧
    tr = power_domain_lookups ++ clock_domain_lookups
           ++ on_each_cpu_setup_broadcast_timer p ++ [reg] ∧
    registrations tr = [reg] ∧
    timer_setups tr = elements (online_cpus p) ∧
    g_state_ptr g' = Some table ∧
    g_mpu_pd g' = pwrdm_lookup p "mpu_pwrdm".
Proof.
  intros Hok Hsoc. destruct (lookups_all_found p Hok) as [Hpd Hcd].
  unfold omap4_idle_init. rewrite Hpd, Hcd.
  assert (Hshape : ∀ reg, is_registration reg = true →
    registrations (power_domain_lookups ++ clock_domain_lookups
                   ++ on_each_cpu_setup_broadcast_timer p ++ [reg]) = [reg] ∧
    timer_setups (power_domain_lookups ++ clock_domain_lookups
                  ++ on_each_cpu_setup_broadcast_timer p ++ [reg])
    = elements (online_cpus p)).
  { intros reg Hreg. unfold on_each_cpu_setup_broadcast_timer. split.
    - unfold registrations.
      rewrite !filter_app. fold (registrations (Iv_setup_broadcast_timer <$> elements (online_cpus p))).
      rewrite setup_timer_registrations. simpl. by rewrite filter_cons_True.
    - unfold timer_setups. rewrite !omap_app.
      fold (timer_setups (Iv_setup_broadcast_timer <$> elements (online_cpus p))).
      rewrite setup_timer_setups. destruct reg; try done; simpl; by rewrite app_nil_r. }
  destruct (cpu_is_omap44xx p) eqn:H4.
  - destruct (Hshape (Iv_cpuidle_register omap4_idle_driver) eq_refl) as [Hr Ht].
    eexists _, _, _, _, _. split; [reflexivity|]. split; [done|].
    split; [by rewrite <- !app_assoc|]. done.
  - destruct Hsoc as [?|H5]; [done|]. rewrite H5.
    destruct (Hshape (Iv_cpuidle_register_driver omap5_idle_driver) eq_refl) as [Hr Ht].
    eexists _, _, _, _, _. split; [reflexivity|]. split; [done|].
    split; [by rewrite <- !app_assoc|]. done.
Qed.

Lemma init_success_registers_once_witness :
  ∃ status g' tr reg table,
    omap4_idle_init omap4_busy no_globals = (status, g', tr) ∧
    (if cpu_is_omap44xx omap4_busy
     then reg = Iv_cpuidle_register omap4_idle_driver ∧
          status = cpuidle_register omap4_busy omap4_idle_driver ∧ table = omap4_table
     else reg = Iv_cpuidle_register_driver omap5_idle_driver ∧
          status = cpuidle_register_driver omap4_busy omap5_idle_driver ∧
          table = omap5_table) ∧
    tr = power_domain_lookups ++ clock_domain_lookups
           ++ on_each_cpu_setup_broadcast_timer omap4_busy ++ [reg] ∧
    registrations tr = [reg] ∧
    timer_setups tr = elements (online_cpus omap4_busy) ∧
    g_state_ptr g' = Some table ∧
    g_mpu_pd g' = pwrdm_lookup omap4_busy "mpu_pwrdm".
Proof.
  apply (init_success_registers_once omap4_busy no_globals).
  - unfold lookup_fails. simpl. intros [H|[H|[H|[H|H]]]]; discriminate H.
  - left. reflexivity.
Defined.

(** X12.  What a failing [omap4_idle_init] has done by the time it
    returns -ENODEV.  If a power-domain lookup fails, all three power
    domains have been looked up but no clock domain, and no broadcast
    timer has been set up.  If the power domains are found and a
    clock-domain lookup fails, all five lookups have been made and still
    no broadcast timer has been set up.  If every lookup succeeds and the
    SoC is neither kind, the broadcast timer has already been set up on
    every online CPU, and this is not undone.  In all three cases
    whatever the lookups made so far returned stays stored in the globals
    (the MPU handle, the per-CPU power-domain handles and, once looked
    up, the clock-domain handles), and [state_ptr] is left as it was. *)
Theorem init_failure_leaves_behind p g :
  let '(status, g', tr) := omap4_idle_init p g in
  let cpu_pds := <[1%nat := pwrdm_lookup p "cpu1_pwrdm"]>
                   (<[0%nat := pwrdm_lookup p "cpu0_pwrdm"]> (g_cpu_pd g)) in
  let cpu_clkdms := <[1%nat := clkdm_lookup p "mpu1_clkdm"]>
                      (<[0%nat := clkdm_lookup p "mpu0_clkdm"]> (g_cpu_clkdm g)) in
  (pwrdm_lookup p "mpu_pwrdm" = None ∨ pwrdm_lookup p "cpu0_pwrdm" = None ∨
   pwrdm_lookup p "cpu1_pwrdm" = None →
     status = - ENODEV ∧ tr = power_domain_lookups ∧ timer_setups tr = [] ∧
     g_mpu_pd g' = pwrdm_lookup p "mpu_pwrdm" ∧ g_cpu_clkdm g' = g_cpu_clkdm g ∧
     g_cpu_pd g' = cpu_pds ∧ g_state_ptr g' = g_state_ptr g) ∧
  (is_Some (pwrdm_lookup p "mpu_pwrdm") → is_Some (pwrdm_lookup p "cpu0_pwrdm") →
   is_Some (pwrdm_lookup p "cpu1_pwrdm") →
   clkdm_lookup p "mpu0_clkdm" = None ∨ clkdm_lookup p "mpu1_clkdm" = None →
     status = - ENODEV ∧ tr = power_domain_lookups ++ clock_domain_lookups ∧
     timer_setups tr = [] ∧ g_mpu_pd g' = pwrdm_lookup p "mpu_pwrdm" ∧
     g_cpu_pd g' = cpu_pds ∧ g_cpu_clkdm g' = cpu_clkdms ∧
     g_state_ptr g' = g_state_ptr g) ∧
  (¬ lookup_fails p → cpu_is_omap44xx p = false → soc_is_omap54xx p = false →
     status = - ENODEV ∧
     tr = power_domain_lookups ++ clock_domain_lookups ++ on_each_cpu_setup_broadcast_timer p ∧
     timer_setups tr = elements (online_cpus p) ∧ registrations tr = [] ∧
     g_mpu_pd g' = pwrdm_lookup p "mpu_pwrdm" ∧
     g_cpu_pd g' = cpu_pds ∧ g_cpu_clkdm g' = cpu_clkdms ∧
     g_state_ptr g' = g_state_ptr g).
Proof.
  unfold omap4_idle_init.
  destruct (pwrdm_lookup p "mpu_pwrdm") as [h1|] eqn:E1;
  destruct (pwrdm_lookup p "cpu0_pwrdm") as [h2|] eqn:E2;
  destruct (pwrdm_lookup p "cpu1_pwrdm") as [h3|] eqn:E3; simpl;
    try (split; [intros _; done|];
         split; [intros H1 H2 H3; by (destruct H1 as [? ?] || destruct H2 as [? ?]
                                      || destruct H3 as [? ?])|];
         intros Hok; exfalso; apply Hok; unfold lookup_fails; rewrite E1, E2, E3; tauto).
  destruct (clkdm_lookup p "mpu0_clkdm") as [c1|] eqn:F1;
  destruct (clkdm_lookup p "mpu1_clkdm") as [c2|] eqn:F2; simpl;
    try (split; [intros [H|[H|H]]; discriminate H|];
         split; [intros _ _ _ _; done|];
         intros Hok; exfalso; apply Hok; unfold lookup_fails;
         rewrite E1, E2, E3, F1, F2; tauto).
  destruct (cpu_is_omap44xx p), (soc_is_omap54xx p);
    (split; [intros [H|[H|H]]; discriminate H|]);
    (split; [intros _ _ _ [H|H]; discriminate H|]);
    intros _ H4 H5; try discriminate H4; try discriminate H5.
  split; [done|]. split; [done|].
  unfold on_each_cpu_setup_broadcast_timer. split; [|split; [|done]].
  - change (timer_setups (Iv_setup_broadcast_timer <$> elements (online_cpus p))
            = elements (online_cpus p)).
    apply setup_timer_setups.
  - unfold registrations. rewrite !filter_cons_False by done.
    apply setup_timer_registrations.
Qed.

Lemma init_failure_leaves_behind_witness :
  (let '(status, g', tr) := omap4_idle_init no_mpu_pwrdm no_globals in
   status = - ENODEV ∧ tr = power_domain_lookups ∧ timer_setups tr = [] ∧
   g_mpu_pd g' = pwrdm_lookup no_mpu_pwrdm "mpu_pwrdm" ∧
   g_cpu_clkdm g' = g_cpu_clkdm no_globals ∧
   g_cpu_pd g' = <[1%nat := pwrdm_lookup no_mpu_pwrdm "cpu1_pwrdm"]>
                   (<[0%nat := pwrdm_lookup no_mpu_pwrdm "cpu0_pwrdm"]> (g_cpu_pd no_globals)) ∧
   g_state_ptr g' = g_state_ptr no_globals) ∧
  (let '(status, g', tr) := omap4_idle_init no_mpu1_clkdm no_globals in
   status = - ENODEV ∧ tr = power_domain_lookups ++ clock_domain_lookups ∧
   timer_setups tr = [] ∧ g_mpu_pd g' = pwrdm_lookup no_mpu1_clkdm "mpu_pwrdm" ∧
   g_cpu_pd g' = <[1%nat := pwrdm_lookup no_mpu1_clkdm "cpu1_pwrdm"]>
                   (<[0%nat := pwrdm_lookup no_mpu1_clkdm "cpu0_pwrdm"]> (g_cpu_pd no_globals)) ∧
   g_cpu_clkdm g' = <[1%nat := clkdm_lookup no_mpu1_clkdm "mpu1_clkdm"]>
                      (<[0%nat := clkdm_lookup no_mpu1_clkdm "mpu0_clkdm"]>
                         (g_cpu_clkdm no_globals)) ∧
   g_state_ptr g' = g_state_ptr no_globals) ∧
  (let '(status, g', tr) := omap4_idle_init unknown_soc no_globals in
   status = - ENODEV ∧
   tr = power_domain_lookups ++ clock_domain_lookups
          ++ on_each_cpu_setup_broadcast_timer unknown_soc ∧
   timer_setups tr = elements (online_cpus unknown_soc) ∧ registrations tr = [] ∧
   g_mpu_pd g' = pwrdm_lookup unknown_soc "mpu_pwrdm" ∧
   g_cpu_pd g' = <[1%nat := pwrdm_lookup unknown_soc "cpu1_pwrdm"]>
                   (<[0%nat := pwrdm_lookup unknown_soc "cpu0_pwrdm"]> (g_cpu_pd no_globals)) ∧
   g_cpu_clkdm g' = <[1%nat := clkdm_lookup unknown_soc "mpu1_clkdm"]>
                      (<[0%nat := clkdm_lookup unknown_soc "mpu0_clkdm"]>
                         (g_cpu_clkdm no_globals)) ∧
   g_state_ptr g' = g_state_ptr no_globals).
Proof.
  split; [|split].
  - pose proof (init_failure_leaves_behind no_mpu_pwrdm no_globals) as H.
    destruct (omap4_idle_init no_mpu_pwrdm no_globals) as [[status g'] tr].
    apply H. left. reflexivity.
  - pose proof (init_failure_leaves_behind no_mpu1_clkdm no_globals) as H.
    destruct (omap4_idle_init no_mpu1_clkdm no_globals) as [[status g'] tr].
    apply H; try (by eexists). right. reflexivity.
  - pose proof (init_failure_leaves_behind unknown_soc no_globals) as H.
    destruct (omap4_idle_init unknown_soc no_globals) as [[status g'] tr].
    apply H; try reflexivity.
    unfold lookup_fails. simpl. intros [H0|[H0|[H0|[H0|H0]]]]; discriminate H0.
Defined.

(** * Properties of the HDMI EDID path *)

Ltac hsim_unfold :=
  unfold REG_FLD_MOD, REG_GET, store_byte, load_byte, hdmi_emit in *;
  unfold mbind, hsim_bind, mret, hsim_ret in *.

Lemma u8_small z : 0 ≤ z < 256 → u8 z = z.
Proof. intros Hz. unfold u8. by apply Z.mod_small. Qed.

Lemma hdmi_core_ddc_req_addr_run addr ext m :
  hdmi_core_ddc_req_addr addr ext m =
  Some (tt, mk_hdmi_machine (edid_buf m) (reg_reads m)
              (hdmi_trace m ++ req_addr_events addr ext)).
Proof.
  unfold hdmi_core_ddc_req_addr, req_addr_events. hsim_unfold.
  cbn [edid_buf reg_reads hdmi_trace].
  destruct (decide (u8 (Z.quot ext 2) ≠ 0)); cbn [edid_buf reg_reads hdmi_trace];
    by rewrite <- !app_assoc.
Qed.

Lemma ddc_edid_loop_step regs off ext fuel cur cks m :
  cur < 128 → (off + Z.to_nat cur < length (edid_buf m))%nat →
  ddc_edid_loop regs off ext (S fuel) cur cks m =
  ddc_edid_loop regs off ext fuel (u8 (cur + 1)) (u8 (cks + u8 (regs (reg_reads m))))
    (mk_hdmi_machine (<[(off + Z.to_nat cur)%nat := u8 (regs (reg_reads m))]> (edid_buf m))
       (S (reg_reads m))
       (hdmi_trace m ++ edid_turn_events regs ext (reg_reads m) cur)).
Proof.
  intros Hcur Hin. cbn [ddc_edid_loop]. rewrite decide_True by done.
  unfold mbind at 1, hsim_bind at 1. unfold hdmi_emit at 1.
  unfold mbind at 1, hsim_bind at 1. unfold REG_GET at 1. cbn [edid_buf reg_reads hdmi_trace].
  unfold mbind at 1, hsim_bind at 1. unfold store_byte at 1. cbn [edid_buf reg_reads hdmi_trace].
  rewrite decide_True by done.
  unfold mbind at 1, hsim_bind at 1. unfold load_byte at 1. cbn [edid_buf reg_reads hdmi_trace].
  rewrite list_lookup_insert_eq by done.
  unfold mbind at 1, hsim_bind at 1. unfold hdmi_emit at 1. cbn [edid_buf reg_reads hdmi_trace].
  unfold mbind at 1, hsim_bind at 1. rewrite hdmi_core_ddc_req_addr_run.
  cbn [edid_buf reg_reads hdmi_trace]. unfold edid_turn_events.
  by rewrite <- !app_assoc.
Qed.

(** The read loop from [cur_addr] on, in a buffer that has room for the
    whole block. *)
Lemma ddc_edid_loop_run regs off ext : ∀ fuel cur cks m,
  0 ≤ cur → cur + Z.of_nat fuel = 128 → (off + 128 ≤ length (edid_buf m))%nat →
  ∃ cks' buf' evs,
    ddc_edid_loop regs off ext fuel cur cks m =
      Some (cks', mk_hdmi_machine buf' (reg_reads m + fuel) (hdmi_trace m ++ evs)) ∧
    length buf' = length (edid_buf m) ∧
    (∀ k, buf' !! k =
          if decide (off + Z.to_nat cur ≤ k < off + 128)%nat
          then Some (u8 (regs (reg_reads m + (k - (off + Z.to_nat cur)))%nat))
          else edid_buf m !! k) ∧
    address_requests evs = (λ a, u8 (Z.rem ext 2 * 128 + a)) <$> seqZ (cur + 1) (Z.of_nat fuel) ∧
    segment_requests evs = replicate fuel (u8 (Z.quot ext 2)).
Proof.
  induction fuel as [|fuel IH]; intros cur cks m Hcur Hsum Hroom.
  - assert (cur = 128) as -> by lia. cbn [ddc_edid_loop]. rewrite decide_False by lia.
    exists cks, (edid_buf m), []. rewrite app_nil_r, Nat.add_0_r.
    split; [by destruct m|]. split; [done|]. split; [|done].
    intros k. rewrite decide_False by lia. done.
  - assert (Hlt : cur < 128) by lia.
    assert (Hin : (off + Z.to_nat cur < length (edid_buf m))%nat) by lia.
    rewrite (ddc_edid_loop_step regs off ext fuel cur cks m Hlt Hin).
    rewrite (u8_small (cur + 1)) by lia.
    match goal with |- context [ddc_edid_loop regs off ext fuel (cur + 1) ?c ?m1] =>
      destruct (IH (cur + 1) c m1) as (cks' & buf' & evs & Hrun & Hlen & Hbuf & Haddr & Hseg)
    end; [lia|lia|cbn [edid_buf]; by rewrite length_insert|].
    cbn [edid_buf reg_reads hdmi_trace] in *. rewrite length_insert in Hlen.
    exists cks', buf', (edid_turn_events regs ext (reg_reads m) cur ++ evs).
    split.
    { rewrite Hrun.
      replace (S (reg_reads m) + fuel)%nat with (reg_reads m + S fuel)%nat by lia.
      by rewrite <- app_assoc. }
    split; [done|]. split; [|split].
    + intros k. rewrite Hbuf.
      replace (Z.to_nat (cur + 1)) with (S (Z.to_nat cur)) by lia.
      destruct (decide (k = off + Z.to_nat cur)%nat) as [->|Hk].
      * rewrite decide_False by lia. rewrite decide_True by lia.
        rewrite list_lookup_insert_eq by lia. do 3 f_equal; lia.
      * rewrite list_lookup_insert_ne by done.
        destruct (decide (off + S (Z.to_nat cur) ≤ k < off + 128)%nat).
        -- rewrite decide_True by lia. do 3 f_equal; lia.
        -- rewrite decide_False by lia. done.
    + unfold address_requests in *. rewrite omap_app, Haddr.
      rewrite (seqZ_cons (cur + 1) (Z.of_nat (S fuel))) by lia.
      rewrite fmap_cons. unfold edid_turn_events, req_addr_events.
      rewrite (u8_small (cur + 1)) by lia.
      replace (Z.pred (Z.of_nat (S fuel))) with (Z.of_nat fuel) by lia.
      replace (Z.succ (cur + 1)) with (cur + 1 + 1) by lia.
      by destruct (decide (u8 (Z.quot ext 2) ≠ 0)).
    + unfold segment_requests in *. rewrite omap_app, Hseg.
      unfold edid_turn_events, req_addr_events.
      by destruct (decide (u8 (Z.quot ext 2) ≠ 0)).
Qed.

Lemma hdmi_core_ddc_init_run m :
  hdmi_core_ddc_init m =
  Some (tt, mk_hdmi_machine (edid_buf m) (reg_reads m) (hdmi_trace m ++ ddc_init_events)).
Proof.
  unfold hdmi_core_ddc_init, ddc_init_events. hsim_unfold.
  cbn [edid_buf reg_reads hdmi_trace]. by rewrite <- !app_assoc.
Qed.

(** One block: 128 bytes into [edid + off], 129 address requests. *)
Lemma hdmi_core_ddc_edid_run regs off ext m :
  (off + 128 ≤ length (edid_buf m))%nat →
  ∃ buf' evs,
    hdmi_core_ddc_edid regs off ext m =
      Some (0, mk_hdmi_machine buf' (reg_reads m + 128) (hdmi_trace m ++ evs)) ∧
    length buf' = length (edid_buf m) ∧
    (∀ k, buf' !! k =
          if decide (off ≤ k < off + 128)%nat
          then Some (u8 (regs (reg_reads m + (k - off))%nat))
          else edid_buf m !! k) ∧
    address_requests evs = (λ a, u8 (Z.rem ext 2 * 128 + a)) <$> seqZ 0 129 ∧
    segment_requests evs = replicate 129 (u8 (Z.quot ext 2)).
Proof.
  intros Hroom. unfold hdmi_core_ddc_edid.
  unfold mbind at 1, hsim_bind at 1. rewrite hdmi_core_ddc_req_addr_run.
  unfold mbind at 1, hsim_bind at 1. unfold REG_FLD_MOD at 1, hdmi_emit at 1.
  unfold mbind at 1, hsim_bind at 1. unfold REG_FLD_MOD at 1, hdmi_emit at 1.
  unfold mbind at 1, hsim_bind at 1. unfold REG_FLD_MOD at 1, hdmi_emit at 1.
  cbn [edid_buf reg_reads hdmi_trace].
  unfold mbind at 1, hsim_bind at 1.
  match goal with |- context [ddc_edid_loop regs off ext 128 0 0 ?m1] =>
    destruct (ddc_edid_loop_run regs off ext 128 0 0 m1)
      as (cks' & buf' & evs & Hrun & Hlen & Hbuf & Haddr & Hseg); [done|done|done|]
  end.
  rewrite Hrun. cbn [edid_buf reg_reads hdmi_trace] in *. unfold mret, hsim_ret.
  exists buf'. eexists. split; [by rewrite <- !app_assoc|]. split; [done|]. split; [|split].
  - intros k. rewrite Hbuf. by rewrite Nat.add_0_r.
  - unfold address_requests in *. rewrite !omap_app, Haddr.
    rewrite (seqZ_cons 0 129) by lia. rewrite fmap_cons. unfold req_addr_events.
    by destruct (decide (u8 (Z.quot ext 2) ≠ 0)).
  - unfold segment_requests in *. rewrite !omap_app, Hseg. unfold req_addr_events.
    by destruct (decide (u8 (Z.quot ext 2) ≠ 0)).
Qed.

(** The whole read for a buffer of at least 128 bytes. *)
Lemma ti_hdmi_5xxx_read_edid_run regs len m :
  128 ≤ len → len ≤ Z.of_nat (length (edid_buf m)) →
  let more := reads_second_block regs (reg_reads m) len in
  ∃ buf' evs,
    ti_hdmi_5xxx_read_edid regs len m =
      Some (Z.of_nat (blocks_length more),
            mk_hdmi_machine buf' (reg_reads m + blocks_length more) (hdmi_trace m ++ evs)) ∧
    length buf' = length (edid_buf m) ∧
    (∀ k, buf' !! k =
          if decide (k < blocks_length more)%nat
          then Some (u8 (regs (reg_reads m + k)%nat))
          else edid_buf m !! k) ∧
    address_requests evs = seqZ 0 129 ++ (if more then seqZ 128 128 ++ [0] else []) ∧
    segment_requests evs = replicate (if more then 258 else 129) 0.
Proof.
  intros Hlen Hbuf more. unfold ti_hdmi_5xxx_read_edid.
  rewrite decide_False by lia.
  unfold mbind at 1, hsim_bind at 1. rewrite hdmi_core_ddc_init_run.
  unfold mbind at 1, hsim_bind at 1.
  match goal with |- context [hdmi_core_ddc_edid regs 0 0 ?m1] =>
    destruct (hdmi_core_ddc_edid_run regs 0 0 m1)
      as (buf1 & evs1 & Hrun1 & Hlen1 & Hbuf1 & Haddr1 & Hseg1);
      [cbn [edid_buf]; lia|]
  end.
  rewrite Hrun1. cbn [edid_buf reg_reads hdmi_trace] in *.
  rewrite decide_False by (intros Hne; by apply Hne).
  assert (Hext : buf1 !! 126%nat = Some (u8 (regs (reg_reads m + 126)%nat))).
  { rewrite Hbuf1. rewrite decide_True by lia. do 3 f_equal; lia. }
  assert (Hfirst : address_requests (ddc_init_events ++ evs1) = seqZ 0 129 ∧
                   segment_requests (ddc_init_events ++ evs1) = replicate 129 0).
  { unfold address_requests, segment_requests in *. rewrite !omap_app, Haddr1, Hseg1.
    split; vm_compute; reflexivity. }
  destruct Hfirst as [Ha1 Hs1].
  unfold mbind at 1, hsim_bind at 1. subst more. unfold reads_second_block.
  destruct (decide (128 * 2 ≤ len)) as [Hbig|Hsmall].
  - unfold mbind at 1, hsim_bind at 1. unfold load_byte at 1. cbn [edid_buf].
    rewrite Hext. unfold mret at 1, hsim_ret at 1.
    destruct (bool_decide (0 < u8 (regs (reg_reads m + 126)%nat))) eqn:Hcount.
    + apply bool_decide_eq_true in Hcount.
      rewrite bool_decide_eq_true_2 by done. unfold blocks_length.
      unfold mbind at 1, hsim_bind at 1.
      match goal with |- context [hdmi_core_ddc_edid regs 128 1 ?m1] =>
        destruct (hdmi_core_ddc_edid_run regs 128 1 m1)
          as (buf2 & evs2 & Hrun2 & Hlen2 & Hbuf2 & Haddr2 & Hseg2);
          [cbn [edid_buf]; lia|]
      end.
      rewrite Hrun2. cbn [edid_buf reg_reads hdmi_trace] in *.
      rewrite decide_False by (intros Hne; by apply Hne). unfold mret, hsim_ret.
      exists buf2, (ddc_init_events ++ evs1 ++ evs2).
      split.
      { replace (reg_reads m + 128 + 128)%nat with (reg_reads m + 256)%nat by lia.
        by rewrite <- !app_assoc. }
      split; [congruence|]. split; [|split].
      * intros k. rewrite Hbuf2, Hbuf1.
        destruct (decide (128 ≤ k < 128 + 128)%nat).
        -- rewrite decide_True by lia. do 3 f_equal; lia.
        -- destruct (decide (0 ≤ k < 0 + 128)%nat).
           ++ rewrite decide_True by lia. do 3 f_equal; lia.
           ++ rewrite decide_False by lia. done.
      * unfold address_requests in *. rewrite app_assoc, omap_app, Ha1, Haddr2.
        f_equal.
      * unfold segment_requests in *. rewrite app_assoc, omap_app, Hs1, Hseg2.
        vm_compute. reflexivity.
    + apply bool_decide_eq_false in Hcount.
      rewrite bool_decide_eq_false_2 by (intros [_ ?]; done). unfold blocks_length.
      unfold mret, hsim_ret. exists buf1, (ddc_init_events ++ evs1).
      split; [by rewrite <- !app_assoc|]. split; [done|]. split; [|split].
      * intros k. rewrite Hbuf1. destruct (decide (0 ≤ k < 0 + 128)%nat).
        -- rewrite decide_True by lia. do 3 f_equal; lia.
        -- rewrite decide_False by lia. done.
      * by rewrite Ha1, app_nil_r.
      * done.
  - rewrite bool_decide_eq_false_2 by (intros [? _]; done). unfold blocks_length.
    unfold mret, hsim_ret. exists buf1, (ddc_init_events ++ evs1).
    split; [by rewrite <- !app_assoc|]. split; [done|]. split; [|split].
    * intros k. rewrite Hbuf1. destruct (decide (0 ≤ k < 0 + 128)%nat).
      -- rewrite decide_True by lia. do 3 f_equal; lia.
      -- rewrite decide_False by lia. done.
    * by rewrite Ha1, app_nil_r.
    * done.
Qed.

(** X13.  [ti_hdmi_5xxx_read_edid] on a buffer of [len] bytes.  With
    [len < 128] it returns -EINVAL and touches neither the hardware nor
    the buffer.  Otherwise it never fails: it returns 128 or 256, never
    more than [len]; it returns 256 exactly when [len >= 256] and byte
    0x7e of the first block is not zero; the number of bytes it reports
    is the number of data-register reads it made, the buffer keeps its
    length, its first [r] bytes are the values read, in order, cut to 8
    bits, and every byte from [r] on is as before. *)
Theorem read_edid_fills_buffer regs len m :
  len ≤ Z.of_nat (length (edid_buf m)) →
  ∃ r m',
    ti_hdmi_5xxx_read_edid regs len m = Some (r, m') ∧
    (len < 128 → r = - EINVAL ∧ m' = m) ∧
    (128 ≤ len →
       (r = 128 ∨ r = 256) ∧ r ≤ len ∧
       (r = 256 ↔ 256 ≤ len ∧ 0 < u8 (regs (reg_reads m + 126)%nat)) ∧
       reg_reads m' = (reg_reads m + Z.to_nat r)%nat ∧
       length (edid_buf m') = length (edid_buf m) ∧
       ∀ k, edid_buf m' !! k =
            if decide (Z.of_nat k < r)
            then Some (u8 (regs (reg_reads m + k)%nat))
            else edid_buf m !! k).
Proof.
  intros Hbuf. destruct (decide (len < 128)) as [Hshort|Hlong].
  - exists (- EINVAL), m. unfold ti_hdmi_5xxx_read_edid. rewrite decide_True by done.
    split; [done|]. split; [done|]. lia.
  - destruct (ti_hdmi_5xxx_read_edid_run regs len m ltac:(lia) Hbuf)
      as (buf' & evs & Hrun & Hlen & Hcontent & _ & _).
    eexists _, _. split; [exact Hrun|]. split; [lia|]. intros _.
    cbn [edid_buf reg_reads]. unfold reads_second_block, blocks_length in *.
    case_bool_decide as Hmore.
    + split; [by right|]. split; [lia|]. split; [done|]. split; [done|]. split; [done|].
      intros k. rewrite Hcontent. by repeat case_decide; try lia.
    + split; [by left|]. split; [lia|]. split; [split; [lia|done]|]. split; [done|].
      split; [done|].
      intros k. rewrite Hcontent. by repeat case_decide; try lia.
Qed.

Lemma read_edid_fills_buffer_witness :
  ∃ r m',
    ti_hdmi_5xxx_read_edid regs_all_one 300 blank_edid = Some (r, m') ∧
    (300 < 128 → r = - EINVAL ∧ m' = blank_edid) ∧
    (128 ≤ 300 →
       (r = 128 ∨ r = 256) ∧ r ≤ 300 ∧
       (r = 256 ↔ 256 ≤ 300 ∧ 0 < u8 (regs_all_one (reg_reads blank_edid + 126)%nat)) ∧
       reg_reads m' = (reg_reads blank_edid + Z.to_nat r)%nat ∧
       length (edid_buf m') = length (edid_buf blank_edid) ∧
       ∀ k, edid_buf m' !! k =
            if decide (Z.of_nat k < r)
            then Some (u8 (regs_all_one (reg_reads blank_edid + k)%nat))
            else edid_buf blank_edid !! k).
Proof.
  apply (read_edid_fills_buffer regs_all_one 300 blank_edid).
  vm_compute. discriminate.
Defined.

(** X14.  The addresses [ti_hdmi_5xxx_read_edid] asks the I2C master
    for.  Each block is read with 129 address requests, one more than the
    bytes it reads: 0 to 128 for the first block and, for the second,
    128 to 255 followed by 0, the address being a u8 that wraps.  The
    segment pointer is programmed with 0 at every request, so no block
    beyond the second is ever addressed. *)
Theorem read_edid_address_requests regs len m :
  128 ≤ len → len ≤ Z.of_nat (length (edid_buf m)) →
  ∃ r m' evs,
    ti_hdmi_5xxx_read_edid regs len m = Some (r, m') ∧
    hdmi_trace m' = hdmi_trace m ++ evs ∧
    address_requests evs = seqZ 0 129 ++ (if decide (r = 256) then seqZ 128 128 ++ [0] else []) ∧
    Forall (λ seg, seg = 0) (segment_requests evs) ∧
    length (segment_requests evs) = length (address_requests evs).
Proof.
  intros Hlen Hbuf.
  destruct (ti_hdmi_5xxx_read_edid_run regs len m Hlen Hbuf)
    as (buf' & evs & Hrun & _ & _ & Haddr & Hseg).
  eexists _, _, evs. split; [exact Hrun|]. split; [done|].
  rewrite Haddr, Hseg. unfold blocks_length.
  destruct (reads_second_block regs (reg_reads m) len); simpl decide.
  - split; [done|]. split; [apply Forall_replicate; done|]. vm_compute. reflexivity.
  - split; [done|]. split; [apply Forall_replicate; done|]. vm_compute. reflexivity.
Qed.

Lemma read_edid_address_requests_witness :
  ∃ r m' evs,
    ti_hdmi_5xxx_read_edid regs_all_one 300 blank_edid = Some (r, m') ∧
    hdmi_trace m' = hdmi_trace blank_edid ++ evs ∧
    address_requests evs = seqZ 0 129 ++ (if decide (r = 256) then seqZ 128 128 ++ [0] else []) ∧
    Forall (λ seg, seg = 0) (segment_requests evs) ∧
    length (segment_requests evs) = length (address_requests evs).
Proof.
  apply (read_edid_address_requests regs_all_one 300 blank_edid).
  - lia.
  - vm_compute. discriminate.
Defined.

(** * Properties of the bit-polling helper *)

(** Searching a flag below a bound: it is down everywhere, or there is a
    first place where it is up. *)
Lemma first_up_below (f : nat → bool) n :
  (∀ j, (j < n)%nat → f j = false) ∨
  ∃ n', (n' < n)%nat ∧ f n' = true ∧ ∀ j, (j < n')%nat → f j = false.
Proof.
  induction n as [|n [Hnone|(n' & Hlt & Hup & Hlow)]].
  - left. intros j Hj. lia.
  - destruct (f n) eqn:Hn.
    + right. exists n. split; [lia|]. done.
    + left. intros j Hj. destruct (decide (j = n)) as [->|]; [done|]. apply Hnone. lia.
  - right. exists n'. split; [lia|]. done.
Qed.

Lemma poll_rounds_S regs reg b2 b1 k n :
  poll_rounds regs reg b2 b1 k (S n) =
  poll_rounds regs reg b2 b1 k n ++ poll_round regs reg b2 b1 (k + n).
Proof.
  unfold poll_rounds. rewrite seq_S, flat_map_app.
  change (flat_map (poll_round regs reg b2 b1) [(k + n)%nat])
    with (poll_round regs reg b2 b1 (k + n) ++ []).
  by rewrite app_nil_r.
Qed.

(** [j] polls in a row that do not show [val], the counter staying
    within its bound. *)
Lemma wait_for_bit_loop_misses regs reg b2 b1 val : ∀ j fuel t m,
  (∀ i, (i < j)%nat → regs (reg_reads m + i)%nat ≠ val) →
  t + Z.of_nat j ≤ 10001 →
  wait_for_bit_loop regs reg b2 b1 val (j + fuel) t m =
  wait_for_bit_loop regs reg b2 b1 val fuel (t + Z.of_nat j)
    (mk_hdmi_machine (edid_buf m) (reg_reads m + j)
       (hdmi_trace m ++ poll_rounds regs reg b2 b1 (reg_reads m) j)).
Proof.
  induction j as [|j IH]; intros fuel t m Hmiss Ht.
  - unfold poll_rounds. simpl. rewrite Z.add_0_r, Nat.add_0_r, app_nil_r. by destruct m.
  - change (S j + fuel)%nat with (S (j + fuel)). cbn [wait_for_bit_loop].
    unfold mbind at 1, hsim_bind at 1. unfold REG_GET at 1.
    assert (H0 : val ≠ regs (reg_reads m)).
    { specialize (Hmiss 0%nat ltac:(lia)). rewrite Nat.add_0_r in Hmiss. congruence. }
    rewrite decide_True by done.
    unfold mbind at 1, hsim_bind at 1. unfold hdmi_emit at 1.
    cbn [edid_buf reg_reads hdmi_trace]. rewrite decide_False by lia.
    rewrite IH; cbn [edid_buf reg_reads hdmi_trace].
    + replace (t + 1 + Z.of_nat j) with (t + Z.of_nat (S j)) by lia.
      replace (S (reg_reads m) + j)%nat with (reg_reads m + S j)%nat by lia.
      change (poll_rounds regs reg b2 b1 (reg_reads m) (S j))
        with (poll_round regs reg b2 b1 (reg_reads m)
                ++ poll_rounds regs reg b2 b1 (S (reg_reads m)) j).
      unfold poll_round. by rewrite <- !app_assoc.
    + intros i Hi. replace (S (reg_reads m) + i)%nat with (reg_reads m + S i)%nat by lia.
      apply Hmiss. lia.
    + lia.
Qed.

Lemma logical_not_differs val : 0 ≤ val < 2 ^ 32 → logical_not val ≠ int_of_u32 val.
Proof.
  intros Hv. unfold logical_not, int_of_u32.
  destruct (decide (val = 0)) as [->|Hnz]; [done|].
  destruct (decide (val < 2 ^ 31)); lia.
Qed.

(** X15.  [hdmi_wait_for_bit_change] polls the field at most 10002
    times.  If one of these reads shows [val], it stops at the first such
    read, having delayed once after each earlier read, and returns
    [val]; if none does, it returns [!val] after 10002 reads and 10002
    delays.  For a u32 [val] the two results differ, so the result is
    [val] exactly when the field showed [val] within 10002 reads; the
    buffer is not touched. *)
Theorem hdmi_wait_for_bit_change_result regs reg b2 b1 val m :
  0 ≤ val < 2 ^ 32 →
  ∃ r m',
    hdmi_wait_for_bit_change regs reg b2 b1 val m = Some (r, m') ∧
    edid_buf m' = edid_buf m ∧
    ((∃ j, (j < max_polls)%nat ∧ regs (reg_reads m + j)%nat = val ∧
           (∀ i, (i < j)%nat → regs (reg_reads m + i)%nat ≠ val) ∧
           r = int_of_u32 val ∧ reg_reads m' = (reg_reads m + S j)%nat ∧
           hdmi_trace m' = hdmi_trace m ++ poll_rounds regs reg b2 b1 (reg_reads m) j
                             ++ [Hv_REG_GET reg b2 b1 val])
     ∨
     ((∀ i, (i < max_polls)%nat → regs (reg_reads m + i)%nat ≠ val) ∧
      r = logical_not val ∧ reg_reads m' = (reg_reads m + max_polls)%nat ∧
      hdmi_trace m' = hdmi_trace m ++ poll_rounds regs reg b2 b1 (reg_reads m) max_polls)) ∧
    (r = int_of_u32 val ↔ ∃ j, (j < max_polls)%nat ∧ regs (reg_reads m + j)%nat = val).
Proof.
  intros Hval. unfold hdmi_wait_for_bit_change. fold max_polls.
  assert (Hmax : Z.of_nat max_polls = 10002) by (unfold max_polls; lia).
  destruct (first_up_below (λ i, bool_decide (regs (reg_reads m + i)%nat = val)) max_polls)
    as [Hnone|(j & Hj & Hup & Hlow)].
  - assert (Hmiss : ∀ i, (i < max_polls)%nat → regs (reg_reads m + i)%nat ≠ val).
    { intros i Hi. specialize (Hnone i Hi). simpl in Hnone.
      by apply bool_decide_eq_false in Hnone. }
    destruct max_polls as [|n] eqn:Hn; [lia|].
    assert (Hrun : wait_for_bit_loop regs reg b2 b1 val (S n) 0 m =
              Some (logical_not val,
                    mk_hdmi_machine (edid_buf m) (S (reg_reads m + n))
                      (hdmi_trace m ++ poll_rounds regs reg b2 b1 (reg_reads m) (S n)))).
    { replace (S n) with (n + 1)%nat at 1 by lia.
      rewrite (wait_for_bit_loop_misses regs reg b2 b1 val n 1 0 m)
        by (try (intros i Hi; apply Hmiss); lia).
      cbn [wait_for_bit_loop]. unfold mbind at 1, hsim_bind at 1. unfold REG_GET at 1.
      cbn [edid_buf reg_reads hdmi_trace].
      assert (Hlast : val ≠ regs (reg_reads m + n)%nat).
      { intros Heq. apply (Hmiss n); [lia|done]. }
      rewrite decide_True by done.
      unfold mbind at 1, hsim_bind at 1. unfold hdmi_emit at 1.
      cbn [edid_buf reg_reads hdmi_trace]. rewrite decide_True by lia.
      unfold mret, hsim_ret. do 3 f_equal.
      rewrite poll_rounds_S. unfold poll_round. by rewrite <- !app_assoc. }
    rewrite Hrun. eexists _, _. split; [reflexivity|].
    cbn [edid_buf reg_reads hdmi_trace]. split; [done|]. split.
    + right. split; [done|]. split; [done|]. split; [lia|]. done.
    + split.
      * intros Heq. by apply logical_not_differs in Heq.
      * intros (i & Hi & Hshow). by apply Hmiss in Hshow.
  - simpl in Hup. apply bool_decide_eq_true in Hup.
    assert (Hmiss : ∀ i, (i < j)%nat → regs (reg_reads m + i)%nat ≠ val).
    { intros i Hi. specialize (Hlow i Hi). simpl in Hlow.
      by apply bool_decide_eq_false in Hlow. }
    assert (Hrun : wait_for_bit_loop regs reg b2 b1 val max_polls 0 m =
              Some (int_of_u32 val,
                    mk_hdmi_machine (edid_buf m) (S (reg_reads m + j))
                      (hdmi_trace m ++ poll_rounds regs reg b2 b1 (reg_reads m) j
                         ++ [Hv_REG_GET reg b2 b1 val]))).
    { replace max_polls with (j + S (max_polls - S j))%nat by lia.
      rewrite (wait_for_bit_loop_misses regs reg b2 b1 val j _ 0 m Hmiss) by lia.
      cbn [wait_for_bit_loop]. unfold mbind at 1, hsim_bind at 1. unfold REG_GET at 1.
      cbn [edid_buf reg_reads hdmi_trace]. rewrite Hup.
      rewrite decide_False by (intros Hne; by apply Hne).
      unfold mret, hsim_ret. do 3 f_equal. by rewrite <- !app_assoc. }
    rewrite Hrun. eexists _, _. split; [reflexivity|].
    cbn [edid_buf reg_reads hdmi_trace]. split; [done|]. split.
    + left. exists j. split; [done|]. split; [done|]. split; [done|]. split; [done|].
      split; [lia|]. done.
    + split; [|done]. intros _. by exists j.
Qed.

Lemma hdmi_wait_for_bit_change_result_witness :
  ∃ r m',
    hdmi_wait_for_bit_change regs_all_one HDMI_CORE_I2CM_INT 0 0 0 blank_edid = Some (r, m') ∧
    edid_buf m' = edid_buf blank_edid ∧
    ((∃ j, (j < max_polls)%nat ∧ regs_all_one (reg_reads blank_edid + j)%nat = 0 ∧
           (∀ i, (i < j)%nat → regs_all_one (reg_reads blank_edid + i)%nat ≠ 0) ∧
           r = int_of_u32 0 ∧ reg_reads m' = (reg_reads blank_edid + S j)%nat ∧
           hdmi_trace m' = hdmi_trace blank_edid
             ++ poll_rounds regs_all_one HDMI_CORE_I2CM_INT 0 0 (reg_reads blank_edid) j
             ++ [Hv_REG_GET HDMI_CORE_I2CM_INT 0 0 0])
     ∨
     ((∀ i, (i < max_polls)%nat → regs_all_one (reg_reads blank_edid + i)%nat ≠ 0) ∧
      r = logical_not 0 ∧ reg_reads m' = (reg_reads blank_edid + max_polls)%nat ∧
      hdmi_trace m' = hdmi_trace blank_edid
        ++ poll_rounds regs_all_one HDMI_CORE_I2CM_INT 0 0 (reg_reads blank_edid) max_polls)) ∧
    (r = int_of_u32 0 ↔
     ∃ j, (j < max_polls)%nat ∧ regs_all_one (reg_reads blank_edid + j)%nat = 0).
Proof.
  apply (hdmi_wait_for_bit_change_result regs_all_one HDMI_CORE_I2CM_INT 0 0 0 blank_edid).
  lia.
Defined.
